(** * PatchStudioPro core: a shallow embedding and its verified properties

    The development follows the layout of [src/patchstudio/core]:

    - [Py]                   the Python built-ins the core relies on
                             ([str.replace], [str.split], [str.strip], list
                             slicing, [list.sort], ...), with Python's semantics;
    - [Models]               [models.py]: Hunk, FilePatch, PatchSet;
    - [PatchInputNormalizer] [normalizer.py];
    - [UnifiedDiffParser]    [parser.py];
    - [PatchApplier]         [applier.py];
    - [Difflib]              the part of Python's [difflib] that [diffgen.py]
                             calls;
    - [DiffGenerator]        [diffgen.py];
    - [MemFS], [Examples]    an in-memory file system and concrete inputs;
    - [Spec]                 the specification's wording, as definitions;
    - [PyFacts] ... [RoundTripFacts]  the properties, one module per
                             component.

    A Python [str] is a sequence of Unicode code points: it is modelled as a
    list of [N].  Python integers are unbounded: they are modelled as [Z]. *)

From Stdlib Require Import ZArith NArith List Bool Lia String Ascii.
From stdpp Require Import base option list gmap.

(* ===================================================================== *)
(** * Python built-ins *)
(* ===================================================================== *)

Module Py.

(** A Python [str]: a list of code points. *)
Definition str := list N.

(** A string literal (ASCII only) as a Python [str]. *)
Definition lit (s : string) : str :=
  map N_of_ascii (list_ascii_of_string s).

Definition TAB : str := [9%N].
Definition LF : str := [10%N].
Definition CR : str := [13%N].
Definition CRLF : str := [13%N; 10%N].
(** U+FEFF, the byte order mark. *)
Definition BOM : str := [65279%N].

Section Sequences.
Context {A : Type} `{EqDecision A}.

(** [s == t] on sequences. *)
Definition eqb (s t : list A) : bool := bool_decide (s = t).

(** [s.startswith(prefix)]. *)
Fixpoint startswith (s prefix : list A) : bool :=
  match prefix, s with
  | [], _ => true
  | _ :: _, [] => false
  | c :: prefix', d :: s' => bool_decide (c = d) && startswith s' prefix'
  end.

(** [s.endswith(suffix)]. *)
Definition endswith (s suffix : list A) : bool :=
  startswith (rev s) (rev suffix).

(** [sub in s]. *)
Fixpoint contains (s sub : list A) : bool :=
  startswith s sub ||
  match s with
  | [] => false
  | _ :: s' => contains s' sub
  end.

(** The scan shared by [replace], [count] and [split] for a non-empty
    pattern: occurrences are found left to right and do not overlap.
    [skip] counts the elements of the current occurrence still to pass. *)
Fixpoint replace_scan (old new : list A) (skip : nat) (s : list A) : list A :=
  match s with
  | [] => []
  | c :: s' =>
      match skip with
      | S k => replace_scan old new k s'
      | O =>
          if startswith s old
          then new ++ replace_scan old new (length old - 1) s'
          else c :: replace_scan old new 0 s'
      end
  end.

(** [s.replace(old, new)]. *)
Definition replace (old new s : list A) : list A :=
  match old with
  | [] => new ++ flat_map (fun c => c :: new) s
  | _ :: _ => replace_scan old new 0 s
  end.

Fixpoint count_scan (sub : list A) (skip : nat) (s : list A) : nat :=
  match s with
  | [] => 0
  | _ :: s' =>
      match skip with
      | S k => count_scan sub k s'
      | O =>
          if startswith s sub
          then S (count_scan sub (length sub - 1) s')
          else count_scan sub 0 s'
      end
  end.

(** [s.count(sub)]: the number of non-overlapping occurrences. *)
Definition count (sub s : list A) : nat :=
  match sub with
  | [] => S (length s)
  | _ :: _ => count_scan sub 0 s
  end.

(** [cur] is the piece being read, in reverse. *)
Fixpoint split_scan (sep : list A) (skip : nat) (cur : list A) (s : list A)
  : list (list A) :=
  match s with
  | [] => [rev cur]
  | c :: s' =>
      match skip with
      | S k => split_scan sep k cur s'
      | O =>
          if startswith s sep
          then rev cur :: split_scan sep (length sep - 1) [] s'
          else split_scan sep 0 (c :: cur) s'
      end
  end.

(** [s.split(sep)] for a non-empty separator (Python raises ValueError on an
    empty one; the core only splits on one-character separators). *)
Definition split (sep s : list A) : list (list A) := split_scan sep 0 [] s.

(** [s.split(sep, 1)[0]]: the part before the first separator. *)
Definition split_first (sep s : list A) : list A :=
  match split sep s with
  | [] => []
  | p :: _ => p
  end.

(** [sep.join(parts)]. *)
Fixpoint join (sep : list A) (parts : list (list A)) : list A :=
  match parts with
  | [] => []
  | [p] => p
  | p :: rest => p ++ sep ++ join sep rest
  end.

(** [s.lstrip(chars)]: drops every leading element that occurs in [chars]. *)
Fixpoint lstrip_chars (chars : list A) (s : list A) : list A :=
  match s with
  | [] => []
  | c :: s' =>
      if bool_decide (c ∈ chars) then lstrip_chars chars s' else s
  end.

(** [s.rstrip(chars)]. *)
Definition rstrip_chars (chars : list A) (s : list A) : list A :=
  rev (lstrip_chars chars (rev s)).

End Sequences.

(** [str.isspace] on one code point; also what [\s] matches in a [str]
    pattern and what [str.strip()] removes. *)
Definition isspace (c : N) : bool :=
  ((9 <=? c) && (c <=? 13) || (28 <=? c) && (c <=? 32)
   || (c =? 133) || (c =? 160) || (c =? 5760)
   || (8192 <=? c) && (c <=? 8202)
   || (c =? 8232) || (c =? 8233) || (c =? 8239) || (c =? 8287)
   || (c =? 12288))%N.

Fixpoint lstrip (s : str) : str :=
  match s with
  | [] => []
  | c :: s' => if isspace c then lstrip s' else s
  end.

Definition rstrip (s : str) : str := rev (lstrip (rev s)).

(** [s.strip()]. *)
Definition strip (s : str) : str := rstrip (lstrip s).

(** [re.sub(r"\s+", " ", s)]: every maximal run of whitespace becomes one
    space.  [in_run] tells that the previous code point was whitespace. *)
Fixpoint collapse_ws_from (in_run : bool) (s : str) : str :=
  match s with
  | [] => []
  | c :: s' =>
      if isspace c
      then (if in_run then collapse_ws_from true s'
            else 32%N :: collapse_ws_from true s')
      else c :: collapse_ws_from false s'
  end.

Definition collapse_ws (s : str) : str := collapse_ws_from false s.

(** ASCII decimal digits.  ([\d] in a [str] pattern and [int()] also accept
    the other decimal digits of Unicode category Nd, which this model leaves
    out.) *)
Definition isdigit (c : N) : bool := ((48 <=? c) && (c <=? 57))%N.

Definition digit_value (c : N) : Z := Z.of_N c - 48.

(** [int(s)] for a run of digits. *)
Definition int_of_digits (s : str) : Z :=
  fold_left (fun acc c => 10 * acc + digit_value c)%Z s 0%Z.

(** The decimal digits of a natural number, used by [str(n)]. *)
Fixpoint digits_fuel (fuel : nat) (n : N) (acc : str) : str :=
  match fuel with
  | O => acc
  | S fuel' =>
      let acc' := (48 + n mod 10)%N :: acc in
      if (n <? 10)%N then acc' else digits_fuel fuel' (n / 10)%N acc'
  end.

(** [str(n)] for an integer. *)
Definition str_of_int (z : Z) : str :=
  if (z <? 0)%Z
  then 45%N :: digits_fuel (S (N.to_nat (N.log2 (Z.to_N (- z))))) (Z.to_N (- z)) []
  else digits_fuel (S (N.to_nat (N.log2 (Z.to_N z)))) (Z.to_N z) [].

Section Lists.
Context {A : Type}.

(** [len(l)] as a Python integer. *)
Definition len (l : list A) : Z := Z.of_nat (length l).

(** The normalisation of a slice bound: negative bounds count from the end,
    and the result is clamped to [0, len]. *)
Definition slice_bound (l : list A) (i : Z) : nat :=
  if (i <? 0)%Z then Z.to_nat (Z.max 0 (len l + i))
  else Z.to_nat (Z.min i (len l)).

(** [l[:i]]. *)
Definition slice_to (l : list A) (i : Z) : list A := take (slice_bound l i) l.

(** [l[i:]]. *)
Definition slice_from (l : list A) (i : Z) : list A := drop (slice_bound l i) l.

(** [l[i:j]]. *)
Definition slice (l : list A) (i j : Z) : list A :=
  take (slice_bound l j - slice_bound l i) (drop (slice_bound l i) l).

(** [l[i]]: [None] stands for IndexError. *)
Definition getitem (l : list A) (i : Z) : option A :=
  if (i <? 0)%Z
  then (if (len l + i <? 0)%Z then None else l !! Z.to_nat (len l + i))
  else l !! Z.to_nat i.

(** [l[at:at] = items] for an [at] within [0, len]. *)
Definition insert_at (l : list A) (at_ : nat) (items : list A) : list A :=
  take at_ l ++ items ++ drop at_ l.

(** [range(start, stop)]. *)
Definition range (start stop : Z) : list Z :=
  map (fun k => (start + Z.of_nat k)%Z) (seq 0 (Z.to_nat (stop - start))).

(** Insertion of [x] in front of the first element whose key is not
    smaller: the building block of a stable ascending sort. *)
Fixpoint sort_insert {K} (ltb : K -> K -> bool) (key : A -> K) (x : A)
  (l : list A) : list A :=
  match l with
  | [] => [x]
  | y :: l' =>
      if ltb (key y) (key x) then y :: sort_insert ltb key x l'
      else x :: l
  end.

(** [l.sort(key=key)]: ascending in the key and stable. *)
Definition sort_by {K} (ltb : K -> K -> bool) (key : A -> K) (l : list A)
  : list A :=
  foldr (sort_insert ltb key) [] l.

End Lists.

(** [<] on pairs of integers, as Python compares tuples. *)
Definition pair_ltb (a b : Z * Z) : bool :=
  ((a.1 <? b.1) || (a.1 =? b.1) && (a.2 <? b.2))%Z.

End Py.

(** [u "abc"] reads like a Python literal. *)
Abbreviation u := Py.lit.

(* ===================================================================== *)
(** * models.py *)
(* ===================================================================== *)

Module Models.

(** [Hunk.lines] holds [(tag, text)] pairs; the tag is a Python [str]. *)
Record Hunk := mkHunk {
  old_start : Z;
  old_count : Z;
  new_start : Z;
  new_count : Z;
  header : Py.str;
  lines : list (Py.str * Py.str)
}.

(** [FilePatch.operation]: one of the four strings the parser produces. *)
Inductive Operation := Create | Modify | Delete | Rename.

(** The three dialect strings of [PatchInputNormalizer]. *)
Inductive Dialect := DIALECT_CLASSIC | DIALECT_GIT | DIALECT_INDEX.

(** [FilePatch.metadata] is a [Dict[str, Any]]; the values the parser stores
    are strings, or [None] for an absent index path. *)
Record FilePatch := mkFilePatch {
  old_path : Py.str;
  new_path : Py.str;
  display_path : Py.str;
  operation : Operation;
  hunks : list Hunk;
  is_binary : bool;
  binary_reason : Py.str;
  metadata : gmap Py.str (option Py.str)
}.

Record PatchSet := mkPatchSet {
  dialect : Dialect;
  files : list FilePatch
}.

Definition total_hunks (ps : PatchSet) : nat :=
  foldr (fun fp n => length (hunks fp) + n) 0 (files ps).

Definition total_files (ps : PatchSet) : nat := length (files ps).

#[global] Instance Operation_eq_dec : EqDecision Operation.
Proof. solve_decision. Defined.

#[global] Instance Dialect_eq_dec : EqDecision Dialect.
Proof. solve_decision. Defined.

End Models.

(* ===================================================================== *)
(** * normalizer.py *)
(* ===================================================================== *)

Module PatchInputNormalizer.
Import Models.

(** The [header] dictionary of a block. *)
Inductive BlockHeader :=
| HeaderEmpty
| HeaderDiffGit (line : Py.str)
| HeaderIndex (path : Py.str)
| HeaderClassic.

(** A file block.  [has_binary_indicator] is absent ([None]) until
    [normalize] fills it in. *)
Record FileBlock := mkFileBlock {
  block_header : BlockHeader;
  block_text : Py.str;
  block_dialect : Dialect;
  index_path : option Py.str;
  has_binary_indicator : option bool
}.

Definition BIN_PATTERNS : list Py.str :=
  [u "GIT binary patch"; u "Binary files "].

Definition _has_binary_indicator (text : Py.str) : bool :=
  existsb (fun pat => Py.contains text pat) BIN_PATTERNS.

(** The loop state shared by the three splitters: the blocks emitted so
    far, the lines of the block being read, and its header. *)
Record SplitState := mkSplitState {
  blocks : list FileBlock;
  cur : list Py.str;
  cur_header : BlockHeader;
  cur_index_path : option Py.str
}.

Definition split_init : SplitState := mkSplitState [] [] HeaderEmpty None.

(** [blocks.append({...})] when [cur] is not empty. *)
Definition flush (d : Dialect) (st : SplitState) : list FileBlock :=
  match cur st with
  | [] => blocks st
  | _ :: _ =>
      blocks st ++
      [mkFileBlock (cur_header st) (Py.join Py.LF (cur st) ++ Py.LF) d
         (cur_index_path st) None]
  end.

(** [cur.append(line)] when a block is open, else the line is dropped. *)
Definition keep_line (line : Py.str) (st : SplitState) : SplitState :=
  match cur st with
  | [] => st
  | _ :: _ =>
      mkSplitState (blocks st) (cur st ++ [line]) (cur_header st)
        (cur_index_path st)
  end.

Definition git_iter (st : SplitState) (line : Py.str) : SplitState :=
  if Py.startswith line (u "diff --git ")
  then mkSplitState (flush DIALECT_GIT st) [line] (HeaderDiffGit line) None
  else keep_line line st.

Definition _split_git_blocks (text : Py.str) : list FileBlock :=
  flush DIALECT_GIT (fold_left git_iter (Py.split Py.LF text) split_init).

Definition index_iter (st : SplitState) (line : Py.str) : SplitState :=
  if Py.startswith line (u "Index: ")
  then
    let path := Py.strip (drop (length (u "Index: ")) line) in
    mkSplitState (flush DIALECT_INDEX st) [line] (HeaderIndex path) (Some path)
  else keep_line line st.

Definition _split_index_blocks (text : Py.str) : list FileBlock :=
  flush DIALECT_INDEX (fold_left index_iter (Py.split Py.LF text) split_init).

(** The inner look-ahead loop of [_split_classic_blocks]:
    [while j < min(i + 60, len(lines))], started at [j = i + 1].  [bound]
    is [min(i + 60, len(lines))]. *)
Fixpoint look_ahead (lines : list Py.str) (bound : nat) (fuel : nat) (j : nat)
  : bool :=
  match fuel with
  | O => false
  | S fuel' =>
      if j <? bound then
        if Py.startswith (nth j lines []) (u "+++ ") then true
        else if Py.startswith (nth j lines []) (u "@@ ") then false
        else look_ahead lines bound fuel' (S j)
      else false
  end.

(** [found_ppp] for the ["--- "] line at index [i]. *)
Definition found_ppp (lines : list Py.str) (i : nat) : bool :=
  look_ahead lines (Nat.min (i + 60) (length lines)) 60 (i + 1).

(** One iteration of the outer [while i < len(lines)] loop. *)
Definition classic_iter (lines : list Py.str) (i : nat) (st : SplitState)
  : SplitState :=
  let line := nth i lines [] in
  if Py.startswith line (u "--- ") then
    if found_ppp lines i
    then mkSplitState (flush DIALECT_CLASSIC st) [line] HeaderClassic None
    else keep_line line st
  else keep_line line st.

Fixpoint classic_loop (lines : list Py.str) (fuel : nat) (i : nat)
  (st : SplitState) : SplitState :=
  match fuel with
  | O => st
  | S fuel' =>
      if i <? length lines
      then classic_loop lines fuel' (S i) (classic_iter lines i st)
      else st
  end.

Definition _split_classic_blocks (text : Py.str) : list FileBlock :=
  let lines := Py.split Py.LF text in
  flush DIALECT_CLASSIC (classic_loop lines (length lines) 0 split_init).

(** The text [normalize] works on, after the BOM and line-ending steps. *)
Definition normalize_text (raw_text : Py.str) : Py.str :=
  let raw_text :=
    if Py.startswith raw_text Py.BOM then Py.lstrip_chars Py.BOM raw_text
    else raw_text in
  Py.replace Py.CR Py.LF (Py.replace Py.CRLF Py.LF raw_text).

Definition mark_binary (b : FileBlock) : FileBlock :=
  mkFileBlock (block_header b) (block_text b) (block_dialect b) (index_path b)
    (Some (_has_binary_indicator (block_text b))).

Definition normalize (raw_text : Py.str)
  : Py.str * Dialect * list FileBlock :=
  let raw_text := normalize_text raw_text in
  let lines := Py.split Py.LF raw_text in
  let has_hunk := existsb (fun l => Py.startswith l (u "@@")) lines in
  let has_git := existsb (fun l => Py.startswith l (u "diff --git ")) lines in
  let has_index := existsb (fun l => Py.startswith l (u "Index: ")) lines in
  let has_headers :=
    existsb (fun l => Py.startswith l (u "--- ")) lines
    && existsb (fun l => Py.startswith l (u "+++ ")) lines in
  let dialect :=
    if has_git then DIALECT_GIT
    else if has_index then DIALECT_INDEX
    else if has_headers && has_hunk then DIALECT_CLASSIC
    else if has_hunk then DIALECT_CLASSIC
    else DIALECT_CLASSIC in
  let file_blocks :=
    if has_git then _split_git_blocks raw_text
    else if has_index then _split_index_blocks raw_text
    else _split_classic_blocks raw_text in
  (raw_text, dialect, map mark_binary file_blocks).

End PatchInputNormalizer.

(* ===================================================================== *)
(** * parser.py *)
(* ===================================================================== *)

Module UnifiedDiffParser.
Import Models PatchInputNormalizer.

Definition DEV_NULL : Py.str := u "/dev/null".

(** Truthiness of [metadata.get(key)]: the key is present and its value is
    neither [None] nor the empty string. *)
Definition md_truthy (md : gmap Py.str (option Py.str)) (key : Py.str) : bool :=
  match md !! key with
  | Some (Some (_ :: _)) => true
  | _ => false
  end.

Definition _strip_prefix_ab (p : Py.str) : Py.str :=
  let p := Py.strip p in
  if Py.startswith p (u "a/") && (2 <? length p) then drop 2 p
  else if Py.startswith p (u "b/") && (2 <? length p) then drop 2 p
  else p.

Definition _parse_path_from_header_line (line prefix : Py.str) : Py.str :=
  let rest := drop (length prefix) line in
  if Py.contains rest Py.TAB
  then Py.strip (Py.split_first Py.TAB rest)
  else Py.strip rest.

Definition _infer_operation (old_path new_path : Py.str)
  (md : gmap Py.str (option Py.str)) : Operation :=
  if md_truthy md (u "new_file_mode") || Py.eqb old_path DEV_NULL then Create
  else if md_truthy md (u "deleted_file_mode") || Py.eqb new_path DEV_NULL
  then Delete
  else if md_truthy md (u "rename_from") || md_truthy md (u "rename_to")
  then Rename
  else if negb (Py.eqb old_path new_path) && negb (Py.eqb old_path DEV_NULL)
          && negb (Py.eqb new_path DEV_NULL)
  then Rename
  else Modify.

(** ** The two regular expressions, as hand-written matchers

    Both are applied to one line of an LF-split text, which holds no LF. *)

(** The leading run of code points satisfying [p], and the rest. *)
Fixpoint span (p : N -> bool) (s : Py.str) : Py.str * Py.str :=
  match s with
  | [] => ([], [])
  | c :: s' =>
      if p c then let '(a, b) := span p s' in (c :: a, b) else ([], s)
  end.

(** A literal prefix. *)
Definition eat (prefix s : Py.str) : option Py.str :=
  if Py.startswith s prefix then Some (drop (length prefix) s) else None.

(** [\s+]. *)
Definition eat_spaces (s : Py.str) : option Py.str :=
  match span Py.isspace s with
  | ([], _) => None
  | (_, rest) => Some rest
  end.

(** [(\d+)(?:,(\d+))?]. *)
Definition eat_range (s : Py.str) : option (Py.str * option Py.str * Py.str) :=
  match span Py.isdigit s with
  | ([], _) => None
  | (start, rest) =>
      match rest with
      | 44%N :: rest' =>
          match span Py.isdigit rest' with
          | ([], _) => Some (start, None, rest)
          | (cnt, rest'') => Some (start, Some cnt, rest'')
          end
      | _ => Some (start, None, rest)
      end
  end.

(** [RE_HUNK]: the pattern [^@@\s+\-(\d+)(?:,(\d+))?\s+\+(\d+)(?:,(\d+))?\s+@@]
    followed by a fifth group that takes the rest of the line.  The result
    holds the five groups of a match. *)
Definition RE_HUNK (ln : Py.str)
  : option (Py.str * option Py.str * Py.str * option Py.str * Py.str) :=
  s ← eat (u "@@") ln;
  s ← eat_spaces s;
  s ← eat (u "-") s;
  '(g1, g2, s) ← eat_range s;
  s ← eat_spaces s;
  s ← eat (u "+") s;
  '(g3, g4, s) ← eat_range s;
  s ← eat_spaces s;
  s ← eat (u "@@") s;
  Some (g1, g2, g3, g4, s).

(** The lazy first group of [RE_DIFF_GIT]: the shortest non-empty prefix
    that is followed by a space and at least one more code point.  [k] is
    the length of the prefix read so far, in reverse in [acc]. *)
Fixpoint lazy_group (acc : Py.str) (s : Py.str) : option (Py.str * Py.str) :=
  match s with
  | [] => None
  | c :: s' =>
      match acc, c, s' with
      | _ :: _, 32%N, _ :: _ => Some (rev acc, s')
      | _, _, _ => lazy_group (c :: acc) s'
      end
  end.

(** [RE_DIFF_GIT = ^diff --git (.+?) (.+?)\s*$]: the two groups. *)
Definition RE_DIFF_GIT (ln : Py.str) : option (Py.str * Py.str) :=
  s ← eat (u "diff --git ") ln;
  '(g1, tail) ← lazy_group [] s;
  Some (g1, take (Nat.max 1 (length (Py.rstrip tail))) tail).

(** ** Hunks *)

(** [current.lines.append(entry)]. *)
Definition hunk_append (h : Hunk) (entry : Py.str * Py.str) : Hunk :=
  mkHunk (old_start h) (old_count h) (new_start h) (new_count h) (header h)
    (lines h ++ [entry]).

Definition group_count (g : option Py.str) : Z :=
  match g with
  | Some d => Py.int_of_digits d
  | None => 1
  end.

(** The [while] loop of [_parse_hunks_from]: [hunks] and [current] are the
    loop variables. *)
Fixpoint hunks_loop (hunks : list Hunk) (current : option Hunk)
  (lns : list Py.str) : list Hunk * option Hunk :=
  match lns with
  | [] => (hunks, current)
  | ln :: rest =>
      match RE_HUNK ln with
      | Some (g1, g2, g3, g4, _) =>
          let hunks' :=
            match current with
            | Some c => hunks ++ [c]
            | None => hunks
            end in
          hunks_loop hunks'
            (Some (mkHunk (Py.int_of_digits g1) (group_count g2)
                          (Py.int_of_digits g3) (group_count g4)
                          (Py.strip ln) []))
            rest
      | None =>
          match current with
          | None => hunks_loop hunks None rest
          | Some c =>
              if Py.startswith ln (u "\ No newline at end of file")
              then hunks_loop hunks current rest
              else
                match ln with
                | [] => hunks_loop hunks (Some (hunk_append c (u " ", []))) rest
                | tag :: text =>
                    if bool_decide ([tag] ∈ [u " "; u "+"; u "-"])
                    then hunks_loop hunks (Some (hunk_append c ([tag], text))) rest
                    else hunks_loop hunks (Some (hunk_append c (u " ", ln))) rest
                end
          end
      end
  end.

Definition _parse_hunks_from (lns : list Py.str) : list Hunk :=
  match hunks_loop [] None lns with
  | (hunks, Some c) => hunks ++ [c]
  | (hunks, None) => hunks
  end.

(** ** Blocks *)

(** The binary-indicator scan at the head of each block parser: the reason
    string of the first line that carries an indicator. *)
Fixpoint binary_reason_of (lns : list Py.str) : option Py.str :=
  match lns with
  | [] => None
  | ln :: rest =>
      if Py.startswith ln (u "GIT binary patch")
      then Some (u "GIT binary patch unsupported")
      else if Py.startswith ln (u "Binary files ")
      then Some (u "Binary files differ (unsupported)")
      else binary_reason_of rest
  end.

(** [a or b] on strings. *)
Definition str_or (a b : Py.str) : Py.str :=
  match a with
  | [] => b
  | _ :: _ => a
  end.

(** A header path, stripped of its [a/]/[b/] prefix unless it is the
    [/dev/null] sentinel. *)
Definition header_path (hdr : Py.str) : Py.str :=
  if Py.eqb hdr DEV_NULL then DEV_NULL else _strip_prefix_ab hdr.

(** The loop that looks for the ["+++ "] line: the header path, if found,
    and the lines after it ([lines[i:]]). *)
Fixpoint find_new_header (lns : list Py.str) : option Py.str * list Py.str :=
  match lns with
  | [] => (None, [])
  | ln :: rest =>
      if Py.startswith ln (u "+++ ")
      then (Some (_parse_path_from_header_line ln (u "+++ ")), rest)
      else find_new_header rest
  end.

(** The same for the ["--- "] line. *)
Fixpoint find_old_header (lns : list Py.str) : option Py.str * list Py.str :=
  match lns with
  | [] => (None, [])
  | ln :: rest =>
      if Py.startswith ln (u "--- ")
      then (Some (_parse_path_from_header_line ln (u "--- ")), rest)
      else find_old_header rest
  end.

(** The metadata loop of [_parse_git_block], from [lines[1]] on. *)
Fixpoint git_metadata_loop (md : gmap Py.str (option Py.str))
  (lns : list Py.str)
  : gmap Py.str (option Py.str) * option Py.str * list Py.str :=
  match lns with
  | [] => (md, None, [])
  | ln :: rest =>
      if Py.startswith ln (u "index ")
      then git_metadata_loop (<[u "index" := Some (Py.strip ln)]> md) rest
      else if Py.startswith ln (u "old mode ")
      then git_metadata_loop (<[u "old_mode" := Some (Py.strip ln)]> md) rest
      else if Py.startswith ln (u "new mode ")
      then git_metadata_loop (<[u "new_mode" := Some (Py.strip ln)]> md) rest
      else if Py.startswith ln (u "new file mode ")
      then git_metadata_loop (<[u "new_file_mode" := Some (Py.strip ln)]> md) rest
      else if Py.startswith ln (u "deleted file mode ")
      then git_metadata_loop
             (<[u "deleted_file_mode" := Some (Py.strip ln)]> md) rest
      else if Py.startswith ln (u "similarity index ")
      then git_metadata_loop
             (<[u "similarity_index" := Some (Py.strip ln)]> md) rest
      else if Py.startswith ln (u "rename from ")
      then git_metadata_loop
             (<[u "rename_from" :=
                  Some (Py.strip (drop (length (u "rename from ")) ln))]> md)
             rest
      else if Py.startswith ln (u "rename to ")
      then git_metadata_loop
             (<[u "rename_to" :=
                  Some (Py.strip (drop (length (u "rename to ")) ln))]> md)
             rest
      else if Py.startswith ln (u "--- ")
      then (md, Some (_parse_path_from_header_line ln (u "--- ")), rest)
      else git_metadata_loop md rest
  end.

Definition _parse_git_block (lns : list Py.str) : option FilePatch :=
  let first := match lns with [] => [] | l :: _ => l end in
  match RE_DIFF_GIT first with
  | None => None
  | Some (g1, g2) =>
      let a_path := Py.strip g1 in
      let b_path := Py.strip g2 in
      let md : gmap Py.str (option Py.str) := {[u "diff_git" := Some first]} in
      let old_path := _strip_prefix_ab a_path in
      let new_path := _strip_prefix_ab b_path in
      match binary_reason_of lns with
      | Some reason =>
          Some (mkFilePatch old_path new_path
                  (_strip_prefix_ab (str_or new_path old_path)) Modify []
                  true reason md)
      | None =>
          let '(md, old_hdr, rest) := git_metadata_loop md (drop 1 lns) in
          let '(new_hdr, rest) :=
            match old_hdr with
            | Some _ => find_new_header rest
            | None => (None, rest)
            end in
          let old_path :=
            match old_hdr with
            | Some h => header_path h
            | None => old_path
            end in
          let new_path :=
            match new_hdr with
            | Some h => header_path h
            | None => new_path
            end in
          let op := _infer_operation old_path new_path md in
          let display :=
            _strip_prefix_ab
              (if negb (Py.eqb new_path DEV_NULL) then new_path else old_path) in
          Some (mkFilePatch old_path new_path display op
                  (_parse_hunks_from rest) false [] md)
      end
  end.

Definition _parse_index_block (lns : list Py.str) (index_path : option Py.str)
  : option FilePatch :=
  let md : gmap Py.str (option Py.str) := {[u "index_path" := index_path]} in
  match binary_reason_of lns with
  | Some reason =>
      let display :=
        match index_path with
        | Some (c :: p) => c :: p
        | _ => u "(unknown)"
        end in
      Some (mkFilePatch display display display Modify [] true reason md)
  | None =>
      match find_old_header lns with
      | (None, _) => None
      | (Some old_hdr, rest) =>
          match find_new_header rest with
          | (None, _) => None
          | (Some new_hdr, rest) =>
              let old_path := header_path old_hdr in
              let new_path := header_path new_hdr in
              let op := _infer_operation old_path new_path md in
              let display :=
                _strip_prefix_ab
                  (if negb (Py.eqb new_path DEV_NULL) then new_path
                   else old_path) in
              Some (mkFilePatch old_path new_path display op
                      (_parse_hunks_from rest) false [] md)
          end
      end
  end.

(** [lines[idx:]] for the first [idx] whose line starts with ["--- "]. *)
Fixpoint from_first_header (lns : list Py.str) : option (list Py.str) :=
  match lns with
  | [] => None
  | ln :: rest =>
      if Py.startswith ln (u "--- ") then Some lns else from_first_header rest
  end.

Definition _parse_classic_block (lns : list Py.str) : option FilePatch :=
  let md : gmap Py.str (option Py.str) := ∅ in
  match binary_reason_of lns with
  | Some reason =>
      let display := u "(unknown)" in
      Some (mkFilePatch display display display Modify [] true reason md)
  | None =>
      match from_first_header lns with
      | None => None
      | Some [] => None
      | Some (first :: rest) =>
          let old_hdr := _parse_path_from_header_line first (u "--- ") in
          let old_path := header_path old_hdr in
          match find_new_header rest with
          | (None, _) => None
          | (Some new_hdr, rest) =>
              let new_path := header_path new_hdr in
              let op := _infer_operation old_path new_path md in
              let display :=
                _strip_prefix_ab
                  (if negb (Py.eqb new_path DEV_NULL) then new_path
                   else old_path) in
              Some (mkFilePatch old_path new_path display op
                      (_parse_hunks_from rest) false [] md)
          end
      end
  end.

Definition parse_block (d : Dialect) (block : FileBlock) : option FilePatch :=
  let lns := Py.split Py.LF (block_text block) in
  match d with
  | DIALECT_GIT => _parse_git_block lns
  | DIALECT_INDEX => _parse_index_block lns (index_path block)
  | DIALECT_CLASSIC => _parse_classic_block lns
  end.

Definition parse (d : Dialect) (file_blocks : list FileBlock) : PatchSet :=
  mkPatchSet d (omap (parse_block d) file_blocks).

End UnifiedDiffParser.

(* ===================================================================== *)
(** * applier.py: locating and applying hunks *)
(* ===================================================================== *)

Module PatchApplier.
Import Models.
Local Open Scope Z_scope.

(** ** Exceptions *)

Inductive ExnKind := IndexError | OSError | ValueError.

(** A raised exception; [exn_msg] is [str(e)]. *)
Record Exn := mkExn { exn_kind : ExnKind; exn_msg : Py.str }.

(** The outcome of a computation that may raise. *)
Inductive Result (A : Type) :=
| Ok (a : A)
| Raise (e : Exn).
Arguments Ok {A} a.
Arguments Raise {A} e.

Definition rbind {A B} (r : Result A) (f : A -> Result B) : Result B :=
  match r with
  | Ok a => f a
  | Raise e => Raise e
  end.

(** ** Line matching *)

Definition _normalize_match_line (s : Py.str) (ignore_ws : bool) : Py.str :=
  let s := Py.rstrip_chars (Py.CR ++ Py.LF) s in
  let s := Py.rstrip s in
  if ignore_ws then Py.collapse_ws s else s.

Definition _count_tag (hunk_lines : list (Py.str * Py.str)) (tag : Py.str) : Z :=
  Py.len (filter (fun e => e.1 = tag) hunk_lines).

(** [[(t, s) for (t, s) in hunk.lines if t in (" ", "-")]]. *)
Definition anchor_seq (hunk : Hunk) : list (Py.str * Py.str) :=
  filter (fun e => e.1 ∈ [u " "; u "-"]) (lines hunk).

(** The [for (t, s) in seq] loop of [_hunk_anchors_match]. *)
Fixpoint anchors_loop (lns : list Py.str) (ignore_ws : bool)
  (seq : list (Py.str * Py.str)) (idx : Z) : bool :=
  match seq with
  | [] => true
  | (_, s) :: seq' =>
      if (idx >=? Py.len lns)%Z then false
      else
        match Py.getitem lns idx with
        | None => false (* not reached: [0 <= idx < len(lines)] here *)
        | Some have_ =>
            if negb (Py.eqb (_normalize_match_line s ignore_ws)
                            (_normalize_match_line have_ ignore_ws))
            then false
            else anchors_loop lns ignore_ws seq' (idx + 1)
        end
  end.

Definition _hunk_anchors_match (lns : list Py.str) (hunk : Hunk) (pos : Z)
  (ignore_ws : bool) : bool :=
  match anchor_seq hunk with
  | [] => true
  | seq =>
      if ((pos <? 0) || (pos >? Py.len lns))%Z then false
      else anchors_loop lns ignore_ws seq pos
  end.

(** ** The locator *)

Inductive DecisionMode := Strict | Fuzzy.

(** The [decision] dictionary; an absent key is [None]. *)
Record LocatorDecision := mkDecision {
  mode : DecisionMode;
  expected_pos : Z;
  matched_at : option Z;
  reason : option Py.str;
  delta_from_expected : option Z;
  candidates : option Z;
  ambiguity : option Py.str
}.

(** The key of the candidate sort: [(abs(x - pos), x)]. *)
Definition candidate_key (pos x : Z) : Z * Z := (Z.abs (x - pos), x).

(** The candidates of the fuzzy step, in the order the loop appends them. *)
Definition fuzzy_candidates (lns : list Py.str) (hunk : Hunk) (pos : Z)
  (ignore_ws : bool) (fuzzy_window : Z) : list Z :=
  let start := Z.max 0 (pos - fuzzy_window) in
  let end_ := Z.min (Py.len lns) (pos + fuzzy_window) in
  filter (fun p => _hunk_anchors_match lns hunk p ignore_ws = true)
    (Py.range start (end_ + 1)).

Definition _locate_hunk_position (lns : list Py.str) (hunk : Hunk)
  (expected : Z) (ignore_ws fuzzy : bool) (fuzzy_window : Z)
  : option Z * LocatorDecision :=
  let pos := Z.min (Z.max expected 0) (Py.len lns) in
  if _hunk_anchors_match lns hunk pos ignore_ws
  then (Some pos, mkDecision Strict expected (Some pos) None None None None)
  else if negb fuzzy
  then (None,
        mkDecision Strict expected None
          (Some (u "Anchors did not match at expected location."))
          None None None)
  else
    let cands := fuzzy_candidates lns hunk pos ignore_ws fuzzy_window in
    match Py.sort_by Py.pair_ltb (candidate_key pos) cands with
    | [] =>
        (None,
         mkDecision Fuzzy expected None
           (Some (u "No anchor match found within fuzzy window."))
           None None None)
    | chosen :: others =>
        let tie :=
          match others with
          | second :: _ =>
              (Z.abs (chosen - pos) =? Z.abs (second - pos))%Z
          | [] => false
          end in
        (Some chosen,
         mkDecision Fuzzy expected (Some chosen) None (Some (chosen - pos))
           (Some (Py.len cands))
           (if tie
            then Some (u "Multiple equally-close matches; deterministic tie-break by earliest.")
            else None))
    end.

(** ** Applying one hunk *)

(** The two list objects [_apply_hunk_at] can return: the caller's [lines]
    or the list [out] it builds. *)
Inductive ListObj := InputLines | FreshOut.

(** The variables of [_apply_hunk_at]: the contents of the caller's list
    object [lines], the contents of the local list [out], and [i]. *)
Record HunkStore := mkHunkStore {
  st_lines : list Py.str;
  st_out : list Py.str;
  st_i : Z
}.

(** The [mismatch_info] dictionary (when not empty). *)
Record Mismatch := mkMismatch {
  mm_reason : Py.str;
  mm_at : Z;
  mm_expected : option Py.str;
  mm_actual : option Py.str
}.

(** [out.append(x)]. *)
Definition out_append (st : HunkStore) (x : Py.str) : HunkStore :=
  mkHunkStore (st_lines st) (st_out st ++ [x]) (st_i st).

(** [i += 1]. *)
Definition i_incr (st : HunkStore) : HunkStore :=
  mkHunkStore (st_lines st) (st_out st) (st_i st + 1).

(** The [for (t, s) in hunk.lines] loop.  It ends with the store and the
    mismatch of an early [return False, ...], if any; reading [lines[i]]
    out of range raises IndexError. *)
Fixpoint hunk_lines_loop (ignore_ws : bool) (hl : list (Py.str * Py.str))
  (st : HunkStore) : Result (HunkStore * option Mismatch) :=
  match hl with
  | [] => Ok (st, None)
  | (t, s) :: rest =>
      if Py.eqb t (u " ") then
        if st_i st >=? Py.len (st_lines st)
        then Ok (st, Some (mkMismatch (u "Context beyond EOF") (st_i st) None None))
        else
          match Py.getitem (st_lines st) (st_i st) with
          | None => Raise (mkExn IndexError (u "list index out of range"))
          | Some have_ =>
              if negb (Py.eqb (_normalize_match_line s ignore_ws)
                              (_normalize_match_line have_ ignore_ws))
              then Ok (st, Some (mkMismatch (u "Context mismatch") (st_i st)
                                   (Some s) (Some have_)))
              else hunk_lines_loop ignore_ws rest (i_incr (out_append st have_))
          end
      else if Py.eqb t (u "-") then
        if st_i st >=? Py.len (st_lines st)
        then Ok (st, Some (mkMismatch (u "Deletion beyond EOF") (st_i st) None None))
        else
          match Py.getitem (st_lines st) (st_i st) with
          | None => Raise (mkExn IndexError (u "list index out of range"))
          | Some have_ =>
              if negb (Py.eqb (_normalize_match_line s ignore_ws)
                              (_normalize_match_line have_ ignore_ws))
              then Ok (st, Some (mkMismatch (u "Deletion mismatch") (st_i st)
                                   (Some s) (Some have_)))
              else hunk_lines_loop ignore_ws rest (i_incr st)
          end
      else if Py.eqb t (u "+") then
        hunk_lines_loop ignore_ws rest (out_append st s)
      else hunk_lines_loop ignore_ws rest st
  end.

(** [_apply_hunk_at] with its store made explicit: the result tuple names
    the list object that is returned, and the final store tells what each
    list object holds when the call returns. *)
Definition apply_hunk_store (lns : list Py.str) (hunk : Hunk) (pos : Z)
  (ignore_ws : bool)
  : Result (bool * ListObj * Z * option Mismatch * HunkStore) :=
  let st0 := mkHunkStore lns (Py.slice_to lns pos) pos in
  rbind (hunk_lines_loop ignore_ws (lines hunk) st0) (fun '(st, mm) =>
    match mm with
    | Some m => Ok (false, InputLines, 0, Some m, st)
    | None =>
        let st' :=
          mkHunkStore (st_lines st)
            (st_out st ++ Py.slice_from (st_lines st) (st_i st)) (st_i st) in
        let delta :=
          _count_tag (lines hunk) (u "+") - _count_tag (lines hunk) (u "-") in
        Ok (true, FreshOut, delta, None, st')
    end).

Definition deref (st : HunkStore) (r : ListObj) : list Py.str :=
  match r with
  | InputLines => st_lines st
  | FreshOut => st_out st
  end.

(** [_apply_hunk_at]: [(ok, new_lines, delta_offset, mismatch_info)]. *)
Definition _apply_hunk_at (lns : list Py.str) (hunk : Hunk) (pos : Z)
  (ignore_ws : bool) : Result (bool * list Py.str * Z * option Mismatch) :=
  rbind (apply_hunk_store lns hunk pos ignore_ws)
    (fun '(ok, r, delta, mm, st) => Ok (ok, deref st r, delta, mm)).

(** ** Diagnostics and conflict markers *)

Record DiagEntry := mkDiagEntry {
  hunk_index : Z;
  hunk_header : Py.str;
  attempted_line_1b : Z;
  attempted_pos_0b : Z;
  decision : LocatorDecision;
  expected_excerpt : list Py.str;
  actual_excerpt : list Py.str;
  mismatch : option Mismatch
}.

Definition _build_mismatch_diag (lns : list Py.str) (hunk : Hunk)
  (attempted_pos : Z) (dec : LocatorDecision) (h_idx : Z) (mm : option Mismatch)
  : DiagEntry :=
  let excerpt_start := Z.max 0 (attempted_pos - 2) in
  let excerpt_end := Z.min (Py.len lns) (attempted_pos + 3) in
  mkDiagEntry h_idx (header hunk) (attempted_pos + 1) attempted_pos dec
    (take 5 (map snd (anchor_seq hunk)))
    (Py.slice lns excerpt_start excerpt_end)
    mm.

(** [_insert_conflict_markers] updates the list in place: the result is
    the new content of that list. *)
Definition _insert_conflict_markers (lns : list Py.str) (pos : Z)
  (hunk : Hunk) (ignore_ws : bool) : list Py.str :=
  let original_part := map snd (anchor_seq hunk) in
  let patch_part :=
    map snd (filter (fun e => e.1 ∈ [u " "; u "+"]) (lines hunk)) in
  let markers :=
    [u "<<<<<<< ORIGINAL"] ++ original_part ++ [u "======="] ++ patch_part
    ++ [u ">>>>>>> PATCH"] in
  let insert_at := Z.min (Z.max pos 0) (Py.len lns) in
  Py.insert_at lns (Z.to_nat insert_at) markers.

(** ** Options, statistics, diagnostics *)

(** The option bag, read the way the code reads it: each field is the
    value of [bool(options.get(key, default))] (or [int(...)] for the
    window), so an absent key shows as its default. *)
Record Options := mkOptions {
  strict_filename_match : bool;
  best_effort_fuzzy_apply : bool;
  fuzzy_window_size : Z;
  ignore_whitespace_differences : bool;
  conflict_marker_mode : bool;
  allow_rename_delete_mode_changes : bool;
  partial_apply_per_file_override : bool;
  preserve_original_line_endings : bool;
  allow_writing_conflicted_output : bool;
  skip_unsupported_binary_files : bool
}.

Record Stats := mkStats {
  hunks_applied : Z;
  lines_added : Z;
  lines_removed : Z
}.

Record Diagnostics := mkDiagnostics {
  failed : bool;
  conflicted : bool;
  details : list DiagEntry
}.

(** The variables of the hunk loop of [_apply_filepatch_in_memory]. *)
Record MemState := mkMemState {
  out_lines : list Py.str;
  line_offset : Z;
  stats : Stats;
  diagnostics : Diagnostics
}.

(** How one iteration of the hunk loop ends: the hunk was applied, conflict
    markers were inserted instead ([continue]), or the file was given up
    ([return]). *)
Inductive HunkOutcome := HunkApplied | HunkConflictMarked | HunkFailed.

(** The fallback shared by the two failure branches of the loop body. *)
Definition hunk_fallback (o : Options) (st : MemState) (h : Hunk) (at_ : Z)
  (entry : DiagEntry) : MemState * HunkOutcome :=
  let d := diagnostics st in
  let det := details d ++ [entry] in
  if conflict_marker_mode o
  then
    (mkMemState
       (_insert_conflict_markers (out_lines st) at_ h
          (ignore_whitespace_differences o))
       (line_offset st)
       (mkStats (hunks_applied (stats st) + 1) (lines_added (stats st))
          (lines_removed (stats st)))
       (mkDiagnostics (failed d) true det),
     HunkConflictMarked)
  else
    (mkMemState (out_lines st) (line_offset st) (stats st)
       (mkDiagnostics true (conflicted d) det),
     HunkFailed).

(** The body of [for h_idx, h in enumerate(fp.hunks)]. *)
Definition hunk_iter (o : Options) (st : MemState) (h_idx : Z) (h : Hunk)
  : Result (MemState * HunkOutcome) :=
  let ignore_ws := ignore_whitespace_differences o in
  let expected := Z.max 0 ((old_start h - 1) + line_offset st) in
  let '(apply_pos, dec) :=
    _locate_hunk_position (out_lines st) h expected ignore_ws
      (best_effort_fuzzy_apply o) (fuzzy_window_size o) in
  match apply_pos with
  | None =>
      Ok (hunk_fallback o st h expected
            (_build_mismatch_diag (out_lines st) h expected dec h_idx None))
  | Some apply_pos =>
      rbind (_apply_hunk_at (out_lines st) h apply_pos ignore_ws)
        (fun '(ok, new_out, delta, mm) =>
           if negb ok
           then
             Ok (hunk_fallback o st h apply_pos
                   (_build_mismatch_diag (out_lines st) h apply_pos dec h_idx mm))
           else
             Ok (mkMemState new_out (line_offset st + delta)
                   (mkStats (hunks_applied (stats st) + 1)
                      (lines_added (stats st) + _count_tag (lines h) (u "+"))
                      (lines_removed (stats st) + _count_tag (lines h) (u "-")))
                   (diagnostics st),
                 HunkApplied))
  end.

(** The hunk loop: the state it ends in and how each iteration ended.  A
    [HunkFailed] iteration is the last one. *)
Fixpoint hunks_loop (o : Options) (st : MemState) (h_idx : Z) (hs : list Hunk)
  : Result (MemState * list HunkOutcome) :=
  match hs with
  | [] => Ok (st, [])
  | h :: rest =>
      rbind (hunk_iter o st h_idx h) (fun '(st', oc) =>
        match oc with
        | HunkFailed => Ok (st', [oc])
        | _ =>
            rbind (hunks_loop o st' (h_idx + 1) rest) (fun '(st'', ocs) =>
              Ok (st'', oc :: ocs))
        end)
  end.

(** The state the hunk loop starts from. *)
Definition mem_init (original_lines : list Py.str) : MemState :=
  mkMemState original_lines 0 (mkStats 0 0 0) (mkDiagnostics false false []).

(** [original_lines] of a file that was read. *)
Definition lines_of_text (text : Py.str) : Py.str * list Py.str :=
  let original_text := Py.replace Py.CR Py.LF (Py.replace Py.CRLF Py.LF text) in
  (original_text, Py.split Py.LF original_text).

(** The trailing-newline fix-up after the read. *)
Definition fix_trailing (original_text : Py.str) (original_lines : list Py.str)
  : list Py.str :=
  if Py.endswith original_text Py.LF
  then
    match last original_lines with
    | Some (_ :: _) => original_lines ++ [[]]
    | _ => original_lines
    end
  else original_lines.

(** The part of [_apply_filepatch_in_memory] after the file was read:
    [original_text] is [""] for a create. *)
Definition apply_hunks_to_text (fp : FilePatch) (o : Options)
  (original_text : Py.str) (original_lines : list Py.str)
  : Result (Py.str * Stats * Diagnostics) :=
  let out0 := fix_trailing original_text original_lines in
  rbind (hunks_loop o (mem_init out0) 0 (hunks fp)) (fun '(st, _) =>
    Ok (Py.join Py.LF (out_lines st), stats st, diagnostics st)).

(** ** The file system

    What the applier asks of [pathlib], [os], [shutil] and [time].  A
    [World] is the state of the file system and of the clock.  The
    operations that Python documents as raising on failure return a
    [Result] and the world they leave behind. *)

Class FileSystem := {
  World : Type;
  Path : Type;
  (** [Path(s)] and [str(p)] *)
  fs_path : Py.str -> Path;
  fs_str : Path -> Py.str;
  (** [p / q] and [p.parent] *)
  fs_join : Path -> Path -> Path;
  fs_parent : Path -> Path;
  (** [p.with_name(p.name + s)] and [p.with_suffix(p.suffix + s)] *)
  fs_name_add : Path -> Py.str -> Path;
  fs_suffix_add : Path -> Py.str -> Path;
  (** [p.relative_to(q)]; [None] stands for its ValueError *)
  fs_relative_to : Path -> Path -> option Path;
  (** [p.resolve()], [p.exists()], [p.is_file()] *)
  fs_resolve : World -> Path -> Path;
  fs_exists : World -> Path -> bool;
  fs_is_file : World -> Path -> bool;
  (** [time.strftime("%Y%m%d_%H%M%S")] *)
  fs_strftime : World -> Py.str;
  (** [f"{os.getpid()}_{int(time.time()*1000)}"] *)
  fs_tmp_tag : World -> Py.str;
  (** [p.mkdir(parents=True, exist_ok=True)] *)
  fs_mkdir : Path -> World -> Result unit * World;
  (** [shutil.copy2(src, dst)] *)
  fs_copy2 : Path -> Path -> World -> Result unit * World;
  (** [p.unlink()] *)
  fs_unlink : Path -> World -> Result unit * World;
  (** [p.read_text(encoding="utf-8", errors="replace")], [p.read_bytes()] *)
  fs_read_text : Path -> World -> Result Py.str * World;
  fs_read_bytes : Path -> World -> Result (list Byte.byte) * World;
  (** [with open(p, "w", encoding="utf-8", newline="") as f: f.write(data)] *)
  fs_write_text : Path -> Py.str -> World -> Result unit * World;
  (** [os.replace(src, dst)] *)
  fs_replace : Path -> Path -> World -> Result unit * World
}.

#[global] Instance byte_eq_dec : EqDecision Byte.byte := Byte.byte_eq_dec.

(** A computation over the world that may raise. *)
Definition M `{FileSystem} (A : Type) : Type := World -> Result A * World.

Definition mret `{FileSystem} {A} (a : A) : M A := fun w => (Ok a, w).

Definition mraise `{FileSystem} {A} (e : Exn) : M A := fun w => (Raise e, w).

Definition mbind `{FileSystem} {A B} (m : M A) (k : A -> M B) : M B :=
  fun w =>
    match m w with
    | (Ok a, w') => k a w'
    | (Raise e, w') => (Raise e, w')
    end.

(** [try: m  except Exception as e: handler(e)]. *)
Definition try_except `{FileSystem} {A} (m : M A) (handler : Exn -> M A) : M A :=
  fun w =>
    match m w with
    | (Ok a, w') => (Ok a, w')
    | (Raise e, w') => handler e w'
    end.

(** A pure computation that may raise, run in [M]. *)
Definition lift_result `{FileSystem} {A} (r : Result A) : M A := fun w => (r, w).

(** Reading the world without changing it. *)
Definition ask `{FileSystem} {A} (f : World -> A) : M A := fun w => (Ok (f w), w).

Notation "'let*' x ':=' m 'in' k" := (mbind m (fun x => k))
  (at level 10, x pattern, m at level 100, k at level 200).

Notation "m ';;' k" := (mbind m (fun _ => k))
  (at level 100, k at level 200, right associativity).

(** The status strings of a preflight record. *)
Inductive Status :=
| Found | Invalid | OutsideRoot | UnsupportedBinary | Missing | Blocked.

#[global] Instance Status_eq_dec : EqDecision Status.
Proof. solve_decision. Defined.

(** One record of the preflight report. *)
Record ReportEntry := mkReportEntry {
  r_file : Py.str;
  r_operation : Operation;
  r_resolved : Py.str;
  r_status : Status;
  r_suggested : Py.str;
  r_filepatch : FilePatch
}.

(** ** ApplyResult *)

(** A [per_file] record; an absent key is [None]. *)
Record PerFile := mkPerFile {
  pf_status : Py.str;
  pf_applied : option bool;
  pf_error : option Py.str;
  pf_diagnostics : option Diagnostics;
  pf_stats : option Stats;
  pf_operation : option Operation;
  pf_resolved : option Py.str;
  pf_path : option Py.str;
  pf_from : option Py.str;
  pf_to : option Py.str
}.

(** A record that only has a status and, for preview, the applied flag. *)
Definition pf_plain (status : Py.str) (applied : option bool) : PerFile :=
  mkPerFile status applied None None None None None None None None.

(** [{"status": "Failed", ..., "error": msg}]. *)
Definition pf_failed (applied : option bool) (msg : Py.str) : PerFile :=
  mkPerFile (u "Failed") applied (Some msg) None None None None None None None.

(** [{"status": status, "path": path}]. *)
Definition pf_path_done (status path : Py.str) : PerFile :=
  mkPerFile status None None None None None None (Some path) None None.

(** The [summary] dictionary; an absent key is [None]. *)
Record Summary := mkSummary {
  s_preflight : option (list ReportEntry);
  s_files_total : option Z;
  s_hunks_applied : option Z;
  s_lines_added : option Z;
  s_lines_removed : option Z;
  s_outputs : option (gmap Py.str Py.str);
  s_conflicted_files : option (list Py.str);
  s_failed_files : option (list Py.str);
  s_files_applied : option Z;
  s_backup_folder : option Py.str
}.

(** A log entry, without its timestamp and keyword fields. *)
Record LogEntry := mkLogEntry { log_level : Py.str; log_message : Py.str }.

Record ApplyResult := mkApplyResult {
  success : bool;
  overall_message : Py.str;
  per_file : gmap Py.str PerFile;
  summary : Summary;
  logs : list LogEntry
}.

Section WithFileSystem.
Context `{FS : FileSystem}.

Definition _apply_filepatch_in_memory (fp : FilePatch) (resolved_path : Py.str)
  (root_folder : Py.str) (o : Options) : M (Py.str * Stats * Diagnostics) :=
  match operation fp with
  | Create => lift_result (apply_hunks_to_text fp o [] [])
  | _ =>
      let* text := fs_read_text (fs_path resolved_path) in
      let '(original_text, original_lines) := lines_of_text text in
      lift_result (apply_hunks_to_text fp o original_text original_lines)
  end.

Definition b_CR : Byte.byte := Byte.x0d.
Definition b_LF : Byte.byte := Byte.x0a.

(** The decision of [_detect_eol] on the bytes that were read. *)
Definition eol_of_bytes (data : list Byte.byte) : Py.str :=
  let crlf := Z.of_nat (Py.count [b_CR; b_LF] data) in
  let lf := Z.of_nat (Py.count [b_LF] data) in
  if (crlf >? 0) && (crlf >=? lf - crlf) then Py.CRLF else Py.LF.

Definition _detect_eol (path : Py.str) : M Py.str :=
  try_except
    (let* data := fs_read_bytes (fs_path path) in mret (eol_of_bytes data))
    (fun _ => mret Py.LF).

(** The line ending [apply_to_disk] writes a created or modified file
    with: the three lines before each [_atomic_write_text] call. *)
Definition choose_eol (preserve_eol : bool) (target_abs : Path) : M Py.str :=
  let* present := ask (fun w => fs_exists w target_abs) in
  if preserve_eol && present then _detect_eol (fs_str target_abs)
  else mret Py.LF.

Definition _atomic_write_text (path : Path) (text eol : Py.str) : M unit :=
  let data := Py.replace Py.LF eol text in
  let* tag := ask fs_tmp_tag in
  let tmp := fs_name_add path (u ".patchstudio_tmp_" ++ tag) in
  fs_write_text tmp data;;
  fs_replace tmp path.

Definition _try_make_sibling_bak (target : Path) : M unit :=
  try_except
    (let* present := ask (fun w => fs_exists w target && fs_is_file w target) in
     if present then
       let bak := fs_suffix_add target (u ".bak") in
       let* taken := ask (fun w => fs_exists w bak) in
       let* stamp := ask fs_strftime in
       let bak :=
         if taken then fs_suffix_add target (u "." ++ stamp ++ u ".bak")
         else bak in
       fs_copy2 target bak
     else mret tt)
    (fun _ => mret tt).

(** ** Preflight *)

(** The strict-name check: [rel] starts with a slash or a backslash, or holds
    one of the characters : * ? < > | or a double quote (code point 34). *)
Definition weird_name (rel : Py.str) : bool :=
  Py.startswith rel (u "/") || Py.startswith rel (u "\")
  || existsb (fun c => bool_decide (c ∈ u ":*?<>|" ++ [34%N])) rel.

(** [new_path if new_path != "/dev/null" else old_path]. *)
Definition candidate_rel (fp : FilePatch) : Py.str :=
  if negb (Py.eqb (new_path fp) UnifiedDiffParser.DEV_NULL) then new_path fp
  else old_path fp.

(** The status of a file whose resolved path lies under the root. *)
Definition status_under_root (w : World) (root resolved_path : Path)
  (fp : FilePatch) (allow_rename : bool) : Status * Py.str :=
  if is_binary fp
  then (UnsupportedBinary,
        u "Enable 'Skip unsupported binary files' to apply other files; binary patch itself cannot be applied.")
  else
    match operation fp with
    | Modify =>
        if negb (fs_exists w resolved_path)
        then (Missing, u "Select a root folder that contains this file, or verify patch paths.")
        else (Found, [])
    | Create =>
        if negb (fs_exists w (fs_parent resolved_path))
        then (Missing, u "Create the destination folders or choose a different root folder.")
        else (Found, [])
    | Delete =>
        if negb (fs_exists w resolved_path)
        then (Missing, u "Select a root folder that contains the file to delete.")
        else (Found, [])
    | Rename =>
        if negb allow_rename
        then (Blocked, u "Enable 'Allow rename/delete/mode changes' in Advanced to proceed.")
        else
          let old_rel := old_path fp in
          if negb (Py.eqb old_rel []) && negb (Py.eqb old_rel UnifiedDiffParser.DEV_NULL)
          then
            let old_abs := fs_resolve w (fs_join root (fs_path old_rel)) in
            match fs_relative_to old_abs root with
            | None =>
                (OutsideRoot, u "Rename source resolves outside root; choose a different root folder.")
            | Some _ =>
                if negb (fs_exists w old_abs)
                then (Missing, u "Rename source file not found; choose a different root folder.")
                else (Found, [])
            end
          else (Found, [])
    end.

(** The body of the [for fp in patchset.files] loop of [preflight]. *)
Definition preflight_file (w : World) (root : option Path) (o : Options)
  (fp : FilePatch) : ReportEntry :=
  let entry resolved status suggested :=
    mkReportEntry (display_path fp) (operation fp) resolved status suggested fp in
  match root with
  | None =>
      entry [] Invalid
        (u "Choose a root folder (Open Folder" ++ [8230%N]
         ++ u ") that contains the referenced files.")
  | Some root =>
      let rel := candidate_rel fp in
      if Py.eqb rel [] || Py.eqb rel UnifiedDiffParser.DEV_NULL
      then entry [] Invalid (u "Patch file header paths are missing or invalid.")
      else if strict_filename_match o && weird_name rel
      then entry [] Invalid
             (u "Disable Strict filename match or fix patch paths to be relative and valid.")
      else
        let resolved_path := fs_resolve w (fs_join root (fs_path rel)) in
        let resolved := fs_str resolved_path in
        match resolved with
        | [] => entry resolved Found []
        | _ :: _ =>
            match fs_relative_to resolved_path root with
            | None =>
                entry resolved OutsideRoot
                  (u "Choose a different root folder or fix patch paths (path resolves outside root).")
            | Some _ =>
                let '(status, suggested) :=
                  status_under_root w root resolved_path fp
                    (allow_rename_delete_mode_changes o) in
                entry resolved status suggested
            end
        end
  end.

(** [preflight]; an empty [root_folder] is Python's falsy root. *)
Definition preflight (w : World) (patchset : PatchSet) (root_folder : Py.str)
  (o : Options) : list ReportEntry :=
  let root :=
    match root_folder with
    | [] => None
    | _ :: _ => Some (fs_resolve w (fs_path root_folder))
    end in
  map (preflight_file w root o) (files patchset).

(** The records of a report that block both [preview_apply] and
    [apply_to_disk]. *)
Definition blocking (skip_bin : bool) (report : list ReportEntry)
  : list ReportEntry :=
  flat_map
    (fun r =>
       (if bool_decide (r_status r ∈ [Missing; Invalid; OutsideRoot; Blocked])
        then [r] else [])
       ++ (if bool_decide (r_status r = UnsupportedBinary) && negb skip_bin
           then [r] else []))
    report.

(** ** Preview *)

(** The variables of the file loop of [preview_apply]. *)
Record PreviewState := mkPreviewState {
  pv_per_file : gmap Py.str PerFile;
  pv_logs : list LogEntry;
  pv_outputs : gmap Py.str Py.str;
  pv_conflicted : list Py.str;
  pv_failed : list Py.str;
  pv_hunks : Z;
  pv_added : Z;
  pv_removed : Z
}.

Definition pv_fail (st : PreviewState) (display : Py.str) (pf : PerFile)
  (log : LogEntry) : PreviewState :=
  mkPreviewState (<[display := pf]> (pv_per_file st)) (pv_logs st ++ [log])
    (pv_outputs st) (pv_conflicted st) (pv_failed st ++ [display])
    (pv_hunks st) (pv_added st) (pv_removed st).

(** The body of the file loop; the flag tells whether the loop breaks. *)
Definition preview_file (root_folder : Py.str) (o : Options)
  (st : PreviewState) (r : ReportEntry) : M (PreviewState * bool) :=
  let fp := r_filepatch r in
  let display := display_path fp in
  let allow_partial := partial_apply_per_file_override o in
  if bool_decide (r_status r = UnsupportedBinary) then
    if skip_unsupported_binary_files o
    then
      mret (mkPreviewState
              (<[display := pf_plain (u "Skipped (binary unsupported)") (Some false)]>
                 (pv_per_file st))
              (pv_logs st ++ [mkLogEntry (u "INFO") (u "Skipped unsupported binary file.")])
              (pv_outputs st) (pv_conflicted st) (pv_failed st)
              (pv_hunks st) (pv_added st) (pv_removed st),
            false)
    else
      mret (mkPreviewState
              (<[display := pf_plain (u "Blocked (binary unsupported)") (Some false)]>
                 (pv_per_file st))
              (pv_logs st) (pv_outputs st) (pv_conflicted st)
              (pv_failed st ++ [display])
              (pv_hunks st) (pv_added st) (pv_removed st),
            false)
  else
    let* attempt :=
      try_except
        (let* x := _apply_filepatch_in_memory fp (r_resolved r) root_folder o in
         mret (inr x))
        (fun e => mret (inl e)) in
    match attempt with
    | inl e =>
        mret (pv_fail st display (pf_failed (Some false) (exn_msg e))
                (mkLogEntry (u "ERROR") (u "Exception during preview apply.")),
              negb allow_partial)
    | inr (new_text, stats, diag) =>
        if failed diag && negb (conflict_marker_mode o && conflicted diag)
        then
          mret (pv_fail st display
                  (mkPerFile (u "Failed") (Some false) None (Some diag) None
                     None None None None None)
                  (mkLogEntry (u "ERROR") (u "Hunk application failed.")),
                negb allow_partial)
        else
          mret (mkPreviewState
                  (<[display :=
                       mkPerFile
                         (if conflicted diag then u "Conflicted" else u "OK")
                         (Some true) None (Some diag) (Some stats)
                         (Some (operation fp)) (Some (r_resolved r))
                         None None None]> (pv_per_file st))
                  (pv_logs st)
                  (<[display :=
                       if bool_decide (operation fp = Delete) then []
                       else new_text]> (pv_outputs st))
                  (if conflicted diag then pv_conflicted st ++ [display]
                   else pv_conflicted st)
                  (pv_failed st)
                  (pv_hunks st + hunks_applied stats)
                  (pv_added st + lines_added stats)
                  (pv_removed st + lines_removed stats),
                false)
    end.

(** [for r in report], with its [break]. *)
Fixpoint preview_loop (root_folder : Py.str) (o : Options)
  (st : PreviewState) (report : list ReportEntry) : M PreviewState :=
  match report with
  | [] => mret st
  | r :: rest =>
      let* (st', stop) := preview_file root_folder o st r in
      if stop : bool then mret st' else preview_loop root_folder o st' rest
  end.

Definition summary_empty : Summary :=
  mkSummary None None None None None None None None None None.

Definition preview_apply (patchset : PatchSet) (root_folder : Py.str)
  (o : Options) : M ApplyResult :=
  let* report := ask (fun w => preflight w patchset root_folder o) in
  let with_preflight :=
    mkSummary (Some report) None None None None None None None None None in
  match blocking (skip_unsupported_binary_files o) report with
  | _ :: _ =>
      mret (mkApplyResult false
              (u "Patch references files not found under the selected root folder.")
              ∅ with_preflight
              [mkLogEntry (u "WARN") (u "Preflight failed; blocking preview.")])
  | [] =>
      let st0 :=
        mkPreviewState ∅
          [mkLogEntry (u "INFO") (u "Preflight passed for preview.")]
          ∅ [] [] 0 0 0 in
      let* st := preview_loop root_folder o st0 report in
      let ok :=
        negb (bool_decide (pv_failed st <> [])
              && negb (partial_apply_per_file_override o)) in
      mret (mkApplyResult ok
              (if ok then u "Preview succeeded."
               else u "Preview failed due to one or more files.")
              (pv_per_file st)
              (mkSummary (Some report) (Some (Py.len report))
                 (Some (pv_hunks st)) (Some (pv_added st))
                 (Some (pv_removed st)) (Some (pv_outputs st))
                 (Some (pv_conflicted st)) (Some (pv_failed st)) None None)
              (pv_logs st ++
               match pv_conflicted st with
               | [] => []
               | _ :: _ =>
                   [mkLogEntry (u "WARN")
                      (u "Preview produced conflicted output for some files.")]
               end))
  end.

(** ** Disk apply *)

(** The variables of the file loop of [apply_to_disk]: the parts of [res]
    it updates, and [files_applied]. *)
Record ApplyState := mkApplyState {
  ap_per_file : gmap Py.str PerFile;
  ap_logs : list LogEntry;
  ap_message : Py.str;
  ap_files_applied : Z
}.

(** How an iteration ends: on to the next file, or [return res]. *)
Inductive Control := Next | Return.

Definition ap_set (st : ApplyState) (display : Py.str) (pf : PerFile)
  : ApplyState :=
  mkApplyState (<[display := pf]> (ap_per_file st)) (ap_logs st)
    (ap_message st) (ap_files_applied st).

(** [res.per_file[display] = pf; files_applied += 1]. *)
Definition ap_done (st : ApplyState) (display : Py.str) (pf : PerFile)
  : ApplyState :=
  mkApplyState (<[display := pf]> (ap_per_file st)) (ap_logs st)
    (ap_message st) (ap_files_applied st + 1).

(** [res.per_file[display] = pf], then [return res] unless partial apply
    is allowed. *)
Definition ap_refuse (o : Options) (st : ApplyState) (display : Py.str)
  (pf : PerFile) : ApplyState * Control :=
  (ap_set st display pf,
   if partial_apply_per_file_override o then Next else Return).

(** The local function [backup_file]. *)
Definition backup_file (root backup_root src : Path) : M unit :=
  let* present := ask (fun w => fs_exists w src && fs_is_file w src) in
  if present then
    match fs_relative_to src root with
    | None => mraise (mkExn ValueError (u "path is not in the subpath of root"))
    | Some rel =>
        let dest := fs_join backup_root rel in
        fs_mkdir (fs_parent dest);;
        fs_copy2 src dest
    end
  else mret tt.

(** The [try] block of the loop body. *)
Definition apply_file_op (root_folder : Py.str) (o : Options)
  (outputs : gmap Py.str Py.str) (root backup_root target_abs : Path)
  (fp : FilePatch) (st : ApplyState) : M (ApplyState * Control) :=
  let display := display_path fp in
  let preserve_eol := preserve_original_line_endings o in
  match operation fp with
  | Delete =>
      backup_file root backup_root target_abs;;
      _try_make_sibling_bak target_abs;;
      let* present := ask (fun w => fs_exists w target_abs) in
      (if present then fs_unlink target_abs else mret tt);;
      mret (ap_done st display (pf_path_done (u "Deleted") (fs_str target_abs)),
            Next)
  | Create =>
      fs_mkdir (fs_parent target_abs);;
      let content := default [] (outputs !! display) in
      let* eol := choose_eol preserve_eol target_abs in
      _atomic_write_text target_abs content eol;;
      mret (ap_done st display (pf_path_done (u "Created") (fs_str target_abs)),
            Next)
  | Rename =>
      if negb (allow_rename_delete_mode_changes o)
      then mret (ap_refuse o st display
                   (mkPerFile (u "Blocked") None
                      (Some (u "Rename not allowed (Advanced).")) None None None
                      None None None None))
      else
        let old_rel := old_path fp in
        if Py.eqb old_rel [] || Py.eqb old_rel UnifiedDiffParser.DEV_NULL
        then mret (ap_refuse o st display
                     (pf_failed None (u "Invalid rename source.")))
        else
          let* old_abs := ask (fun w => fs_resolve w (fs_join root (fs_path old_rel))) in
          match fs_relative_to old_abs root with
          | None =>
              mret (ap_refuse o st display
                      (pf_failed None (u "Rename source outside root.")))
          | Some _ =>
              backup_file root backup_root old_abs;;
              backup_file root backup_root target_abs;;
              _try_make_sibling_bak old_abs;;
              _try_make_sibling_bak target_abs;;
              fs_mkdir (fs_parent target_abs);;
              fs_replace old_abs target_abs;;
              mret (ap_done st display
                      (mkPerFile (u "Renamed") None None None None None None
                         None (Some (fs_str old_abs)) (Some (fs_str target_abs))),
                    Next)
          end
  | Modify =>
      backup_file root backup_root target_abs;;
      _try_make_sibling_bak target_abs;;
      let* content :=
        match outputs !! display with
        | Some c => mret c
        | None =>
            let* (c, _) :=
              _apply_filepatch_in_memory fp (fs_str target_abs) root_folder o in
            mret c.1
        end in
      let* eol := choose_eol preserve_eol target_abs in
      _atomic_write_text target_abs content eol;;
      mret (ap_done st display (pf_path_done (u "Modified") (fs_str target_abs)),
            Next)
  end.

(** The body of [for r in report] in [apply_to_disk]. *)
Definition apply_file (root_folder : Py.str) (o : Options)
  (outputs : gmap Py.str Py.str) (root backup_root : Path)
  (st : ApplyState) (r : ReportEntry) : M (ApplyState * Control) :=
  let fp := r_filepatch r in
  let display := display_path fp in
  if bool_decide (r_status r = UnsupportedBinary) then
    if skip_unsupported_binary_files o
    then mret (ap_set st display
                 (pf_plain (u "Skipped (binary unsupported)") None), Next)
    else
      let st' := ap_set st display (pf_plain (u "Blocked (binary unsupported)") None) in
      if partial_apply_per_file_override o then mret (st', Next)
      else mret (mkApplyState (ap_per_file st') (ap_logs st')
                   (u "Apply failed due to blocked binary patch.")
                   (ap_files_applied st'), Return)
  else
    let target_rel := candidate_rel fp in
    match target_rel with
    | [] => mret (ap_refuse o st display (pf_failed None (u "Invalid target path.")))
    | _ :: _ =>
        let* target_abs := ask (fun w => fs_resolve w (fs_join root (fs_path target_rel))) in
        match fs_relative_to target_abs root with
        | None =>
            mret (ap_refuse o st display
                    (pf_failed None (u "Resolved path outside root.")))
        | Some _ =>
            try_except
              (apply_file_op root_folder o outputs root backup_root target_abs fp st)
              (fun e =>
                 let st' :=
                   mkApplyState
                     (<[display := pf_failed None (exn_msg e)]> (ap_per_file st))
                     (ap_logs st ++
                      [mkLogEntry (u "ERROR") (u "Disk apply failed for file.")])
                     (ap_message st) (ap_files_applied st) in
                 if partial_apply_per_file_override o then mret (st', Next)
                 else mret (mkApplyState (ap_per_file st') (ap_logs st')
                              (u "Apply failed due to one or more files.")
                              (ap_files_applied st'), Return))
        end
    end.

(** [for r in report], with its early [return res]. *)
Fixpoint apply_loop (root_folder : Py.str) (o : Options)
  (outputs : gmap Py.str Py.str) (root backup_root : Path)
  (st : ApplyState) (report : list ReportEntry) : M (ApplyState * Control) :=
  match report with
  | [] => mret (st, Next)
  | r :: rest =>
      let* (st', c) := apply_file root_folder o outputs root backup_root st r in
      match c with
      | Return => mret (st', Return)
      | Next => apply_loop root_folder o outputs root backup_root st' rest
      end
  end.

Definition apply_to_disk (patchset : PatchSet) (root_folder : Py.str)
  (preview : option ApplyResult) (o : Options) : M ApplyResult :=
  let* report := ask (fun w => preflight w patchset root_folder o) in
  let with_preflight :=
    mkSummary (Some report) None None None None None None None None None in
  match blocking (skip_unsupported_binary_files o) report with
  | _ :: _ =>
      mret (mkApplyResult false
              (u "Patch references files not found under the selected root folder.")
              ∅ with_preflight
              [mkLogEntry (u "ERROR") (u "Preflight failed; blocking apply.")])
  | [] =>
      let conflicted_files :=
        match preview with
        | Some pv => default [] (s_conflicted_files (summary pv))
        | None => []
        end in
      if bool_decide (conflicted_files <> []) && negb (allow_writing_conflicted_output o)
      then
        mret (mkApplyResult false
                (u "Conflicted output was produced; writing to disk is blocked.")
                ∅ with_preflight
                [mkLogEntry (u "ERROR") (u "Conflicted output blocks disk write.")])
      else
        let* root := ask (fun w => fs_resolve w (fs_path root_folder)) in
        let* stamp := ask fs_strftime in
        let backup_root :=
          fs_join (fs_join root (fs_path (u ".patchstudio_backups")))
            (fs_path stamp) in
        fs_mkdir backup_root;;
        let outputs :=
          match preview with
          | Some pv => default ∅ (s_outputs (summary pv))
          | None => ∅
          end in
        let st0 :=
          mkApplyState ∅ [mkLogEntry (u "INFO") (u "Created backup folder.")]
            (u "Apply failed.") 0 in
        let* (st, c) := apply_loop root_folder o outputs root backup_root st0 report in
        match c with
        | Return =>
            mret (mkApplyResult false (ap_message st) (ap_per_file st)
                    with_preflight (ap_logs st))
        | Next =>
            mret (mkApplyResult true (u "Apply completed.") (ap_per_file st)
                    (mkSummary (Some report) None None None None None None None
                       (Some (ap_files_applied st))
                       (Some (fs_str backup_root)))
                    (ap_logs st))
        end
  end.

End WithFileSystem.

End PatchApplier.

(* ===================================================================== *)
(** * difflib (Python standard library) *)
(* ===================================================================== *)

(** [diffgen.py] delegates to [difflib.unified_diff], which is not part of
    the repository.  This module follows CPython's [Lib/difflib.py]:
    [SequenceMatcher] with [isjunk=None] and [autojunk=True], as
    [unified_diff] creates it, then [get_grouped_opcodes] and the formatting
    of [unified_diff] itself. *)

Module Difflib.

Section Matcher.
Variables a b : list Py.str.

(** The indices of [elt] in [b], ascending. *)
Definition indices_of (elt : Py.str) : list nat :=
  filter (fun j => nth j b [] = elt) (seq 0 (length b)).

(** [__chain_b]: an element is popular when [b] has at least 200 elements
    and more than [len(b) // 100 + 1] of them are that element; popular
    elements are removed from [b2j]. *)
Definition b2j (elt : Py.str) : list nat :=
  let idxs := indices_of elt in
  if (200 <=? length b) && (length b / 100 + 1 <? length idxs) then []
  else idxs.

(** [j2len.get(j - 1, 0)]. *)
Definition j2len_get (j2len : list (nat * nat)) (j : nat) : nat :=
  match j with
  | O => 0
  | S j' =>
      match find (fun e => fst e =? j') j2len with
      | Some e => snd e
      | None => 0
      end
  end.

(** The inner loop of [find_longest_match] for one [i]. *)
Fixpoint flm_inner (i blo bhi : nat) (j2len : list (nat * nat))
  (js : list nat) (st : list (nat * nat) * (nat * nat * nat))
  : list (nat * nat) * (nat * nat * nat) :=
  match js with
  | [] => st
  | j :: js' =>
      if j <? blo then flm_inner i blo bhi j2len js' st
      else if bhi <=? j then st
      else
        let '(newj2len, (besti, bestj, bestsize)) := st in
        let k := j2len_get j2len j + 1 in
        flm_inner i blo bhi j2len js'
          ((j, k) :: newj2len,
           if bestsize <? k then (i + 1 - k, j + 1 - k, k)
           else (besti, bestj, bestsize))
  end.

(** The two loops that extend the best match to the left and right. *)
Fixpoint extend_left (fuel alo blo : nat) (best : nat * nat * nat)
  : nat * nat * nat :=
  match fuel with
  | O => best
  | S fuel' =>
      let '(besti, bestj, bestsize) := best in
      if (alo <? besti) && (blo <? bestj)
         && Py.eqb (nth (besti - 1) a []) (nth (bestj - 1) b [])
      then extend_left fuel' alo blo (besti - 1, bestj - 1, bestsize + 1)
      else best
  end.

Fixpoint extend_right (fuel ahi bhi : nat) (best : nat * nat * nat)
  : nat * nat * nat :=
  match fuel with
  | O => best
  | S fuel' =>
      let '(besti, bestj, bestsize) := best in
      if (besti + bestsize <? ahi) && (bestj + bestsize <? bhi)
         && Py.eqb (nth (besti + bestsize) a []) (nth (bestj + bestsize) b [])
      then extend_right fuel' ahi bhi (besti, bestj, bestsize + 1)
      else best
  end.

Definition find_longest_match (alo ahi blo bhi : nat) : nat * nat * nat :=
  let '(_, best) :=
    fold_left
      (fun st i =>
         let '(j2len, best) := st in
         flm_inner i blo bhi j2len (b2j (nth i a [])) ([], best))
      (seq alo (ahi - alo)) ([], (alo, blo, 0)) in
  extend_right (length a) ahi bhi (extend_left (length a) alo blo best).

(** The [while queue] loop of [get_matching_blocks]; the queue is a stack
    whose top is the head of the list. *)
Fixpoint blocks_loop (fuel : nat) (queue : list (nat * nat * nat * nat))
  (found : list (nat * nat * nat)) : list (nat * nat * nat) :=
  match fuel, queue with
  | S fuel', (alo, ahi, blo, bhi) :: queue' =>
      let '(i, j, k) := find_longest_match alo ahi blo bhi in
      match k with
      | O => blocks_loop fuel' queue' found
      | S _ =>
          let q1 :=
            if (alo <? i) && (blo <? j) then (alo, i, blo, j) :: queue'
            else queue' in
          let q2 :=
            if (i + k <? ahi) && (j + k <? bhi) then (i + k, ahi, j + k, bhi) :: q1
            else q1 in
          blocks_loop fuel' q2 (found ++ [(i, j, k)])
      end
  | _, _ => found
  end.

(** [<] on triples, as Python compares tuples. *)
Definition triple_ltb (x y : nat * nat * nat) : bool :=
  let '(x1, x2, x3) := x in
  let '(y1, y2, y3) := y in
  (x1 <? y1) || (x1 =? y1) && ((x2 <? y2) || (x2 =? y2) && (x3 <? y3)).

(** The loop that merges adjacent blocks; [cur] is [(i1, j1, k1)]. *)
Fixpoint collapse (cur : nat * nat * nat) (blocks : list (nat * nat * nat))
  : list (nat * nat * nat) :=
  let '(i1, j1, k1) := cur in
  match blocks with
  | [] => match k1 with O => [] | S _ => [cur] end
  | (i2, j2, k2) :: rest =>
      if (i1 + k1 =? i2) && (j1 + k1 =? j2)
      then collapse (i1, j1, k1 + k2) rest
      else
        match k1 with
        | O => collapse (i2, j2, k2) rest
        | S _ => cur :: collapse (i2, j2, k2) rest
        end
  end.

Definition get_matching_blocks : list (nat * nat * nat) :=
  let la := length a in
  let lb := length b in
  let found := blocks_loop (2 * (la + lb) + 1) [(0, la, 0, lb)] [] in
  collapse (0, 0, 0) (Py.sort_by triple_ltb id found) ++ [(la, lb, 0)].

End Matcher.

Inductive Tag := Replace | Delete | Insert | Equal.

#[global] Instance Tag_eq_dec : EqDecision Tag.
Proof. solve_decision. Defined.

(** An opcode [(tag, i1, i2, j1, j2)]. *)
Record Opcode := mkOpcode { tag : Tag; i1 : nat; i2 : nat; j1 : nat; j2 : nat }.

(** The loop of [get_opcodes]; [i] and [j] are its two cursors. *)
Fixpoint opcodes_loop (i j : nat) (blocks : list (nat * nat * nat))
  : list Opcode :=
  match blocks with
  | [] => []
  | (ai, bj, size) :: rest =>
      (if (i <? ai) && (j <? bj) then [mkOpcode Replace i ai j bj]
       else if i <? ai then [mkOpcode Delete i ai j bj]
       else if j <? bj then [mkOpcode Insert i ai j bj]
       else [])
      ++ (match size with
          | O => []
          | S _ => [mkOpcode Equal ai (ai + size) bj (bj + size)]
          end)
      ++ opcodes_loop (ai + size) (bj + size) rest
  end.

Definition get_opcodes (a b : list Py.str) : list Opcode :=
  opcodes_loop 0 0 (get_matching_blocks a b).

(** [codes[0] = ...] when the first opcode is an [equal]. *)
Definition fix_first (n : nat) (codes : list Opcode) : list Opcode :=
  match codes with
  | mkOpcode Equal i1 i2 j1 j2 :: rest =>
      mkOpcode Equal (Nat.max i1 (i2 - n)) i2 (Nat.max j1 (j2 - n)) j2 :: rest
  | _ => codes
  end.

(** [codes[-1] = ...] when the last opcode is an [equal]. *)
Fixpoint fix_last (n : nat) (codes : list Opcode) : list Opcode :=
  match codes with
  | [] => []
  | [mkOpcode Equal i1 i2 j1 j2] =>
      [mkOpcode Equal i1 (Nat.min i2 (i1 + n)) j1 (Nat.min j2 (j1 + n))]
  | c :: rest => c :: fix_last n rest
  end.

(** The grouping loop: [group] is the group being built. *)
Fixpoint group_loop (n : nat) (group : list Opcode) (codes : list Opcode)
  : list (list Opcode) :=
  match codes with
  | [] =>
      match group with
      | [] => []
      | [mkOpcode Equal _ _ _ _] => []
      | _ => [group]
      end
  | mkOpcode t i1 i2 j1 j2 :: rest =>
      if bool_decide (t = Equal) && (n + n <? i2 - i1)
      then
        (group ++ [mkOpcode t i1 (Nat.min i2 (i1 + n)) j1 (Nat.min j2 (j1 + n))])
        :: group_loop n
             [mkOpcode t (Nat.max i1 (i2 - n)) i2 (Nat.max j1 (j2 - n)) j2] rest
      else group_loop n (group ++ [mkOpcode t i1 i2 j1 j2]) rest
  end.

Definition get_grouped_opcodes (a b : list Py.str) (n : nat)
  : list (list Opcode) :=
  let codes := get_opcodes a b in
  let codes :=
    match codes with
    | [] => [mkOpcode Equal 0 1 0 1]
    | _ :: _ => codes
    end in
  group_loop n [] (fix_last n (fix_first n codes)).

Definition _format_range_unified (start stop : nat) : Py.str :=
  let beginning := (start + 1)%nat in
  let length := (stop - start)%nat in
  match length with
  | 1%nat => Py.str_of_int (Z.of_nat beginning)
  | O => Py.str_of_int (Z.of_nat (beginning - 1)) ++ u "," ++ Py.str_of_int 0
  | _ => Py.str_of_int (Z.of_nat beginning) ++ u ","
         ++ Py.str_of_int (Z.of_nat length)
  end.

(** [l[lo:hi]] for bounds within the list. *)
Definition sub (l : list Py.str) (lo hi : nat) : list Py.str :=
  take (hi - lo) (drop lo l).

(** The strings [unified_diff] yields for one opcode: each line of the
    input with its tag in front, and nothing after it. *)
Definition opcode_lines (a b : list Py.str) (c : Opcode) : list Py.str :=
  match tag c with
  | Equal => map (fun line => u " " ++ line) (sub a (i1 c) (i2 c))
  | Replace =>
      map (fun line => u "-" ++ line) (sub a (i1 c) (i2 c))
      ++ map (fun line => u "+" ++ line) (sub b (j1 c) (j2 c))
  | Delete => map (fun line => u "-" ++ line) (sub a (i1 c) (i2 c))
  | Insert => map (fun line => u "+" ++ line) (sub b (j1 c) (j2 c))
  end.

(** The strings yielded for one group: the hunk header, ended by
    [lineterm], then the lines of its opcodes. *)
Definition group_lines (a b : list Py.str) (lineterm : Py.str)
  (group : list Opcode) : list Py.str :=
  match group, last group with
  | first :: _, Some last_ =>
      (u "@@ -" ++ _format_range_unified (i1 first) (i2 last_)
       ++ u " +" ++ _format_range_unified (j1 first) (j2 last_)
       ++ u " @@" ++ lineterm)
      :: flat_map (opcode_lines a b) group
  | _, _ => []
  end.

(** [unified_diff(a, b, fromfile, tofile, lineterm=lineterm)] with the
    default [n=3] and no file dates: the strings the generator yields. *)
Definition unified_diff (a b : list Py.str) (fromfile tofile lineterm : Py.str)
  : list Py.str :=
  match get_grouped_opcodes a b 3 with
  | [] => []
  | groups =>
      [u "--- " ++ fromfile ++ lineterm; u "+++ " ++ tofile ++ lineterm]
      ++ flat_map (group_lines a b lineterm) groups
  end.

End Difflib.

(* ===================================================================== *)
(** * diffgen.py *)
(* ===================================================================== *)

Module DiffGenerator.
Import Models.

(** The split of one side, with the trailing-newline fix-up. *)
Definition diff_lines (text : Py.str) : list Py.str :=
  let lns :=
    Py.split Py.LF (Py.replace Py.CR Py.LF (Py.replace Py.CRLF Py.LF text)) in
  if Py.endswith text Py.LF
     && match last lns with
        | Some (_ :: _) | None => true
        | Some [] => false
        end
  then lns ++ [[]]
  else lns.

Definition generate_unified_for_file (old_text new_text old_path new_path : Py.str)
  : Py.str :=
  concat (Difflib.unified_diff (diff_lines old_text) (diff_lines new_text)
            old_path new_path Py.LF).

(** The piece one file adds to [buf]; [None] for a skipped binary file. *)
Definition file_piece (baseline outputs : gmap Py.str Py.str) (fp : FilePatch)
  : option Py.str :=
  let display := display_path fp in
  if is_binary fp then None
  else
    let piece :=
      match operation fp with
      | Delete =>
          generate_unified_for_file (default [] (baseline !! display)) []
            (old_path fp) (u "/dev/null")
      | Create =>
          generate_unified_for_file [] (default [] (outputs !! display))
            (u "/dev/null") (new_path fp)
      | _ =>
          let old_text := default [] (baseline !! display) in
          generate_unified_for_file old_text
            (default old_text (outputs !! display)) (old_path fp) (new_path fp)
      end in
    Some (if Py.endswith piece Py.LF then piece else piece ++ Py.LF).

Definition generate_unified_patchset (baseline outputs : gmap Py.str Py.str)
  (patchset : PatchSet) : Py.str :=
  concat (omap (file_piece baseline outputs) (files patchset)).

End DiffGenerator.

(* ===================================================================== *)
(** * An in-memory file system *)
(* ===================================================================== *)

(** A small instance of [FileSystem] on which the applier can be run: a
    path is its string, directories are separated by [/], there are no
    links, and a file holds ASCII text (so that its bytes and its code
    points coincide). *)

Module MemFS.
Import PatchApplier.

Record MemWorld := mkMemWorld {
  mem_files : gmap Py.str Py.str;
  mem_dirs : list Py.str;
  mem_clock : Py.str;
  mem_tmp_tag : Py.str
}.

Definition SLASH : N := 47%N.

Definition mem_join (p q : Py.str) : Py.str :=
  if Py.startswith q [SLASH] then q else p ++ [SLASH] ++ q.

(** What follows the first [/], which is dropped too. *)
Fixpoint after_slash (s : Py.str) : Py.str :=
  match s with
  | [] => []
  | c :: s' => if (c =? SLASH)%N then s' else after_slash s'
  end.

(** Everything before the last [/]. *)
Definition mem_parent (p : Py.str) : Py.str := rev (after_slash (rev p)).

Definition mem_relative_to (p root : Py.str) : option Py.str :=
  if Py.eqb p root then Some (u ".")
  else if Py.startswith p (root ++ [SLASH])
  then Some (drop (length root + 1) p)
  else None.

Definition is_dir (w : MemWorld) (p : Py.str) : bool :=
  bool_decide (p ∈ mem_dirs w).

Definition is_file (w : MemWorld) (p : Py.str) : bool :=
  bool_decide (is_Some (mem_files w !! p)).

(** The path and its ancestors, the path first. *)
Fixpoint ancestors (fuel : nat) (p : Py.str) : list Py.str :=
  match fuel with
  | O => []
  | S fuel' =>
      match p with
      | [] => []
      | _ :: _ => p :: ancestors fuel' (mem_parent p)
      end
  end.

Definition os_error {A} (msg : string) (w : MemWorld) : Result A * MemWorld :=
  (Raise (mkExn OSError (u msg)), w).

Definition with_files (w : MemWorld) (files : gmap Py.str Py.str) : MemWorld :=
  mkMemWorld files (mem_dirs w) (mem_clock w) (mem_tmp_tag w).

(** [mkdir(parents=True, exist_ok=True)]: fails when the path or one of
    its ancestors is a regular file. *)
Definition mem_mkdir (p : Py.str) (w : MemWorld) : Result unit * MemWorld :=
  let chain := ancestors (S (length p)) p in
  if existsb (is_file w) chain then os_error "File exists" w
  else
    (Ok tt,
     mkMemWorld (mem_files w)
       (mem_dirs w ++ filter (fun d => d ∉ mem_dirs w) (rev chain))
       (mem_clock w) (mem_tmp_tag w)).

Definition mem_read (p : Py.str) (w : MemWorld) : Result Py.str * MemWorld :=
  match mem_files w !! p with
  | Some text => (Ok text, w)
  | None => os_error "No such file or directory" w
  end.

Definition byte_of_code (c : N) : Byte.byte :=
  default Byte.x3f (Byte.of_N c).

Definition mem_read_bytes (p : Py.str) (w : MemWorld)
  : Result (list Byte.byte) * MemWorld :=
  match mem_files w !! p with
  | Some text => (Ok (map byte_of_code text), w)
  | None => os_error "No such file or directory" w
  end.

Definition mem_write (p data : Py.str) (w : MemWorld) : Result unit * MemWorld :=
  if is_dir w (mem_parent p) && negb (is_dir w p)
  then (Ok tt, with_files w (<[p := data]> (mem_files w)))
  else os_error "No such file or directory" w.

Definition mem_copy (src dst : Py.str) (w : MemWorld) : Result unit * MemWorld :=
  match mem_files w !! src with
  | Some text => mem_write dst text w
  | None => os_error "No such file or directory" w
  end.

Definition mem_unlink (p : Py.str) (w : MemWorld) : Result unit * MemWorld :=
  if is_file w p then (Ok tt, with_files w (delete p (mem_files w)))
  else os_error "No such file or directory" w.

Definition mem_replace (src dst : Py.str) (w : MemWorld) : Result unit * MemWorld :=
  match mem_files w !! src with
  | Some text =>
      if is_dir w (mem_parent dst) && negb (is_dir w dst)
      then (Ok tt, with_files w (<[dst := text]> (delete src (mem_files w))))
      else os_error "No such file or directory" w
  | None => os_error "No such file or directory" w
  end.

#[global] Instance mem_fs : FileSystem := {|
  World := MemWorld;
  Path := Py.str;
  fs_path := fun s => s;
  fs_str := fun p => p;
  fs_join := mem_join;
  fs_parent := mem_parent;
  fs_name_add := fun p s => p ++ s;
  fs_suffix_add := fun p s => p ++ s;
  fs_relative_to := mem_relative_to;
  fs_resolve := fun _ p => p;
  fs_exists := fun w p => is_file w p || is_dir w p;
  fs_is_file := is_file;
  fs_strftime := mem_clock;
  fs_tmp_tag := mem_tmp_tag;
  fs_mkdir := mem_mkdir;
  fs_copy2 := mem_copy;
  fs_unlink := mem_unlink;
  fs_read_text := mem_read;
  fs_read_bytes := mem_read_bytes;
  fs_write_text := mem_write;
  fs_replace := mem_replace
|}.

End MemFS.

(* ===================================================================== *)
(** * The inputs of the examples *)
(* ===================================================================== *)

Module Examples.
Import Models PatchApplier MemFS.
Local Open Scope Z_scope.

(** The options of the self tests. *)
Definition opts : Options :=
  mkOptions false false 200 false false false false true false true.

Definition ROOT : Py.str := u "/r".

(** The two lines of the round-trip self test (a JSON object before and
    after the change). *)
Definition json_old : Py.str := u "{" ++ [34%N] ++ u "b" ++ [34%N] ++ u ": 2}".
Definition json_new : Py.str := u "{" ++ [34%N] ++ u "b" ++ [34%N] ++ u ": 3}".

(** The workspace: [/r/data.json] holds the old line and a newline. *)
Definition world_json : MemWorld :=
  mkMemWorld {[u "/r/data.json" := json_old ++ Py.LF]} [u "/r"]
    (u "20240101_000000") (u "1_0").

Definition baseline_json : gmap Py.str Py.str :=
  {[u "data.json" := json_old ++ Py.LF]}.

Definition outputs_json : gmap Py.str Py.str :=
  {[u "data.json" := json_new ++ Py.LF]}.

(** A patch set that replaces the line. *)
Definition patch_json : PatchSet :=
  mkPatchSet DIALECT_CLASSIC
    [mkFilePatch (u "data.json") (u "data.json") (u "data.json") Modify
       [mkHunk 1 1 1 1 (u "@@ -1 +1 @@")
          [(u "-", json_old); (u "+", json_new)]]
       false [] ∅].

(** The same workspace with a regular file where the backup folder
    should go. *)
Definition world_blocked_backup : MemWorld :=
  mkMemWorld
    {[u "/r/data.json" := json_old ++ Py.LF;
      u "/r/.patchstudio_backups" := u "not a folder"]}
    [u "/r"] (u "20240101_000000") (u "1_0").

(** A workspace whose file [/r/notes.txt] holds no line ending at all. *)
Definition world_no_newline : MemWorld :=
  mkMemWorld {[u "/r/notes.txt" := u "abc"]} [u "/r"]
    (u "20240101_000000") (u "1_0").

(** The text [generate_unified_patchset] produces for the one-line
    change: the three lines of the hunk body share one line. *)
Definition generated_json : Py.str :=
  u "--- data.json" ++ Py.LF ++ u "+++ data.json" ++ Py.LF
  ++ u "@@ -1,2 +1,2 @@" ++ Py.LF
  ++ u "-" ++ json_old ++ u "+" ++ json_new ++ u " " ++ Py.LF.

(** A buffer in which the anchor [b] occurs on both sides of line 2, at
    equal distance. *)
Definition tie_lines : list Py.str := [u "a"; u "b"; u "x"; u "b"; u "c"].

Definition tie_hunk : Hunk :=
  mkHunk 3 1 3 2 (u "@@ -3 +3,2 @@") [(u " ", u "b"); (u "+", u "new")].

(** Two hunks for [tie_lines]: the first inserts a line after [a], the
    second, two lines further down, removes the second [b]. *)
Definition two_hunks : list Hunk :=
  [mkHunk 1 1 1 2 (u "@@ -1 +1,2 @@") [(u " ", u "a"); (u "+", u "a2")];
   mkHunk 4 2 5 1 (u "@@ -4,2 +5 @@") [(u "-", u "b"); (u " ", u "c")]].

(** A ["--- "] line whose ["+++ "] line comes exactly 60 lines later. *)
Definition far_header : list Py.str :=
  [u "--- a"] ++ replicate 59 (u "x") ++ [u "+++ b"].

(** A classic patch after one line of noise. *)
Definition noisy_classic : list Py.str :=
  [u "some noise"; u "--- a"; u "+++ b"; u "@@ -1 +1 @@"; u "-x"; u "+y"].

(** A Git block whose ["rename from "] line names nothing. *)
Definition git_empty_rename : list Py.str :=
  [u "diff --git a/x b/x"; u "rename from "; u "--- a/x"; u "+++ b/x";
   u "@@ -1 +1 @@"; u "-a"; u "+b"].

(** A Git patch for two files, after a line of preamble. *)
Definition git_two_files : Py.str :=
  Py.join Py.LF
    [u "From: someone"; u "diff --git a/x b/x"; u "--- a/x"; u "+++ b/x";
     u "@@ -1 +1 @@"; u "-a"; u "+b"; u "diff --git a/y b/y";
     u "new file mode 100644"; u "--- /dev/null"; u "+++ b/y";
     u "@@ -0,0 +1 @@"; u "+c"].

(** A hunk that only inserts. *)
Definition insert_hunk : Hunk :=
  mkHunk 2 0 2 1 (u "@@ -2,0 +2 @@") [(u "+", u "new")].

(** A file patch without hunks, as a mode change gives. *)
Definition mode_only_patch : FilePatch :=
  mkFilePatch (u "data.json") (u "data.json") (u "data.json") Modify []
    false [] ∅.

End Examples.

(* ===================================================================== *)
(** * The specification's wording, as definitions *)
(* ===================================================================== *)

(** These definitions are not taken from the code: each one spells out a
    sentence of the specification, to be compared with the code above. *)

Module Spec.
Import Models PatchApplier.

(** Removal of every leading byte order mark. *)
Fixpoint strip_boms (s : Py.str) : Py.str :=
  match s with
  | [] => []
  | c :: s' => if (c =? 65279)%N then strip_boms s' else s
  end.

(** Removal of exactly one leading byte order mark, when there is one. *)
Definition strip_one_bom (s : Py.str) : Py.str :=
  match s with
  | [] => []
  | c :: s' => if (c =? 65279)%N then s' else s
  end.

(** Every CR LF pair becomes LF. *)
Fixpoint fold_crlf (s : Py.str) : Py.str :=
  match s with
  | [] => []
  | c :: s' =>
      match s' with
      | d :: s'' =>
          if ((c =? 13) && (d =? 10))%N then 10%N :: fold_crlf s''
          else c :: fold_crlf s'
      | [] => [c]
      end
  end.

(** Every CR becomes LF. *)
Definition fold_cr (s : Py.str) : Py.str :=
  map (fun c => if (c =? 13)%N then 10%N else c) s.

(** The metadata bag contains the key. *)
Definition md_contains (md : gmap Py.str (option Py.str)) (key : Py.str) : Prop :=
  is_Some (md !! key).

(** The metadata bag maps the key to a non-empty string. *)
Definition md_nonempty (md : gmap Py.str (option Py.str)) (key : Py.str) : Prop :=
  exists v, md !! key = Some (Some v) /\ v <> [].

(** The five inference rules, with "contains" read as [contains]. *)
Definition inferred_by_rules
  (contains : gmap Py.str (option Py.str) -> Py.str -> Prop)
  (old_path new_path : Py.str) (md : gmap Py.str (option Py.str))
  (op : Operation) : Prop :=
  let dev_null := u "/dev/null" in
  let rule1 := contains md (u "new_file_mode") \/ old_path = dev_null in
  let rule2 := contains md (u "deleted_file_mode") \/ new_path = dev_null in
  let rule3 := contains md (u "rename_from") \/ contains md (u "rename_to") in
  let rule4 :=
    old_path <> new_path /\ old_path <> dev_null /\ new_path <> dev_null in
  match op with
  | Create => rule1
  | Delete => ~ rule1 /\ rule2
  | Rename => ~ rule1 /\ ~ rule2 /\ (rule3 \/ rule4)
  | Modify => ~ rule1 /\ ~ rule2 /\ ~ rule3 /\ ~ rule4
  end.

(** A ["+++ "] line follows line [i] at some [j] below [i + window], with
    no ["@@ "] line in between. *)
Definition ppp_within (window : nat) (lines : list Py.str) (i : nat) : Prop :=
  exists j,
    i < j /\ j < Nat.min (i + window) (length lines)
    /\ Py.startswith (nth j lines []) (u "+++ ") = true
    /\ forall k, i < k -> k < j ->
         Py.startswith (nth k lines []) (u "@@ ") = false.

(** Line [i] is a file header: it begins with ["--- "] and a ["+++ "] line
    follows within the window. *)
Definition starts_block (window : nat) (lines : list Py.str) (i : nat) : Prop :=
  Py.startswith (nth i lines []) (u "--- ") = true /\ ppp_within window lines i.

(** [Applies norm hl old new]: the hunk lines [hl] turn the buffer segment
    [old] into [new].  A context line is checked against the buffer line,
    under the comparison [norm], and the buffer line is kept; a deletion is
    checked and the buffer line dropped; an addition is inserted; a line
    with any other tag is skipped. *)
Inductive Applies (norm : Py.str -> Py.str)
  : list (Py.str * Py.str) -> list Py.str -> list Py.str -> Prop :=
| Applies_nil : Applies norm [] [] []
| Applies_context s have_ hl old new :
    norm s = norm have_ -> Applies norm hl old new ->
    Applies norm ((u " ", s) :: hl) (have_ :: old) (have_ :: new)
| Applies_deletion s have_ hl old new :
    norm s = norm have_ -> Applies norm hl old new ->
    Applies norm ((u "-", s) :: hl) (have_ :: old) new
| Applies_addition s hl old new :
    Applies norm hl old new ->
    Applies norm ((u "+", s) :: hl) old (s :: new)
| Applies_other t s hl old new :
    t <> u " " -> t <> u "-" -> t <> u "+" -> Applies norm hl old new ->
    Applies norm ((t, s) :: hl) old new.

(** What the loop of [_apply_hunk_at] has done when it ends without a
    mismatch: it went through a segment [old] of the buffer and produced
    [new] for it. *)
Definition loop_applied (ignore_ws : bool) (hl : list (Py.str * Py.str))
  (st st' : HunkStore) : Prop :=
  exists old new,
    Applies (fun s => _normalize_match_line s ignore_ws) hl old new
    /\ drop (Z.to_nat (st_i st)) (st_lines st)
       = old ++ drop (Z.to_nat (st_i st) + length old) (st_lines st)
    /\ st_i st' = (st_i st + Z.of_nat (length old))%Z
    /\ st_out st' = st_out st ++ new.

(** What a mismatch [m] tells: the hunk lines before index [k] applied,
    and line [k] is a context or deletion line that the buffer, at the
    position reached, does not have. *)
Definition loop_stopped (ignore_ws : bool) (hl : list (Py.str * Py.str))
  (lns : list Py.str) (start : Z) (m : Mismatch) : Prop :=
  exists (k : nat) t s old new,
    hl !! k = Some (t, s) /\ (t = u " " \/ t = u "-")
    /\ Applies (fun s => _normalize_match_line s ignore_ws) (take k hl) old new
    /\ drop (Z.to_nat start) lns
       = old ++ drop (Z.to_nat start + length old) lns
    /\ mm_at m = (start + Z.of_nat (length old))%Z
    /\ (lns !! (Z.to_nat start + length old)%nat = None
        \/ exists have_,
             lns !! (Z.to_nat start + length old)%nat = Some have_
             /\ _normalize_match_line s ignore_ws
                <> _normalize_match_line have_ ignore_ws).

(** Additions minus deletions of a list of hunk lines. *)
Definition net_lines (hl : list (Py.str * Py.str)) : Z :=
  (Z.of_nat (length (filter (fun e => e.1 = u "+") hl))
   - Z.of_nat (length (filter (fun e => e.1 = u "-") hl)))%Z.

(** The sum of [net_lines] over hunks. *)
Definition net_lines_sum (hs : list Hunk) : Z :=
  foldr (fun h acc => (net_lines (lines h) + acc)%Z) 0%Z hs.

End Spec.

(** Shapes used to state what the splitters and the parser keep. *)

Module Shapes.
Import Models PatchInputNormalizer.

(** Every line, each followed by LF. *)
Definition unlines (l : list Py.str) : Py.str :=
  concat (map (fun x => x ++ Py.LF) l).

(** The items from the first one that satisfies [p] on. *)
Fixpoint from_first {X} (p : X -> bool) (l : list X) : list X :=
  match l with
  | [] => []
  | x :: l' => if p x then l else from_first p l'
  end.

(** Whether the ["--- "] line at index [i] opens a block of the Classic
    splitter. *)
Definition opens_classic (lines : list Py.str) (i : nat) : bool :=
  Py.startswith (nth i lines []) (u "--- ") && found_ppp lines i.

(** The line prefix that opens a block of each dialect. *)
Definition header_prefix (d : Dialect) : Py.str :=
  match d with
  | DIALECT_GIT => u "diff --git "
  | DIALECT_INDEX => u "Index: "
  | DIALECT_CLASSIC => u "--- "
  end.

(** The first code point is not a byte order mark. *)
Definition no_bom_head (s : Py.str) : Prop :=
  match s with
  | [] => True
  | c :: _ => c <> 65279%N
  end.

(** A block of dialect [d]: its text begins with the header prefix of the
    dialect and ends with LF. *)
Definition block_ok (d : Dialect) (b : FileBlock) : Prop :=
  block_dialect b = d
  /\ Py.startswith (block_text b) (header_prefix d) = true
  /\ Py.endswith (block_text b) Py.LF = true.

(** A splitter state whose emitted blocks are well formed and whose open
    block, if any, begins with a header line. *)
Definition state_ok (d : Dialect) (st : SplitState) : Prop :=
  Forall (block_ok d) (blocks st)
  /\ match cur st with
     | [] => True
     | h :: _ => Py.startswith h (header_prefix d) = true
     end.

(** The three tags of a hunk line. *)
Definition TAGS : list Py.str := [u " "; u "+"; u "-"].

(** A hunk whose lines all carry one of the three tags. *)
Definition tags_ok (h : Hunk) : Prop :=
  Forall (fun e => e.1 ∈ TAGS) (lines h).



(** The first line number a unified range [start, stop) is written with:
    [start + 1], or [start] when the range is empty. *)
Definition range_first (start stop : nat) : Z :=
  if (stop - start =? 0)%nat then Z.of_nat start else Z.of_nat (start + 1).

(** The texts of a list of blocks, one after the other. *)
Definition texts (bs : list FileBlock) : Py.str := concat (map block_text bs).

(** The three ways one iteration of the hunk loop of
    [_apply_filepatch_in_memory] changes its variables: the hunk is
    applied, conflict markers are inserted, or the file is given up. *)
Inductive iter_step (o : PatchApplier.Options) (st : PatchApplier.MemState)
  (h : Hunk) : PatchApplier.HunkOutcome -> PatchApplier.MemState -> Prop :=
| step_applied new_out :
    Py.len new_out
    = (Py.len (PatchApplier.out_lines st) + Spec.net_lines (lines h))%Z ->
    iter_step o st h PatchApplier.HunkApplied
      (PatchApplier.mkMemState new_out
         (PatchApplier.line_offset st + Spec.net_lines (lines h))%Z
         (PatchApplier.mkStats
            (PatchApplier.hunks_applied (PatchApplier.stats st) + 1)%Z
            (PatchApplier.lines_added (PatchApplier.stats st)
             + PatchApplier._count_tag (lines h) (u "+"))%Z
            (PatchApplier.lines_removed (PatchApplier.stats st)
             + PatchApplier._count_tag (lines h) (u "-"))%Z)
         (PatchApplier.diagnostics st))
| step_marked at_ entry :
    PatchApplier.conflict_marker_mode o = true ->
    PatchApplier.mismatch entry = None ->
    iter_step o st h PatchApplier.HunkConflictMarked
      (PatchApplier.mkMemState
         (PatchApplier._insert_conflict_markers (PatchApplier.out_lines st) at_ h
            (PatchApplier.ignore_whitespace_differences o))
         (PatchApplier.line_offset st)
         (PatchApplier.mkStats
            (PatchApplier.hunks_applied (PatchApplier.stats st) + 1)%Z
            (PatchApplier.lines_added (PatchApplier.stats st))
            (PatchApplier.lines_removed (PatchApplier.stats st)))
         (PatchApplier.mkDiagnostics
            (PatchApplier.failed (PatchApplier.diagnostics st)) true
            (PatchApplier.details (PatchApplier.diagnostics st) ++ [entry])))
| step_failed entry :
    PatchApplier.conflict_marker_mode o = false ->
    PatchApplier.mismatch entry = None ->
    iter_step o st h PatchApplier.HunkFailed
      (PatchApplier.mkMemState (PatchApplier.out_lines st)
         (PatchApplier.line_offset st) (PatchApplier.stats st)
         (PatchApplier.mkDiagnostics true
            (PatchApplier.conflicted (PatchApplier.diagnostics st))
            (PatchApplier.details (PatchApplier.diagnostics st) ++ [entry]))).


(** A run of the hunk loop as a chain of steps: a step that gives the file
    up is the last one. *)
Inductive loop_run (o : PatchApplier.Options)
  : PatchApplier.MemState -> list Hunk -> list PatchApplier.HunkOutcome
    -> PatchApplier.MemState -> Prop :=
| run_done st : loop_run o st [] [] st
| run_stop st h rest st' :
    iter_step o st h PatchApplier.HunkFailed st' ->
    loop_run o st (h :: rest) [PatchApplier.HunkFailed] st'
| run_next st h rest oc st1 outs st' :
    oc <> PatchApplier.HunkFailed ->
    iter_step o st h oc st1 ->
    loop_run o st1 rest outs st' ->
    loop_run o st (h :: rest) (oc :: outs) st'.

End Shapes.

(* ===================================================================== *)
(** * Properties *)
(* ===================================================================== *)

(** ** Python built-ins *)

Module PyFacts.

Lemma startswith_spec {A} `{EqDecision A} (s prefix : list A) :
  Py.startswith s prefix = true <-> exists rest, s = prefix ++ rest.
Proof.
  revert s. induction prefix as [|c p IH]; intros s.
  - destruct s; simpl; (split; [intros _; by eexists | done]).
  - destruct s as [|d s]; simpl.
    + split; [done | intros [rest Hr]; discriminate].
    + rewrite andb_true_iff, bool_decide_eq_true, IH. split.
      * intros [-> [rest ->]]. by exists rest.
      * intros [rest Hr]. injection Hr as -> ->. split; [done | by exists rest].
Qed.

Lemma bool_decide_N_eqb (a b : N) : bool_decide (a = b) = (b =? a)%N.
Proof. destruct (N.eqb_spec b a); case_bool_decide; congruence. Qed.

Lemma replace_crlf (s : Py.str) :
  Py.replace Py.CRLF Py.LF s = Spec.fold_crlf s.
Proof.
  unfold Py.replace, Py.CRLF, Py.LF.
  enough (H : Py.replace_scan [13%N; 10%N] [10%N] 0 s = Spec.fold_crlf s
              /\ forall c, Py.replace_scan [13%N; 10%N] [10%N] 0 (c :: s)
                           = Spec.fold_crlf (c :: s)) by apply H.
  induction s as [|d s [IH1 IH2]].
  - split; [done |]. intros c. simpl. by rewrite andb_false_r.
  - split; [apply IH2 |]. intros c.
    change (Py.replace_scan [13%N; 10%N] [10%N] 0 (c :: d :: s))
      with (if Py.startswith (c :: d :: s) [13%N; 10%N]
            then [10%N] ++ Py.replace_scan [13%N; 10%N] [10%N] 0 s
            else c :: Py.replace_scan [13%N; 10%N] [10%N] 0 (d :: s)).
    change (Spec.fold_crlf (c :: d :: s))
      with (if ((c =? 13) && (d =? 10))%N then 10%N :: Spec.fold_crlf s
            else c :: Spec.fold_crlf (d :: s)).
    rewrite IH1, IH2.
    replace (Py.startswith (c :: d :: s) [13%N; 10%N])
      with ((c =? 13) && (d =? 10))%N; [by destruct (_ && _) |].
    simpl. rewrite !bool_decide_N_eqb. by destruct s; rewrite andb_true_r.
Qed.

Lemma replace_cr (s : Py.str) : Py.replace Py.CR Py.LF s = Spec.fold_cr s.
Proof.
  unfold Py.replace, Py.CR, Py.LF, Spec.fold_cr.
  induction s as [|c s IH]; [done |].
  simpl. rewrite bool_decide_N_eqb, IH.
  by destruct s, (c =? 13)%N.
Qed.

Lemma lstrip_bom (s : Py.str) :
  (if Py.startswith s Py.BOM then Py.lstrip_chars Py.BOM s else s)
  = Spec.strip_boms s.
Proof.
  assert (Hin : forall c, bool_decide (c ∈ Py.BOM) = (c =? 65279)%N).
  { intros c. unfold Py.BOM. destruct (N.eqb_spec c 65279) as [->|Hne].
    - apply bool_decide_eq_true_2. by apply list_elem_of_singleton.
    - apply bool_decide_eq_false_2. by rewrite list_elem_of_singleton. }
  assert (Hall : forall t, Py.lstrip_chars Py.BOM t = Spec.strip_boms t).
  { induction t as [|c t IH]; [done |]. simpl. by rewrite Hin, IH. }
  destruct s as [|c s]; [done |].
  rewrite Hall. simpl. rewrite bool_decide_N_eqb.
  destruct s; simpl; rewrite ?andb_true_r; by destruct (c =? 65279)%N.
Qed.

Lemma eqb_spec {A} `{EqDecision A} (s t : list A) :
  Py.eqb s t = true <-> s = t.
Proof. unfold Py.eqb. apply bool_decide_eq_true. Qed.

Lemma eqb_false {A} `{EqDecision A} (s t : list A) :
  Py.eqb s t = false <-> s <> t.
Proof. unfold Py.eqb. apply bool_decide_eq_false. Qed.

Lemma elem_of_range (p start stop : Z) :
  p ∈ Py.range start stop <-> (start <= p < stop)%Z.
Proof.
  unfold Py.range. rewrite list_elem_of_In, in_map_iff. split.
  - intros (k & <- & Hk). apply in_seq in Hk. lia.
  - intros Hp. exists (Z.to_nat (p - start)). split; [lia |].
    apply in_seq. lia.
Qed.

Section Sort.
Context {A K : Type} (ltb : K -> K -> bool) (key : A -> K).

Lemma sort_insert_elem (x y : A) (l : list A) :
  y ∈ Py.sort_insert ltb key x l <-> y = x \/ y ∈ l.
Proof.
  induction l as [|z l IH]; simpl.
  - rewrite list_elem_of_singleton, elem_of_nil. tauto.
  - destruct (ltb (key z) (key x)); rewrite !elem_of_cons; [rewrite IH |]; tauto.
Qed.

Lemma sort_by_elem (y : A) (l : list A) : y ∈ Py.sort_by ltb key l <-> y ∈ l.
Proof.
  induction l as [|x l IH]; [done |].
  unfold Py.sort_by in *. simpl. rewrite sort_insert_elem, elem_of_cons, IH. tauto.
Qed.

Hypothesis ltb_asym : forall a b, ltb a b = true -> ltb b a = false.
Hypothesis ltb_trans :
  forall a b c, ltb b a = false -> ltb c b = false -> ltb c a = false.

(** The head of the sorted list has a least key. *)
Lemma sort_by_head_least (l : list A) (c : A) (rest : list A) :
  Py.sort_by ltb key l = c :: rest ->
  forall y, y ∈ l -> ltb (key y) (key c) = false.
Proof.
  assert (Hirr : forall a, ltb a a = false).
  { intros a. destruct (ltb a a) eqn:E; [| done].
    pose proof (ltb_asym _ _ E). congruence. }
  revert c rest. induction l as [|x l IH]; intros c rest Hs y Hy.
  - by apply elem_of_nil in Hy.
  - unfold Py.sort_by in Hs, IH. simpl in Hs.
    destruct (foldr (Py.sort_insert ltb key) [] l) as [|c' r'] eqn:El.
    + assert (l = []) as ->.
      { destruct l as [|z l']; [done |].
        assert (Hz : z ∈ Py.sort_by ltb key (z :: l')) by (apply sort_by_elem; left).
        unfold Py.sort_by in Hz. rewrite El in Hz. by apply elem_of_nil in Hz. }
      simpl in Hs. injection Hs as <- <-.
      apply list_elem_of_singleton in Hy as ->. apply Hirr.
    + simpl in Hs. apply elem_of_cons in Hy.
      destruct (ltb (key c') (key x)) eqn:E; injection Hs as <- <-.
      * destruct Hy as [->|Hy]; [by apply ltb_asym | by eapply IH].
      * destruct Hy as [->|Hy]; [apply Hirr |].
        eapply ltb_trans; [exact E | by eapply IH].
Qed.

End Sort.

End PyFacts.

(** ** normalizer.py *)

Module NormalizerFacts.
Import Models PatchInputNormalizer.

(** C8 (as the code has it): the text [normalize] returns is the input
    with every leading byte order mark removed, then every CR LF pair
    replaced by LF, then every remaining CR replaced by LF. *)
Theorem normalize_strips_all_boms_then_folds (raw_text : Py.str) :
  (normalize raw_text).1.1
  = Spec.fold_cr (Spec.fold_crlf (Spec.strip_boms raw_text)).
Proof.
  unfold normalize. cbn [fst]. unfold normalize_text.
  by rewrite PyFacts.lstrip_bom, PyFacts.replace_crlf, PyFacts.replace_cr.
Qed.

(** C8 as stated fails: with two leading byte order marks, the second one
    is not preserved in the output. *)
Lemma normalize_second_bom_not_preserved :
  let raw := Py.BOM ++ Py.BOM ++ u "a" in
  (normalize raw).1.1 = u "a"
  /\ Spec.fold_cr (Spec.fold_crlf (Spec.strip_one_bom raw)) = Py.BOM ++ u "a"
  /\ (normalize raw).1.1
     <> Spec.fold_cr (Spec.fold_crlf (Spec.strip_one_bom raw)).
Proof. by vm_compute. Qed.

Lemma look_ahead_spec (lines : list Py.str) (bound fuel : nat) :
  forall j, bound - j <= fuel ->
  look_ahead lines bound fuel j = true
  <-> exists j', j <= j' /\ j' < bound
        /\ Py.startswith (nth j' lines []) (u "+++ ") = true
        /\ forall k, j <= k -> k < j' ->
             Py.startswith (nth k lines []) (u "@@ ") = false.
Proof.
  induction fuel as [|fuel IH]; intros j Hf; simpl.
  - split; [done |]. intros (j' & ? & ? & _). lia.
  - destruct (Nat.ltb_spec j bound) as [Hlt|Hge].
    2:{ split; [done |]. intros (j' & ? & ? & _). lia. }
    destruct (Py.startswith (nth j lines []) (u "+++ ")) eqn:Ep.
    { split; [| done]. intros _. exists j. repeat split; try done. lia. }
    destruct (Py.startswith (nth j lines []) (u "@@ ")) eqn:Ea.
    { split; [done |]. intros (j' & Hj & _ & Hp & Hno).
      destruct (decide (j' = j)) as [->|Hne]; [congruence |].
      rewrite Hno in Ea by lia. done. }
    rewrite IH by lia. split.
    + intros (j' & Hj & Hb & Hp & Hno). exists j'.
      repeat split; try done; [lia |].
      intros k Hk1 Hk2. destruct (decide (k = j)) as [->|Hne]; [done |].
      apply Hno; lia.
    + intros (j' & Hj & Hb & Hp & Hno).
      destruct (decide (j' = j)) as [->|Hne]; [congruence |].
      exists j'. repeat split; try done; [lia |].
      intros k Hk1 Hk2. apply Hno; lia.
Qed.

Lemma found_ppp_spec (lines : list Py.str) (i : nat) :
  found_ppp lines i = true <-> Spec.ppp_within 60 lines i.
Proof.
  unfold found_ppp, Spec.ppp_within. rewrite look_ahead_spec by lia.
  split; intros (j & H1 & H2 & H3 & H4); exists j;
    (repeat split; try done; [lia |]); intros k Hk1 Hk2; apply H4; lia.
Qed.

Lemma classic_loop_noise (lines : list Py.str) (fuel : nat) :
  forall i,
    (forall i', i <= i' -> i' < i + fuel -> ~ Spec.starts_block 60 lines i') ->
    classic_loop lines fuel i split_init = split_init.
Proof.
  induction fuel as [|fuel IH]; intros i Hno; [done |].
  simpl. destruct (i <? length lines); [| done].
  assert (Hi : classic_iter lines i split_init = split_init).
  { unfold classic_iter.
    destruct (Py.startswith (nth i lines []) (u "--- ")) eqn:Es; [| done].
    destruct (found_ppp lines i) eqn:Ef; [| done].
    destruct (Hno i); [lia | lia |]. split; [done | by apply found_ppp_spec]. }
  rewrite Hi. apply IH. intros i' H1 H2. apply Hno; lia.
Qed.

(** C7 (as the code has it): a ["--- "] line at index [i] starts a new
    block (the block being read becomes that line alone) exactly when a
    ["+++ "] line follows at an index below [min(i + 60, len)], that is
    within the next 59 lines, with no ["@@ "] line in between.  Any other
    line is kept as content of the open block, or dropped when no block is
    open; the lines before the first block leave no trace. *)
Theorem classic_split_block_starts (lines : list Py.str) :
  (forall i st,
     cur (classic_iter lines i st) = [nth i lines []]
     <-> Spec.starts_block 60 lines i)
  /\ (forall i st,
     Spec.starts_block 60 lines i ->
     classic_iter lines i st
     = mkSplitState (flush DIALECT_CLASSIC st) [nth i lines []] HeaderClassic None)
  /\ (forall i st,
        ~ Spec.starts_block 60 lines i ->
        classic_iter lines i st = keep_line (nth i lines []) st)
  /\ (forall line st, cur st = [] -> keep_line line st = st)
  /\ (forall line st,
        cur st <> [] ->
        cur (keep_line line st) = cur st ++ [line]
        /\ blocks (keep_line line st) = blocks st)
  /\ (forall n,
        (forall i, i < n -> ~ Spec.starts_block 60 lines i) ->
        classic_loop lines n 0 split_init = split_init).
Proof.
  split; [| split; [| split; [| split; [| split]]]].
  - intros i st. unfold classic_iter, Spec.starts_block.
    rewrite <- found_ppp_spec.
    destruct (Py.startswith (nth i lines []) (u "--- ")), (found_ppp lines i);
      cbn [cur]; try (split; [done | by intros [_ ?]]);
      unfold keep_line;
      (split; [| by intros [? ?]]);
      destruct (cur st) as [|c [|c' r]] eqn:Ec; cbn [cur];
      rewrite ?Ec; done.
  - intros i st [Hs Hp]. unfold classic_iter.
    apply found_ppp_spec in Hp. by rewrite Hs, Hp.
  - intros i st Hno. unfold classic_iter.
    destruct (Py.startswith (nth i lines []) (u "--- ")) eqn:Es; [| done].
    destruct (found_ppp lines i) eqn:Ef; [| done].
    destruct Hno. split; [done | by apply found_ppp_spec].
  - intros line st Hc. unfold keep_line. by rewrite Hc.
  - intros line st Hc. unfold keep_line. by destruct (cur st).
  - intros n Hno. apply classic_loop_noise. intros i _ Hi. apply Hno. lia.
Qed.

(** An instance: after one line of noise, the ["--- a"] line opens the
    first block. *)
Lemma classic_split_block_starts_witness :
  Spec.starts_block 60 Examples.noisy_classic 1
  /\ classic_iter Examples.noisy_classic 1 split_init
     = mkSplitState [] [u "--- a"] HeaderClassic None
  /\ classic_loop Examples.noisy_classic 1 0 split_init = split_init.
Proof.
  assert (Hs : Spec.starts_block 60 Examples.noisy_classic 1).
  { split; [by vm_compute |]. exists 2%nat.
    split; [lia |]. split; [vm_compute; lia |]. split; [by vm_compute |]. lia. }
  destruct (classic_split_block_starts Examples.noisy_classic)
    as (_ & Hstart & _ & _ & _ & Hnoise).
  split; [exact Hs |]. split; [exact (Hstart 1%nat split_init Hs) |].
  apply Hnoise. intros i Hi [Hh _].
  assert (i = 0%nat) as -> by lia. by vm_compute in Hh.
Defined.

(** C7 as stated fails: a ["+++ "] line exactly 60 lines after the
    ["--- "] line, with no ["@@"] line in between, does not make the
    ["--- "] line start a block; here the whole input is dropped. *)
Lemma classic_split_misses_line_60 :
  let lines := Examples.far_header in
  Py.split Py.LF (Py.join Py.LF lines) = lines
  /\ Py.startswith (nth 0 lines []) (u "--- ") = true
  /\ Py.startswith (nth 60 lines []) (u "+++ ") = true
  /\ (forall k, 0 < k -> k < 60 ->
        Py.startswith (nth k lines []) (u "@@") = false)
  /\ Spec.starts_block 61 lines 0
  /\ classic_iter lines 0 split_init = split_init
  /\ _split_classic_blocks (Py.join Py.LF lines) = [].
Proof.
  assert (Hall : forall p, forallb
            (fun k => negb (Py.startswith (nth k Examples.far_header []) p))
            (seq 1 59) = true ->
          forall k, 0 < k -> k < 60 ->
            Py.startswith (nth k Examples.far_header []) p = false).
  { intros p Hf k H1 H2. rewrite forallb_forall in Hf.
    apply negb_true_iff, Hf, in_seq. lia. }
  cbv zeta.
  split; [by vm_compute |]. split; [by vm_compute |]. split; [by vm_compute |].
  split; [by apply Hall; vm_compute |].
  split; [| split; by vm_compute].
  split; [by vm_compute |]. exists 60.
  split; [lia |]. split; [vm_compute; lia |]. split; [by vm_compute |].
  by apply Hall; vm_compute.
Qed.

End NormalizerFacts.

(** ** parser.py *)

Module ParserFacts.
Import Models UnifiedDiffParser.

Lemma md_truthy_spec (md : gmap Py.str (option Py.str)) (key : Py.str) :
  md_truthy md key = true <-> Spec.md_nonempty md key.
Proof.
  unfold md_truthy, Spec.md_nonempty.
  destruct (md !! key) as [[[|c v]|]|]; split; try done.
  - intros (v & [= <-] & Hv). done.
  - intros _. by exists (c :: v).
  - intros (v & [=] & _).
  - intros (v & [=] & _).
Qed.

(** The shape of a first-match decision over four rules. *)
Lemma first_match_decides (r1 r2 r3 r4 : bool) (P1 P2 P3 P4 : Prop)
  (op : Operation) :
  (r1 = true <-> P1) -> (r2 = true <-> P2) -> (r3 = true <-> P3) ->
  (r4 = true <-> P4) ->
  (if r1 then Create else if r2 then Delete else if r3 then Rename
   else if r4 then Rename else Modify) = op
  <-> match op with
      | Create => P1
      | Delete => ~ P1 /\ P2
      | Rename => ~ P1 /\ ~ P2 /\ (P3 \/ P4)
      | Modify => ~ P1 /\ ~ P2 /\ ~ P3 /\ ~ P4
      end.
Proof.
  intros R1 R2 R3 R4.
  destruct r1, r2, r3, r4, op; split; intros H;
    try discriminate; try reflexivity; intuition discriminate.
Qed.

(** C6 (as the code has it): the inferred operation is decided by the
    first matching rule, where a metadata key counts only when it is
    present with a non-empty value. *)
Theorem infer_operation_first_matching_rule
  (old_path new_path : Py.str) (md : gmap Py.str (option Py.str))
  (op : Operation) :
  _infer_operation old_path new_path md = op
  <-> Spec.inferred_by_rules Spec.md_nonempty old_path new_path md op.
Proof.
  unfold _infer_operation, Spec.inferred_by_rules, DEV_NULL.
  apply first_match_decides.
  - by rewrite orb_true_iff, md_truthy_spec, PyFacts.eqb_spec.
  - by rewrite orb_true_iff, md_truthy_spec, PyFacts.eqb_spec.
  - by rewrite orb_true_iff, !md_truthy_spec.
  - rewrite !andb_true_iff, !negb_true_iff, !PyFacts.eqb_false. tauto.
Qed.

(** C6 as stated fails: a ["rename from "] line with nothing after it
    leaves the key in the bag with an empty value, and the operation is
    then not a rename. *)
Lemma infer_operation_empty_rename_from :
  let md : gmap Py.str (option Py.str) := {[u "rename_from" := Some []]} in
  Spec.inferred_by_rules Spec.md_contains (u "x") (u "x") md Rename
  /\ _infer_operation (u "x") (u "x") md = Modify
  /\ exists fp,
       _parse_git_block Examples.git_empty_rename = Some fp
       /\ metadata fp !! u "rename_from" = Some (Some [])
       /\ old_path fp = u "x" /\ new_path fp = u "x"
       /\ operation fp = Modify.
Proof.
  split; [| split; [by vm_compute |]].
  - unfold Spec.inferred_by_rules, Spec.md_contains.
    split; [| split].
    + intros [[v Hv]|He]; [by vm_compute in Hv | by vm_compute in He].
    + intros [[v Hv]|He]; [by vm_compute in Hv | by vm_compute in He].
    + left. left. by eexists.
  - eexists. split; [vm_compute; reflexivity |]. repeat split; by vm_compute.
Qed.

End ParserFacts.

(** ** applier.py: the locator *)

Module LocatorFacts.
Import Models PatchApplier.
Local Open Scope Z_scope.

Lemma pair_ltb_asym (a b : Z * Z) :
  Py.pair_ltb a b = true -> Py.pair_ltb b a = false.
Proof. unfold Py.pair_ltb. destruct a, b. simpl. lia. Qed.

Lemma pair_ltb_trans (a b c : Z * Z) :
  Py.pair_ltb b a = false -> Py.pair_ltb c b = false -> Py.pair_ltb c a = false.
Proof. unfold Py.pair_ltb. destruct a, b, c. simpl. lia. Qed.

Lemma anchor_seq_insertion_only (hunk : Hunk) :
  (forall e, e ∈ lines hunk -> e.1 <> u " " /\ e.1 <> u "-") ->
  anchor_seq hunk = [].
Proof.
  unfold anchor_seq. induction (lines hunk) as [|e l IH]; intros H; [done |].
  rewrite filter_cons. destruct (decide _) as [Hin|_].
  - destruct (H e) as [H1 H2]; [left |].
    apply elem_of_cons in Hin as [?|Hin]; [done |].
    apply list_elem_of_singleton in Hin. done.
  - apply IH. intros e' He'. apply H. by right.
Qed.

(** C9: a hunk without context and deletion lines has no anchors, its
    anchors match at every position, and the locator returns the clamped
    expected position whatever the buffer and the fuzzy options. *)
Theorem insertion_only_hunk_is_always_located
  (lns : list Py.str) (hunk : Hunk) (expected : Z) (ignore_ws fuzzy : bool)
  (fuzzy_window : Z) :
  (forall e, e ∈ lines hunk -> e.1 <> u " " /\ e.1 <> u "-") ->
  anchor_seq hunk = []
  /\ (forall pos, _hunk_anchors_match lns hunk pos ignore_ws = true)
  /\ (_locate_hunk_position lns hunk expected ignore_ws fuzzy fuzzy_window).1
     = Some (Z.min (Z.max expected 0) (Py.len lns)).
Proof.
  intros H. apply anchor_seq_insertion_only in H.
  assert (Hm : forall pos, _hunk_anchors_match lns hunk pos ignore_ws = true).
  { intros pos. unfold _hunk_anchors_match. by rewrite H. }
  split; [done |]. split; [done |].
  unfold _locate_hunk_position. by rewrite Hm.
Qed.

(** An instance: an insertion expected past the end of a five-line buffer
    is located at its end. *)
Lemma insertion_only_hunk_witness :
  (forall e, e ∈ lines Examples.insert_hunk -> e.1 <> u " " /\ e.1 <> u "-")
  /\ (_locate_hunk_position Examples.tie_lines Examples.insert_hunk 9 false
        false 200).1 = Some 5.
Proof.
  assert (H : forall e, e ∈ lines Examples.insert_hunk ->
                        e.1 <> u " " /\ e.1 <> u "-").
  { intros e He. apply list_elem_of_singleton in He as ->.
    split; vm_compute; discriminate. }
  split; [exact H |].
  exact (proj2 (proj2 (insertion_only_hunk_is_always_located
    Examples.tie_lines Examples.insert_hunk 9 false false 200 H))).
Defined.

Lemma fuzzy_candidates_spec (lns : list Py.str) (hunk : Hunk) (pos : Z)
  (ignore_ws : bool) (fuzzy_window p : Z) :
  p ∈ fuzzy_candidates lns hunk pos ignore_ws fuzzy_window
  <-> (Z.max 0 (pos - fuzzy_window) <= p
       <= Z.min (Py.len lns) (pos + fuzzy_window))
      /\ _hunk_anchors_match lns hunk p ignore_ws = true.
Proof.
  unfold fuzzy_candidates.
  rewrite list_elem_of_filter, PyFacts.elem_of_range. intuition lia.
Qed.

(** C4: when the strict check at the clamped position fails and fuzzy
    search is on, the locator reports no match exactly when no position of
    the window matches, and otherwise returns the matching position that
    minimises (|p - pos|, p): the closest, and the smaller index of two
    equally close ones. *)
Theorem fuzzy_location_is_closest_then_smallest
  (lns : list Py.str) (hunk : Hunk) (expected : Z) (ignore_ws : bool)
  (fuzzy_window : Z) :
  let pos := Z.min (Z.max expected 0) (Py.len lns) in
  let candidate p :=
    (Z.max 0 (pos - fuzzy_window) <= p
     <= Z.min (Py.len lns) (pos + fuzzy_window))
    /\ _hunk_anchors_match lns hunk p ignore_ws = true in
  let located :=
    (_locate_hunk_position lns hunk expected ignore_ws true fuzzy_window).1 in
  _hunk_anchors_match lns hunk pos ignore_ws = false ->
  (located = None <-> forall p, ~ candidate p)
  /\ (forall c, located = Some c ->
        candidate c
        /\ forall p, candidate p ->
             Z.abs (c - pos) < Z.abs (p - pos)
             \/ (Z.abs (c - pos) = Z.abs (p - pos) /\ c <= p)).
Proof.
  intros pos candidate located Hstrict.
  assert (Hc : forall p, candidate p
                         <-> p ∈ fuzzy_candidates lns hunk pos ignore_ws fuzzy_window).
  { intros p. symmetry. apply fuzzy_candidates_spec. }
  subst located. unfold _locate_hunk_position. fold pos.
  rewrite Hstrict. cbn [negb].
  destruct (Py.sort_by Py.pair_ltb (candidate_key pos)
              (fuzzy_candidates lns hunk pos ignore_ws fuzzy_window))
    as [|chosen others] eqn:Es; cbn [fst].
  - split; [| done]. split; [| done]. intros _ p Hp.
    apply Hc, (PyFacts.sort_by_elem Py.pair_ltb (candidate_key pos)) in Hp.
    rewrite Es in Hp. by apply elem_of_nil in Hp.
  - assert (Hin : candidate chosen).
    { apply Hc, (PyFacts.sort_by_elem Py.pair_ltb (candidate_key pos)).
      rewrite Es. left. }
    split.
    + split; [done |]. intros Hno. by destruct (Hno chosen).
    + intros c [= <-]. split; [done |]. intros p Hp.
      apply Hc in Hp.
      pose proof (PyFacts.sort_by_head_least Py.pair_ltb (candidate_key pos)
                    pair_ltb_asym pair_ltb_trans _ _ _ Es p Hp) as Hle.
      unfold Py.pair_ltb, candidate_key in Hle. simpl in Hle. lia.
Qed.

(** An instance: with matches at lines 1 and 3 around the expected
    line 2, the locator returns 1. *)
Lemma fuzzy_location_witness :
  _hunk_anchors_match Examples.tie_lines Examples.tie_hunk 2 false = false
  /\ (_locate_hunk_position Examples.tie_lines Examples.tie_hunk 2 false true 5).1
     = Some 1
  /\ (forall p,
        (0 <= p <= 5
         /\ _hunk_anchors_match Examples.tie_lines Examples.tie_hunk p false = true) ->
        Z.abs (1 - 2) < Z.abs (p - 2) \/ (Z.abs (1 - 2) = Z.abs (p - 2) /\ 1 <= p)).
Proof.
  assert (Hs : _hunk_anchors_match Examples.tie_lines Examples.tie_hunk 2 false
               = false) by reflexivity.
  split; [exact Hs |]. split; [reflexivity |].
  exact (proj2 (proj2 (fuzzy_location_is_closest_then_smallest
    Examples.tie_lines Examples.tie_hunk 2 false 5 Hs) 1 eq_refl)).
Defined.

(** A position the locator returns lies within the buffer. *)
Lemma located_position_in_range
  (lns : list Py.str) (hunk : Hunk) (expected : Z) (ignore_ws fuzzy : bool)
  (fuzzy_window p : Z) :
  (_locate_hunk_position lns hunk expected ignore_ws fuzzy fuzzy_window).1
  = Some p ->
  0 <= p <= Py.len lns.
Proof.
  unfold _locate_hunk_position.
  destruct (_hunk_anchors_match lns hunk _ ignore_ws).
  { intros [= <-]. unfold Py.len. lia. }
  destruct fuzzy; [| done]. cbn [negb].
  destruct (Py.sort_by _ _ _) as [|chosen others] eqn:Es; [done |].
  intros [= <-].
  assert (Hin : chosen ∈ fuzzy_candidates lns hunk
                  (Z.min (Z.max expected 0) (Py.len lns)) ignore_ws fuzzy_window).
  { apply (PyFacts.sort_by_elem Py.pair_ltb
             (candidate_key (Z.min (Z.max expected 0) (Py.len lns)))).
    rewrite Es. left. }
  apply fuzzy_candidates_spec in Hin. unfold Py.len in *. lia.
Qed.

End LocatorFacts.

(** ** applier.py: applying hunks *)

Module ApplierFacts.
Import Models PatchApplier.
Local Open Scope Z_scope.

Lemma getitem_nonneg {A} (l : list A) (i : Z) :
  0 <= i -> Py.getitem l i = l !! Z.to_nat i.
Proof. intros Hi. unfold Py.getitem. by destruct (Z.ltb_spec i 0); [lia |]. Qed.

Lemma slice_to_nonneg {A} (l : list A) (i : Z) :
  0 <= i -> Py.slice_to l i = take (Z.to_nat i) l.
Proof.
  intros Hi. unfold Py.slice_to, Py.slice_bound, Py.len.
  destruct (Z.ltb_spec i 0); [lia |].
  destruct (Z.le_gt_cases i (Z.of_nat (length l))).
  - by rewrite Z.min_l.
  - rewrite Z.min_r, Nat2Z.id by lia. by rewrite !take_ge by lia.
Qed.

Lemma slice_from_nonneg {A} (l : list A) (i : Z) :
  0 <= i -> Py.slice_from l i = drop (Z.to_nat i) l.
Proof.
  intros Hi. unfold Py.slice_from, Py.slice_bound, Py.len.
  destruct (Z.ltb_spec i 0); [lia |].
  destruct (Z.le_gt_cases i (Z.of_nat (length l))).
  - by rewrite Z.min_l.
  - rewrite Z.min_r, Nat2Z.id by lia. by rewrite !drop_ge by lia.
Qed.

Import Spec.

Lemma loop_applied_step (ignore_ws : bool) (e : Py.str * Py.str)
  (rest : list (Py.str * Py.str)) (st st1 st' : HunkStore)
  (consumed produced : list Py.str) :
  0 <= st_i st ->
  st_lines st1 = st_lines st ->
  st_i st1 = st_i st + Z.of_nat (length consumed) ->
  st_out st1 = st_out st ++ produced ->
  drop (Z.to_nat (st_i st)) (st_lines st)
  = consumed ++ drop (Z.to_nat (st_i st) + length consumed)%nat (st_lines st) ->
  (forall old new,
     Spec.Applies (fun s => _normalize_match_line s ignore_ws) rest old new ->
     Spec.Applies (fun s => _normalize_match_line s ignore_ws) (e :: rest)
       (consumed ++ old) (produced ++ new)) ->
  loop_applied ignore_ws rest st1 st' ->
  loop_applied ignore_ws (e :: rest) st st'.
Proof.
  intros Hi Hl Hi1 Ho1 Hd Hap (old & new & Ha & Hdrop & Hi' & Hout).
  exists (consumed ++ old), (produced ++ new).
  rewrite Hl, Hi1 in Hdrop.
  replace (Z.to_nat (st_i st + Z.of_nat (length consumed)))
    with (Z.to_nat (st_i st) + length consumed)%nat in Hdrop by lia.
  split; [by apply Hap |]. split; [| split].
  - rewrite Hd, Hdrop, length_app, <- app_assoc. do 2 f_equal. f_equal. lia.
  - rewrite Hi', Hi1, length_app. lia.
  - by rewrite Hout, Ho1, app_assoc.
Qed.

Lemma loop_stopped_step (ignore_ws : bool) (e : Py.str * Py.str)
  (rest : list (Py.str * Py.str)) (lns : list Py.str) (start : Z)
  (consumed produced : list Py.str) (m : Mismatch) :
  0 <= start ->
  drop (Z.to_nat start) lns
  = consumed ++ drop (Z.to_nat start + length consumed)%nat lns ->
  (forall hl' old new,
     Spec.Applies (fun s => _normalize_match_line s ignore_ws) hl' old new ->
     Spec.Applies (fun s => _normalize_match_line s ignore_ws) (e :: hl')
       (consumed ++ old) (produced ++ new)) ->
  loop_stopped ignore_ws rest lns (start + Z.of_nat (length consumed)) m ->
  loop_stopped ignore_ws (e :: rest) lns start m.
Proof.
  intros Hs Hd Hap (k & t & s & old & new & Hk & Ht & Ha & Hdrop & Hat & Hbad).
  replace (Z.to_nat (start + Z.of_nat (length consumed)))
    with (Z.to_nat start + length consumed)%nat in * by lia.
  exists (S k), t, s, (consumed ++ old), (produced ++ new).
  split; [done |]. split; [done |]. split; [by apply Hap |].
  rewrite length_app, Nat.add_assoc.
  split; [| split; [lia | done]].
  rewrite Hd, Hdrop, <- app_assoc. done.
Qed.

Lemma hunk_lines_loop_spec (ignore_ws : bool) (hl : list (Py.str * Py.str)) :
  forall st, 0 <= st_i st ->
  exists st' mm,
    hunk_lines_loop ignore_ws hl st = Ok (st', mm)
    /\ st_lines st' = st_lines st
    /\ match mm with
       | None => loop_applied ignore_ws hl st st'
       | Some m => loop_stopped ignore_ws hl (st_lines st) (st_i st) m
       end.
Proof.
  induction hl as [|[t s] rest IH]; intros st Hi.
  { exists st, None. split; [done |]. split; [done |].
    exists [], []. rewrite app_nil_r, Nat.add_0_r. simpl.
    repeat split; [constructor | lia]. }
  assert (Hstop : forall m, mm_at m = st_i st ->
            st_lines st !! Z.to_nat (st_i st) = None
            \/ (exists have_, st_lines st !! Z.to_nat (st_i st) = Some have_
                /\ _normalize_match_line s ignore_ws
                   <> _normalize_match_line have_ ignore_ws) ->
            t = u " " \/ t = u "-" ->
            loop_stopped ignore_ws ((t, s) :: rest) (st_lines st) (st_i st) m).
  { intros m Hat Hbad Ht. exists 0%nat, t, s, [], []. simpl.
    rewrite Nat.add_0_r. repeat split; [done | constructor | lia | done]. }
  simpl.
  destruct (Py.eqb t (u " ")) eqn:Ec; [apply PyFacts.eqb_spec in Ec as -> |
    destruct (Py.eqb t (u "-")) eqn:Ed; [apply PyFacts.eqb_spec in Ed as -> |
      destruct (Py.eqb t (u "+")) eqn:Ea; [apply PyFacts.eqb_spec in Ea as -> |]]].
  - (* context *)
    destruct (Z.geb_spec (st_i st) (Py.len (st_lines st))) as [Hge|Hlt].
    { eexists st, (Some _). split; [done |]. split; [done |].
      apply Hstop; [done | | by left]. left.
      apply lookup_ge_None. unfold Py.len in Hge. lia. }
    rewrite getitem_nonneg by done.
    destruct (st_lines st !! Z.to_nat (st_i st)) as [have_|] eqn:El.
    2:{ apply lookup_ge_None in El. unfold Py.len in Hlt. lia. }
    destruct (Py.eqb (_normalize_match_line s ignore_ws)
                     (_normalize_match_line have_ ignore_ws)) eqn:En; cbn [negb].
    2:{ eexists st, (Some _). split; [done |]. split; [done |].
        apply Hstop; [done | | by left]. right. exists have_.
        split; [done |]. by apply PyFacts.eqb_false. }
    apply PyFacts.eqb_spec in En.
    destruct (IH (i_incr (out_append st have_))) as (st' & mm & Hr & Hl & Hm);
      [simpl; lia |].
    exists st', mm. split; [done |]. split; [done |].
    assert (Hd : drop (Z.to_nat (st_i st)) (st_lines st)
                 = [have_] ++ drop (Z.to_nat (st_i st) + length [have_])%nat
                                 (st_lines st)).
    { simpl. rewrite Nat.add_1_r. by apply drop_S. }
    destruct mm as [m|].
    + apply (loop_stopped_step _ _ _ _ _ [have_] [have_]); try done.
      intros hl' old new Ha. by constructor.
    + apply (loop_applied_step _ _ _ st (i_incr (out_append st have_)) _
               [have_] [have_] Hi); try done.
      intros old new Ha. by constructor.
  - (* deletion *)
    destruct (Z.geb_spec (st_i st) (Py.len (st_lines st))) as [Hge|Hlt].
    { eexists st, (Some _). split; [done |]. split; [done |].
      apply Hstop; [done | | by right]. left.
      apply lookup_ge_None. unfold Py.len in Hge. lia. }
    rewrite getitem_nonneg by done.
    destruct (st_lines st !! Z.to_nat (st_i st)) as [have_|] eqn:El.
    2:{ apply lookup_ge_None in El. unfold Py.len in Hlt. lia. }
    destruct (Py.eqb (_normalize_match_line s ignore_ws)
                     (_normalize_match_line have_ ignore_ws)) eqn:En; cbn [negb].
    2:{ eexists st, (Some _). split; [done |]. split; [done |].
        apply Hstop; [done | | by right]. right. exists have_.
        split; [done |]. by apply PyFacts.eqb_false. }
    apply PyFacts.eqb_spec in En.
    destruct (IH (i_incr st)) as (st' & mm & Hr & Hl & Hm); [simpl; lia |].
    exists st', mm. split; [done |]. split; [done |].
    assert (Hd : drop (Z.to_nat (st_i st)) (st_lines st)
                 = [have_] ++ drop (Z.to_nat (st_i st) + length [have_])%nat
                                 (st_lines st)).
    { simpl. rewrite Nat.add_1_r. by apply drop_S. }
    destruct mm as [m|].
    + apply (loop_stopped_step _ _ _ _ _ [have_] []); try done.
      intros hl' old new Ha. by constructor.
    + apply (loop_applied_step _ _ _ st (i_incr st) _ [have_] [] Hi); try done.
      * by rewrite app_nil_r.
      * intros old new Ha. by constructor.
  - (* addition *)
    destruct (IH (out_append st s)) as (st' & mm & Hr & Hl & Hm); [done |].
    exists st', mm. split; [done |]. split; [done |].
    assert (Hd : drop (Z.to_nat (st_i st)) (st_lines st)
                 = [] ++ drop (Z.to_nat (st_i st) + length (@nil Py.str))%nat
                           (st_lines st)).
    { simpl. by rewrite Nat.add_0_r. }
    destruct mm as [m|].
    + apply (loop_stopped_step _ _ _ _ _ [] [s]); try done.
      * intros hl' old new Ha. by constructor.
      * simpl in *. by rewrite Z.add_0_r.
    + apply (loop_applied_step _ _ _ st (out_append st s) _ [] [s] Hi); try done.
      * simpl. lia.
      * intros old new Ha. by constructor.
  - (* any other tag *)
    apply PyFacts.eqb_false in Ec, Ed, Ea.
    destruct (IH st) as (st' & mm & Hr & Hl & Hm); [done |].
    exists st', mm. split; [done |]. split; [done |].
    assert (Hd : drop (Z.to_nat (st_i st)) (st_lines st)
                 = [] ++ drop (Z.to_nat (st_i st) + length (@nil Py.str))%nat
                           (st_lines st)).
    { simpl. by rewrite Nat.add_0_r. }
    destruct mm as [m|].
    + apply (loop_stopped_step _ _ _ _ _ [] []); try done.
      * intros hl' old new Ha. by constructor.
      * simpl in *. by rewrite Z.add_0_r.
    + apply (loop_applied_step _ _ _ st st _ [] [] Hi); try done.
      * simpl. lia.
      * by rewrite app_nil_r.
      * intros old new Ha. by constructor.
Qed.

(** C10: applied at a position [pos >= 0], a hunk either succeeds or fails,
    and never raises.  On success the result is the fresh list [out],
    which holds the buffer with the segment at [pos] rewritten by the hunk
    lines (context checked and kept, deletions checked and removed,
    additions inserted), and [delta] is additions minus deletions.  On
    failure, at the first context or deletion line that the buffer lacks
    or has different, the result is the caller's list with [delta = 0].
    In both cases the caller's list holds what it held. *)
Theorem apply_hunk_at_is_atomic
  (lns : list Py.str) (hunk : Hunk) (pos : Z) (ignore_ws : bool) :
  0 <= pos ->
  exists ok r delta mm st,
    apply_hunk_store lns hunk pos ignore_ws = Ok (ok, r, delta, mm, st)
    /\ _apply_hunk_at lns hunk pos ignore_ws = Ok (ok, deref st r, delta, mm)
    /\ st_lines st = lns
    /\ ((ok = true /\ r = FreshOut /\ mm = None
         /\ delta = net_lines (lines hunk)
         /\ exists old new,
              Applies (fun s => _normalize_match_line s ignore_ws)
                (lines hunk) old new
              /\ lns = take (Z.to_nat pos) lns ++ old
                       ++ drop (Z.to_nat pos + length old)%nat lns
              /\ deref st r = take (Z.to_nat pos) lns ++ new
                              ++ drop (Z.to_nat pos + length old)%nat lns)
        \/ (ok = false /\ r = InputLines /\ deref st r = lns /\ delta = 0
            /\ exists m, mm = Some m
                 /\ loop_stopped ignore_ws (lines hunk) lns pos m)).
Proof.
  intros Hpos. unfold _apply_hunk_at, apply_hunk_store.
  destruct (hunk_lines_loop_spec ignore_ws (lines hunk)
              (mkHunkStore lns (Py.slice_to lns pos) pos) Hpos)
    as (st' & mm & Hr & Hl & Hm).
  rewrite Hr. cbn [rbind]. simpl in Hl, Hm.
  destruct mm as [m|].
  - eexists false, InputLines, 0, (Some m), st'.
    split; [done |]. split; [done |]. split; [done |]. right.
    repeat split; try done. by exists m.
  - eexists true, FreshOut, _, None, _.
    split; [done |]. split; [done |]. split; [done |]. left.
    split; [done |]. split; [done |]. split; [done |]. split; [done |].
    destruct Hm as (old & new & Ha & Hd & Hi & Ho). simpl in Hd, Hi, Ho.
    exists old, new. split; [done |]. split.
    + by rewrite <- Hd, take_drop.
    + cbn [deref st_out st_lines st_i]. rewrite Ho, Hl, Hi.
      rewrite slice_to_nonneg, slice_from_nonneg by lia.
      rewrite <- app_assoc. do 3 f_equal. lia.
Qed.

(** An instance: a hunk applied at line 1 of a five-line buffer. *)
Lemma apply_hunk_at_is_atomic_witness :
  0 <= 1
  /\ exists ok r delta mm st,
       apply_hunk_store Examples.tie_lines Examples.tie_hunk 1 false
       = Ok (ok, r, delta, mm, st)
       /\ st_lines st = Examples.tie_lines.
Proof.
  assert (H : 0 <= 1) by lia.
  split; [exact H |].
  destruct (apply_hunk_at_is_atomic Examples.tie_lines Examples.tie_hunk 1
              false H) as (ok & r & delta & mm & st & Hs & _ & Hl & _).
  by exists ok, r, delta, mm, st.
Defined.

(** An iteration of the hunk loop that ends in [HunkApplied] moves the
    offset by the hunk's additions minus deletions. *)
Lemma hunk_iter_applied (o : Options) (st st' : MemState) (h_idx : Z) (h : Hunk) :
  hunk_iter o st h_idx h = Ok (st', HunkApplied) ->
  line_offset st' = line_offset st + net_lines (lines h).
Proof.
  unfold hunk_iter.
  destruct (_locate_hunk_position _ _ _ _ _ _) as [[apply_pos|] dec].
  2:{ unfold hunk_fallback. destruct (conflict_marker_mode o); intros [=]. }
  unfold _apply_hunk_at, apply_hunk_store.
  destruct (hunk_lines_loop _ _ _) as [[st1 [m|]]|e]; cbn [rbind negb].
  - unfold hunk_fallback. destruct (conflict_marker_mode o); intros [=].
  - intros [= <-]. done.
  - intros [=].
Qed.

Lemma hunks_loop_offset (o : Options) (hs : list Hunk) :
  forall st h_idx st' outs,
    hunks_loop o st h_idx hs = Ok (st', outs) ->
    (forall oc, oc ∈ outs -> oc = HunkApplied) ->
    line_offset st' = line_offset st + net_lines_sum hs
    /\ length outs = length hs.
Proof.
  induction hs as [|h rest IH]; intros st h_idx st' outs Hr Hall.
  - injection Hr as <- <-. simpl. split; [lia | done].
  - cbn [hunks_loop] in Hr.
    destruct (hunk_iter o st h_idx h) as [[st1 oc]|e] eqn:E1; [| done].
    cbn [rbind] in Hr.
    assert (Hoc : oc = HunkApplied).
    { destruct oc; [done | |].
      - destruct (hunks_loop o st1 (h_idx + 1) rest) as [[st2 ocs]|e];
          [| done]. injection Hr as <- <-. apply Hall. left.
      - injection Hr as <- <-. apply Hall. left. }
    subst oc.
    destruct (hunks_loop o st1 (h_idx + 1) rest) as [[st2 ocs]|e] eqn:E2;
      [| done].
    injection Hr as <- <-.
    apply hunk_iter_applied in E1.
    destruct (IH _ _ _ _ E2) as [Ho Hlen].
    { intros oc Hoc. apply Hall. by right. }
    simpl. rewrite Ho, E1. split; [lia | by rewrite Hlen].
Qed.

(** C3: when the first [k] hunks of a file patch were each applied (none
    of them through the conflict-marker fallback), the line offset after
    hunk [k] is the sum, over these hunks, of additions minus deletions. *)
Theorem line_offset_after_k_hunks
  (o : Options) (original_lines : list Py.str) (hs : list Hunk) (k : nat)
  (st : MemState) (outs : list HunkOutcome) :
  hunks_loop o (mem_init original_lines) 0 (take k hs) = Ok (st, outs) ->
  (forall oc, oc ∈ outs -> oc = HunkApplied) ->
  line_offset st = net_lines_sum (take k hs).
Proof.
  intros Hr Hall.
  destruct (hunks_loop_offset o _ _ _ _ _ Hr Hall) as [Ho _].
  by rewrite Ho.
Qed.

(** The hunk loop never raises: the positions it applies hunks at come
    from the locator. *)
Lemma hunks_loop_total (o : Options) (hs : list Hunk) :
  forall st h_idx, exists st' outs, hunks_loop o st h_idx hs = Ok (st', outs).
Proof.
  induction hs as [|h rest IH]; intros st h_idx; [by eexists _, _ |].
  cbn [hunks_loop].
  assert (Hiter : exists st1 oc, hunk_iter o st h_idx h = Ok (st1, oc)).
  { unfold hunk_iter.
    destruct (_locate_hunk_position _ _ _ _ _ _) as [[p|] dec] eqn:El.
    2:{ destruct (hunk_fallback _ _ _ _ _) as [st1 oc]. by exists st1, oc. }
    assert (Hp : 0 <= p).
    { eapply (LocatorFacts.located_position_in_range _ _ _ _ _ _ p).
      by rewrite El. }
    unfold _apply_hunk_at, apply_hunk_store.
    destruct (hunk_lines_loop_spec (ignore_whitespace_differences o) (lines h)
                (mkHunkStore (out_lines st) (Py.slice_to (out_lines st) p) p) Hp)
      as (st1 & mm & -> & _).
    cbn [rbind]. destruct mm as [m|]; cbn [rbind negb]; [| by eexists _, _].
    destruct (hunk_fallback _ _ _ _ _) as [st2 oc]. by exists st2, oc. }
  destruct Hiter as (st1 & oc & ->). cbn [rbind].
  destruct (IH st1 (h_idx + 1)) as (st2 & outs & ->). cbn [rbind].
  destruct oc; by eexists _, _.
Qed.

(** An instance: two hunks, one adding a line and one removing a line. *)
Lemma line_offset_after_k_hunks_witness :
  exists st,
    hunks_loop Examples.opts (mem_init Examples.tie_lines) 0
      (take 2 Examples.two_hunks) = Ok (st, [HunkApplied; HunkApplied])
    /\ line_offset st = net_lines_sum (take 2 Examples.two_hunks).
Proof.
  eexists. split; [vm_compute; reflexivity |].
  eapply (line_offset_after_k_hunks Examples.opts Examples.tie_lines
            Examples.two_hunks 2 _ [HunkApplied; HunkApplied]).
  - vm_compute. reflexivity.
  - intros oc Hoc. apply elem_of_cons in Hoc as [->|Hoc]; [done |].
    by apply list_elem_of_singleton in Hoc.
Defined.

(** The loop over [hs1 ++ hs2] goes on from the state the loop over [hs1]
    ends in: the state "after hunk k" is the one [hunks_loop] reaches on
    the first [k] hunks. *)
Lemma hunks_loop_app (o : Options) (hs1 hs2 : list Hunk) :
  forall st h_idx st1 outs1,
    hunks_loop o st h_idx hs1 = Ok (st1, outs1) ->
    (forall oc, oc ∈ outs1 -> oc <> HunkFailed) ->
    hunks_loop o st h_idx (hs1 ++ hs2)
    = rbind (hunks_loop o st1 (h_idx + Py.len hs1) hs2)
        (fun '(st2, outs2) => Ok (st2, outs1 ++ outs2)).
Proof.
  induction hs1 as [|h rest IH]; intros st h_idx st1 outs1 Hr Hall.
  - injection Hr as <- <-. unfold Py.len. simpl. rewrite Z.add_0_r.
    by destruct (hunks_loop o st h_idx hs2) as [[? ?]|].
  - cbn [hunks_loop app] in *.
    destruct (hunk_iter o st h_idx h) as [[st' oc]|e]; [| done].
    cbn [rbind] in *.
    destruct oc.
    + destruct (hunks_loop o st' (h_idx + 1) rest) as [[st'' ocs]|e] eqn:E;
        [| done].
      injection Hr as <- <-.
      rewrite (IH _ _ _ _ E) by (intros oc Hoc; apply Hall; by right).
      replace (h_idx + Py.len (h :: rest)) with (h_idx + 1 + Py.len rest)
        by (unfold Py.len; simpl; lia).
      by destruct (hunks_loop o st'' _ hs2) as [[? ?]|].
    + destruct (hunks_loop o st' (h_idx + 1) rest) as [[st'' ocs]|e] eqn:E;
        [| done].
      injection Hr as <- <-.
      rewrite (IH _ _ _ _ E) by (intros oc Hoc; apply Hall; by right).
      replace (h_idx + Py.len (h :: rest)) with (h_idx + 1 + Py.len rest)
        by (unfold Py.len; simpl; lia).
      by destruct (hunks_loop o st'' _ hs2) as [[? ?]|].
    + injection Hr as <- <-. destruct (Hall HunkFailed); [left | done].
Qed.

End ApplierFacts.

(** ** applier.py: the disk *)

Module DiskFacts.
Import Models PatchInputNormalizer UnifiedDiffParser PatchApplier MemFS.
Local Open Scope Z_scope.

(** C5 (as the code has it): the line ending chosen for a created or
    modified file is CRLF exactly when line endings are to be preserved, a
    file is present at the target, its bytes can be read, they hold at
    least one CRLF, and count(CRLF) >= count(LF) - count(CRLF); it is LF in
    every other case. *)
Theorem eol_choice `{FileSystem} (preserve_eol : bool) (target_abs : Path)
  (w : World) :
  let chosen := (choose_eol preserve_eol target_abs w).1 in
  (chosen = Ok Py.CRLF \/ chosen = Ok Py.LF)
  /\ (chosen = Ok Py.CRLF
      <-> preserve_eol = true /\ fs_exists w target_abs = true
          /\ exists data w',
               fs_read_bytes (fs_path (fs_str target_abs)) w = (Ok data, w')
               /\ 0 < Z.of_nat (Py.count [b_CR; b_LF] data)
               /\ Z.of_nat (Py.count [b_CR; b_LF] data)
                  >= Z.of_nat (Py.count [b_LF] data)
                     - Z.of_nat (Py.count [b_CR; b_LF] data)).
Proof.
  cbv zeta. unfold choose_eol, mbind, ask.
  destruct preserve_eol, (fs_exists w target_abs); cbn [andb];
    try (split; [by right | split; [done | intros (? & ? & _); done]]).
  unfold _detect_eol, try_except, mbind, mret.
  destruct (fs_read_bytes (fs_path (fs_str target_abs)) w) as [[data|e] w'] eqn:Er;
    cbn [fst].
  2:{ split; [by right |]. split; [done |]. by intros (_ & _ & ? & ? & [=] & _). }
  unfold eol_of_bytes.
  destruct (Z.gtb_spec (Z.of_nat (Py.count [b_CR; b_LF] data)) 0) as [Hpos|Hz];
    cbn [andb].
  - destruct (Z.geb_spec (Z.of_nat (Py.count [b_CR; b_LF] data))
                (Z.of_nat (Py.count [b_LF] data)
                 - Z.of_nat (Py.count [b_CR; b_LF] data))) as [Hge|Hlt].
    + split; [by left |]. split; [| done]. intros _.
      repeat split; try done. exists data, w'. repeat split; try done; lia.
    + split; [by right |]. split; [done |].
      intros (_ & _ & d & w'' & [= <- <-] & _ & Hge). lia.
  - split; [by right |]. split; [done |].
    intros (_ & _ & d & w'' & [= <- <-] & Hp & _). lia.
Qed.

(** C5 as stated fails: for an existing file without any line ending,
    count(CRLF) >= count(LF) - count(CRLF) holds (0 >= 0) and yet the
    chosen line ending is LF. *)
Lemma eol_choice_without_line_endings :
  let w := Examples.world_no_newline in
  let target := u "/r/notes.txt" in
  fs_exists w target = true
  /\ (exists data,
        (fs_read_bytes target w).1 = Ok data
        /\ Z.of_nat (Py.count [b_CR; b_LF] data)
           >= Z.of_nat (Py.count [b_LF] data)
              - Z.of_nat (Py.count [b_CR; b_LF] data))
  /\ (choose_eol true target w).1 = Ok Py.LF
  /\ (choose_eol true target w).1 <> Ok Py.CRLF.
Proof.
  cbv zeta. split; [by vm_compute |]. split; [| split; by vm_compute].
  eexists. split; [vm_compute; reflexivity | by vm_compute].
Qed.

(** [preview_apply] returns a result on every input: the only calls that
    can raise, those of the in-memory apply, sit inside its [try]. *)
Lemma preview_loop_returns `{FileSystem} (root_folder : Py.str) (o : Options)
  (report : list ReportEntry) :
  forall st w, exists st' w',
    preview_loop root_folder o st report w = (Ok st', w').
Proof.
  induction report as [|r rest IH]; intros st w; [by eexists _, _ |].
  cbn [preview_loop]. unfold mbind at 1.
  assert (Hf : exists st1 stop w1,
            preview_file root_folder o st r w = (Ok (st1, stop), w1)).
  { unfold preview_file.
    destruct (bool_decide (r_status r = UnsupportedBinary)).
    { destruct (skip_unsupported_binary_files o); by eexists _, _, _. }
    unfold mbind, try_except, mret.
    destruct (_apply_filepatch_in_memory _ _ _ _ w) as [[[[text sts] diag]|e] w1];
      [| by eexists _, _, _].
    destruct (failed diag && negb (conflict_marker_mode o && conflicted diag));
      by eexists _, _, _. }
  destruct Hf as (st1 & stop & w1 & ->).
  destruct stop; [by eexists _, _ | apply IH].
Qed.

Lemma preview_apply_returns `{FileSystem} (patchset : PatchSet)
  (root_folder : Py.str) (o : Options) (w : World) :
  exists res w', preview_apply patchset root_folder o w = (Ok res, w').
Proof.
  unfold preview_apply, mbind, ask.
  destruct (blocking _ _); [| by eexists _, _].
  edestruct (preview_loop_returns root_folder o) as (st' & w' & ->).
  by eexists _, _.
Qed.

(** Whatever the file system, [apply_to_disk] raises what the creation of
    the backup folder raises: that call is outside every [try]. *)
Lemma apply_to_disk_propagates_mkdir_failure `{FileSystem}
  (patchset : PatchSet) (root_folder : Py.str) (preview : option ApplyResult)
  (o : Options) (w w' : World) (e : Exn) :
  blocking (skip_unsupported_binary_files o) (preflight w patchset root_folder o)
  = [] ->
  match preview with
  | Some pv => default [] (s_conflicted_files (summary pv))
  | None => []
  end = [] ->
  fs_mkdir
    (fs_join (fs_join (fs_resolve w (fs_path root_folder))
                (fs_path (u ".patchstudio_backups")))
       (fs_path (fs_strftime w))) w = (Raise e, w') ->
  apply_to_disk patchset root_folder preview o w = (Raise e, w').
Proof.
  intros Hb Hc Hm. unfold apply_to_disk, mbind, ask.
  rewrite Hb, Hc. simpl. by rewrite Hm.
Qed.



(** C2 fails on the code: with a regular file where the backup folder
    should be created, a preview that succeeded is followed by an
    [apply_to_disk] that raises instead of returning an ApplyResult. *)
Theorem apply_to_disk_raises_on_blocked_backup_folder :
  exists pv,
    (preview_apply Examples.patch_json Examples.ROOT Examples.opts
       Examples.world_blocked_backup).1 = Ok pv
    /\ success pv = true
    /\ (apply_to_disk Examples.patch_json Examples.ROOT (Some pv) Examples.opts
          Examples.world_blocked_backup).1
       = Raise (mkExn OSError (u "File exists")).
Proof.
  eexists. split; [vm_compute; reflexivity |]. split; by vm_compute.
Qed.

End DiskFacts.

(** ** diffgen.py *)

Module RoundTripFacts.
Import Models PatchInputNormalizer UnifiedDiffParser PatchApplier MemFS.

(** C1 fails on the code: the patch set of the one-line change previews
    cleanly, but the diff generated from its baseline and outputs holds
    the hunk body on a single line ([unified_diff] adds no line end to the
    lines it is given, and they come from a split on LF); parsed and
    previewed against the same baseline, it fails and yields no output. *)
Theorem round_trip_fails_on_one_line_change :
  (exists pv,
     (preview_apply Examples.patch_json Examples.ROOT Examples.opts
        Examples.world_json).1 = Ok pv
     /\ success pv = true
     /\ s_outputs (summary pv) = Some Examples.outputs_json
     /\ s_failed_files (summary pv) = Some []
     /\ s_conflicted_files (summary pv) = Some [])
  /\ DiffGenerator.generate_unified_patchset Examples.baseline_json
       Examples.outputs_json Examples.patch_json = Examples.generated_json
  /\ (exists pv',
        (preview_apply
           (parse (normalize Examples.generated_json).1.2
              (normalize Examples.generated_json).2)
           Examples.ROOT Examples.opts Examples.world_json).1 = Ok pv'
        /\ success pv' = false
        /\ s_outputs (summary pv') = Some ∅
        /\ s_failed_files (summary pv') = Some [u "data.json"])
  /\ (forall fp,
        files (parse (normalize Examples.generated_json).1.2
                 (normalize Examples.generated_json).2) = [fp] ->
        exists stats diag,
          (_apply_filepatch_in_memory fp (u "/r/data.json") Examples.ROOT
             Examples.opts Examples.world_json).1
          = Ok (Examples.json_old ++ Py.LF, stats, diag)
          /\ failed diag = true).
Proof.
  split; [| split; [| split]].
  - eexists. split; [vm_compute; reflexivity |]. repeat split; by vm_compute.
  - by vm_compute.
  - eexists. split; [vm_compute; reflexivity |]. repeat split; by vm_compute.
  - intros fp Hfp. vm_compute in Hfp. injection Hfp as <-.
    eexists _, _. split; [vm_compute; reflexivity | by vm_compute].
Qed.

End RoundTripFacts.

(** ** More on the Python built-ins *)

Module TextFacts.

Lemma startswith_app {A} `{EqDecision A} (p s : list A) :
  Py.startswith (p ++ s) p = true.
Proof. apply PyFacts.startswith_spec. by exists s. Qed.

Lemma startswith_nil {A} `{EqDecision A} (s : list A) :
  Py.startswith s [] = true.
Proof. by destruct s. Qed.

Lemma startswith_one {A} `{EqDecision A} (c d : A) (s : list A) :
  Py.startswith (d :: s) [c] = bool_decide (c = d).
Proof. simpl. by rewrite startswith_nil, andb_true_r. Qed.

Lemma endswith_spec {A} `{EqDecision A} (s suffix : list A) :
  Py.endswith s suffix = true <-> exists front, s = front ++ suffix.
Proof.
  unfold Py.endswith. rewrite PyFacts.startswith_spec. split.
  - intros [rest Hr]. exists (rev rest).
    apply (f_equal (@rev A)) in Hr.
    by rewrite rev_involutive, rev_app_distr, rev_involutive in Hr.
  - intros [front ->]. exists (rev front). by rewrite rev_app_distr.
Qed.

Lemma elem_of_rev {A} (x : A) (l : list A) : x ∈ rev l <-> x ∈ l.
Proof. by rewrite !list_elem_of_In, <- in_rev. Qed.

Section SplitOne.
Context {A : Type} `{EqDecision A} (c : A).

Lemma split_scan_nonempty (cur s : list A) : Py.split_scan [c] 0 cur s <> [].
Proof.
  revert cur. induction s as [|d s IH]; intros cur; [done |].
  cbn [Py.split_scan]. rewrite startswith_one.
  destruct (bool_decide (c = d)); [done | apply IH].
Qed.

Lemma join_cons_nonempty (sep p : list A) (rest : list (list A)) :
  rest <> [] -> Py.join sep (p :: rest) = p ++ sep ++ Py.join sep rest.
Proof. by destruct rest. Qed.

Lemma join_split_scan (cur s : list A) :
  Py.join [c] (Py.split_scan [c] 0 cur s) = rev cur ++ s.
Proof.
  revert cur. induction s as [|d s IH]; intros cur.
  - simpl. by rewrite app_nil_r.
  - cbn [Py.split_scan]. rewrite startswith_one.
    destruct (bool_decide_reflect (c = d)) as [<-|Hne].
    + cbn [length Nat.sub]. rewrite join_cons_nonempty by apply split_scan_nonempty.
      by rewrite IH.
    + rewrite IH. simpl. by rewrite <- app_assoc.
Qed.

(** ["c".join(s.split("c")) == s]. *)
Lemma join_split (s : list A) : Py.join [c] (Py.split [c] s) = s.
Proof. unfold Py.split. by rewrite join_split_scan. Qed.

Lemma split_scan_pieces (cur s : list A) :
  c ∉ cur -> Forall (fun p => c ∉ p) (Py.split_scan [c] 0 cur s).
Proof.
  revert cur. induction s as [|d s IH]; intros cur Hc.
  - constructor; [| done]. by rewrite elem_of_rev.
  - cbn [Py.split_scan]. rewrite startswith_one.
    destruct (bool_decide_reflect (c = d)) as [<-|Hne].
    + constructor; [by rewrite elem_of_rev |].
      apply IH. apply not_elem_of_nil.
    + apply IH. rewrite elem_of_cons. intros [?|?]; done.
Qed.

(** No piece of a split holds the separator. *)
Lemma split_pieces (s : list A) : Forall (fun p => c ∉ p) (Py.split [c] s).
Proof. apply split_scan_pieces, not_elem_of_nil. Qed.

Lemma split_scan_last (cur s : list A) :
  last (Py.split_scan [c] 0 cur (s ++ [c])) = Some [].
Proof.
  revert cur. induction s as [|d s IH]; intros cur.
  - simpl. by rewrite bool_decide_eq_true_2.
  - cbn [app Py.split_scan]. rewrite startswith_one.
    destruct (bool_decide (c = d)).
    + cbn [length Nat.sub]. rewrite last_cons, IH. done.
    + apply IH.
Qed.

(** A text that ends with the separator splits into pieces of which the
    last is empty. *)
Lemma split_last_empty (s : list A) :
  Py.endswith s [c] = true -> last (Py.split [c] s) = Some [].
Proof.
  intros [front ->]%endswith_spec. apply split_scan_last.
Qed.

End SplitOne.

End TextFacts.

(** ** normalizer.py: the blocks *)

Module BlockFacts.
Import Models PatchInputNormalizer Shapes.

Lemma normalize_text_eq (raw : Py.str) :
  normalize_text raw = Spec.fold_cr (Spec.fold_crlf (Spec.strip_boms raw)).
Proof.
  unfold normalize_text.
  by rewrite PyFacts.lstrip_bom, PyFacts.replace_crlf, PyFacts.replace_cr.
Qed.

Lemma fold_cr_no_cr (s : Py.str) : 13%N ∉ Spec.fold_cr s.
Proof.
  unfold Spec.fold_cr. intros (c & Hc & _)%list_elem_of_fmap.
  destruct (N.eqb_spec c 13); [done | congruence].
Qed.

Lemma fold_cr_id (s : Py.str) : 13%N ∉ s -> Spec.fold_cr s = s.
Proof.
  unfold Spec.fold_cr. induction s as [|c s IH]; intros Hn; [done |].
  apply not_elem_of_cons in Hn as [Hc Hs]. simpl. rewrite IH by done.
  by destruct (N.eqb_spec c 13).
Qed.

Lemma fold_crlf_id (s : Py.str) : 13%N ∉ s -> Spec.fold_crlf s = s.
Proof.
  induction s as [|c s IH]; intros Hn; [done |].
  apply not_elem_of_cons in Hn as [Hc Hs]. specialize (IH Hs).
  destruct s as [|d s]; [done |].
  change (Spec.fold_crlf (c :: d :: s))
    with (if ((c =? 13) && (d =? 10))%N then 10%N :: Spec.fold_crlf s
          else c :: Spec.fold_crlf (d :: s)).
  rewrite IH. by destruct (N.eqb_spec c 13).
Qed.

Lemma strip_boms_head (s : Py.str) : no_bom_head (Spec.strip_boms s).
Proof.
  induction s as [|c s IH]; [done |]. simpl.
  by destruct (N.eqb_spec c 65279).
Qed.

Lemma strip_boms_id (s : Py.str) : no_bom_head s -> Spec.strip_boms s = s.
Proof. destruct s as [|c s]; [done |]. simpl. by destruct (N.eqb_spec c 65279). Qed.

Lemma fold_crlf_head (s : Py.str) : no_bom_head s -> no_bom_head (Spec.fold_crlf s).
Proof.
  destruct s as [|c [|d s]]; [done | done |].
  change (Spec.fold_crlf (c :: d :: s))
    with (if ((c =? 13) && (d =? 10))%N then 10%N :: Spec.fold_crlf s
          else c :: Spec.fold_crlf (d :: s)).
  destruct (_ && _); [done |]. intros Hc. exact Hc.
Qed.

Lemma fold_cr_head (s : Py.str) : no_bom_head s -> no_bom_head (Spec.fold_cr s).
Proof. destruct s as [|c s]; [done |]. simpl. by destruct (N.eqb_spec c 13). Qed.

Lemma normalize_text_idempotent (raw : Py.str) :
  normalize_text (normalize_text raw) = normalize_text raw.
Proof.
  rewrite (normalize_text_eq raw).
  set (y := Spec.fold_cr _). rewrite (normalize_text_eq y).
  assert (Hcr : 13%N ∉ y) by apply fold_cr_no_cr.
  assert (Hh : no_bom_head y).
  { apply fold_cr_head, fold_crlf_head, strip_boms_head. }
  by rewrite strip_boms_id, fold_crlf_id, fold_cr_id.
Qed.

(** X1: Normalising twice is normalising once: the normalised text holds no
    CR and no leading byte order mark, and fed back to [normalize] it gives
    the same text, dialect and blocks. *)
Theorem normalize_is_idempotent (raw_text : Py.str) :
  let text := (normalize raw_text).1.1 in
  (13%N ∉ text)
  /\ Py.startswith text Py.BOM = false
  /\ normalize text = normalize raw_text.
Proof.
  intros text.
  assert (Ht : text = normalize_text raw_text) by done.
  rewrite Ht. split; [| split].
  - rewrite normalize_text_eq. apply fold_cr_no_cr.
  - rewrite normalize_text_eq.
    pose proof (fold_cr_head _ (fold_crlf_head _ (strip_boms_head raw_text))) as Hh.
    destruct (Spec.fold_cr _) as [|c s]; [done |]. simpl in *.
    rewrite PyFacts.bool_decide_N_eqb, TextFacts.startswith_nil, andb_true_r.
    by apply N.eqb_neq.
  - unfold normalize. by rewrite normalize_text_idempotent.
Qed.

Lemma flush_ok (d : Dialect) (st : SplitState) :
  state_ok d st -> Forall (block_ok d) (flush d st).
Proof.
  intros [Hb Hc]. unfold flush. destruct (cur st) as [|h rest]; [done |].
  apply Forall_app. split; [done |]. constructor; [| done].
  split; [done |]. cbn [block_text]. split.
  - apply PyFacts.startswith_spec in Hc as [r ->].
    apply PyFacts.startswith_spec.
    destruct rest as [|r' rest]; simpl; eexists; by rewrite <- !app_assoc.
  - apply TextFacts.endswith_spec. by eexists.
Qed.

(** One step of a splitter keeps the state well formed. *)
Lemma step_ok (d : Dialect) (st : SplitState) (opens : bool) (line : Py.str)
  (h : BlockHeader) (ip : option Py.str) :
  state_ok d st ->
  (opens = true -> Py.startswith line (header_prefix d) = true) ->
  state_ok d (if opens then mkSplitState (flush d st) [line] h ip
              else keep_line line st).
Proof.
  intros Hst Hl. destruct opens.
  - split; [by apply flush_ok | by apply Hl].
  - unfold keep_line. destruct Hst as [Hb Hc].
    destruct (cur st) as [|c rest] eqn:Ec; [split; by rewrite ?Ec |].
    split; [done |]. done.
Qed.

Lemma git_blocks_ok (lines : list Py.str) :
  forall st, state_ok DIALECT_GIT st ->
  state_ok DIALECT_GIT (fold_left git_iter lines st).
Proof.
  induction lines as [|l lines IH]; intros st Hst; [done |].
  apply IH. unfold git_iter. by apply step_ok.
Qed.

Lemma index_blocks_ok (lines : list Py.str) :
  forall st, state_ok DIALECT_INDEX st ->
  state_ok DIALECT_INDEX (fold_left index_iter lines st).
Proof.
  induction lines as [|l lines IH]; intros st Hst; [done |].
  apply IH. unfold index_iter. by apply step_ok.
Qed.

Lemma classic_blocks_ok (lines : list Py.str) (fuel : nat) :
  forall i st, state_ok DIALECT_CLASSIC st ->
  state_ok DIALECT_CLASSIC (classic_loop lines fuel i st).
Proof.
  induction fuel as [|fuel IH]; intros i st Hst; [done |].
  simpl. destruct (i <? length lines); [| done].
  apply IH. unfold classic_iter.
  destruct (Py.startswith (nth i lines []) (u "--- ")) eqn:Es.
  - by apply step_ok.
  - by apply (step_ok _ _ false _ HeaderEmpty None).
Qed.

Lemma split_init_ok (d : Dialect) : state_ok d split_init.
Proof. by split. Qed.

(** X2: Every block [normalize] returns has the detected dialect, a text that
    begins with the header line of that dialect and ends with LF, and a
    binary flag that tells whether the text holds a binary indicator. *)
Theorem normalize_blocks_are_well_formed (raw_text : Py.str) (b : FileBlock) :
  b ∈ (normalize raw_text).2 ->
  block_ok (normalize raw_text).1.2 b
  /\ has_binary_indicator b = Some (_has_binary_indicator (block_text b)).
Proof.
  unfold normalize. cbn [fst snd].
  set (text := normalize_text raw_text).
  set (lines := Py.split Py.LF text).
  intros (b0 & -> & Hb0)%list_elem_of_fmap. split; [| done].
  assert (Hall : forall d bs, Forall (block_ok d) bs -> b0 ∈ bs ->
                              block_ok d (mark_binary b0)).
  { intros d bs Hf Hin. rewrite Forall_forall in Hf.
    destruct (Hf _ Hin) as (H1 & H2 & H3). by split. }
  destruct (existsb _ lines) eqn:Eg.
  { eapply Hall; [| exact Hb0]. apply flush_ok, git_blocks_ok, split_init_ok. }
  destruct (existsb (fun l => Py.startswith l (u "Index: ")) lines) eqn:Ei.
  { eapply Hall; [| exact Hb0]. apply flush_ok, index_blocks_ok, split_init_ok. }
  assert (Hc : block_ok DIALECT_CLASSIC (mark_binary b0)).
  { eapply Hall; [| exact Hb0]. apply flush_ok, classic_blocks_ok, split_init_ok. }
  repeat match goal with
         | |- context [if ?c then _ else _] => destruct c
         end; exact Hc.
Qed.

(** An instance: the first block of a Git patch for two files. *)
Lemma normalize_blocks_are_well_formed_witness :
  exists b,
    b ∈ (normalize Examples.git_two_files).2
    /\ block_ok (normalize Examples.git_two_files).1.2 b
    /\ has_binary_indicator b = Some (_has_binary_indicator (block_text b)).
Proof.
  eexists.
  refine (let Hin := _ in
          conj Hin (normalize_blocks_are_well_formed
                      Examples.git_two_files _ Hin)).
  vm_compute. left.
Defined.

Lemma join_unlines (l : list Py.str) :
  l <> [] -> Py.join Py.LF l ++ Py.LF = unlines l.
Proof.
  unfold unlines. induction l as [|x l IH]; [done |]. intros _.
  destruct l as [|y l]; [simpl; by rewrite app_nil_r |].
  change (Py.join Py.LF (x :: y :: l))
    with (x ++ Py.LF ++ Py.join Py.LF (y :: l)).
  rewrite <- !app_assoc, IH by done. simpl. by rewrite <- !app_assoc.
Qed.

Lemma unlines_app (l1 l2 : list Py.str) :
  unlines (l1 ++ l2) = unlines l1 ++ unlines l2.
Proof. unfold unlines. by rewrite map_app, concat_app. Qed.

Lemma texts_flush (d : Dialect) (st : SplitState) :
  texts (flush d st) = texts (blocks st) ++ unlines (cur st).
Proof.
  unfold flush, texts. destruct (cur st) as [|h rest] eqn:Ec.
  - by rewrite app_nil_r.
  - rewrite map_app, concat_app. cbn [map concat block_text].
    by rewrite app_nil_r, join_unlines.
Qed.

(** The three splitters share one shape: an item (a line, or the index of
    a line) that is a header closes the open block and opens a new one with
    its line, any other line is kept or dropped. *)
Section HeaderSplit.
Context {X : Type}.
Variable d : Dialect.
Variable line_of : X -> Py.str.
Variable is_header : X -> bool.
Variable header_of : X -> BlockHeader.
Variable path_of : X -> option Py.str.
Variable iter : SplitState -> X -> SplitState.
Hypothesis iter_eq :
  forall st x,
    iter st x
    = if is_header x
      then mkSplitState (flush d st) [line_of x] (header_of x) (path_of x)
      else keep_line (line_of x) st.

Lemma split_texts_open (items : list X) :
  forall st, cur st <> [] ->
    texts (flush d (fold_left iter items st))
    = texts (flush d st) ++ unlines (map line_of items).
Proof.
  induction items as [|x items IH]; intros st Hc.
  - simpl. by rewrite app_nil_r.
  - cbn [fold_left map]. rewrite iter_eq.
    change (unlines (line_of x :: map line_of items))
      with ((line_of x ++ Py.LF) ++ unlines (map line_of items)).
    destruct (is_header x).
    + rewrite IH by done. rewrite (texts_flush d (mkSplitState _ _ _ _)).
      cbn [blocks cur]. unfold unlines at 1. simpl.
      by rewrite app_nil_r, <- !app_assoc.
    + unfold keep_line. destruct (cur st) as [|c rest] eqn:Ec; [done |].
      rewrite IH by (cbn [cur]; by destruct rest).
      rewrite !texts_flush. cbn [blocks cur]. rewrite Ec, unlines_app.
      unfold unlines at 2. simpl. by rewrite app_nil_r, <- !app_assoc.
Qed.

Lemma split_texts_closed (items : list X) :
  forall st, cur st = [] ->
    texts (flush d (fold_left iter items st))
    = texts (blocks st)
      ++ unlines (map line_of (from_first is_header items)).
Proof.
  induction items as [|x items IH]; intros st Hc.
  - simpl. by rewrite texts_flush, Hc.
  - cbn [fold_left from_first]. rewrite iter_eq.
    destruct (is_header x).
    + rewrite split_texts_open by done.
      rewrite (texts_flush d (mkSplitState _ _ _ _)). cbn [blocks cur map].
      rewrite texts_flush, Hc.
      change (unlines (line_of x :: map line_of items))
        with ((line_of x ++ Py.LF) ++ unlines (map line_of items)).
      unfold unlines at 1 2. simpl. by rewrite !app_nil_r, <- !app_assoc.
    + unfold keep_line. rewrite Hc. by apply IH.
Qed.

Lemma split_count (items : list X) :
  forall st,
    length (flush d (fold_left iter items st))
    = length (flush d st) + length (filter (fun x => is_header x = true) items).
Proof.
  induction items as [|x items IH]; intros st; [simpl; lia |].
  cbn [fold_left]. rewrite IH, iter_eq, filter_cons.
  destruct (is_header x) eqn:Eh.
  - rewrite decide_True by done. unfold flush at 1. cbn [cur blocks].
    rewrite length_app. simpl. lia.
  - rewrite decide_False by done.
    unfold keep_line, flush. destruct (cur st) as [|c rest] eqn:Ec.
    + by rewrite Ec.
    + cbn [cur blocks]. destruct rest; simpl; rewrite !length_app; simpl; lia.
Qed.

End HeaderSplit.

(** X3: The Git splitter loses nothing after the preamble and splits exactly
    at the header lines: there are as many blocks as lines beginning with
    ["diff --git "], and the block texts, one after the other, are the
    lines from the first such line on, each followed by LF. *)
Theorem git_blocks_partition_the_lines (text : Py.str) :
  let is_header l := Py.startswith l (u "diff --git ") in
  let lines := Py.split Py.LF text in
  length (_split_git_blocks text)
  = length (filter (fun l => is_header l = true) lines)
  /\ texts (_split_git_blocks text) = unlines (from_first is_header lines).
Proof.
  intros is_header lines. unfold _split_git_blocks. fold lines. split.
  - by rewrite (split_count DIALECT_GIT id is_header HeaderDiffGit
                  (fun _ => None)).
  - rewrite (split_texts_closed DIALECT_GIT id is_header HeaderDiffGit
               (fun _ => None)) by done.
    by rewrite map_id.
Qed.

(** X4: The Index splitter loses nothing after the preamble and splits
    exactly at the header lines: there are as many blocks as lines
    beginning with ["Index: "], and the block texts, one after the other,
    are the lines from the first such line on, each followed by LF. *)
Theorem index_blocks_partition_the_lines (text : Py.str) :
  let is_header l := Py.startswith l (u "Index: ") in
  let lines := Py.split Py.LF text in
  length (_split_index_blocks text)
  = length (filter (fun l => is_header l = true) lines)
  /\ texts (_split_index_blocks text) = unlines (from_first is_header lines).
Proof.
  intros is_header lines. unfold _split_index_blocks. fold lines.
  set (path l := Py.strip (drop (length (u "Index: ")) l)).
  split.
  - by rewrite (split_count DIALECT_INDEX id is_header
                  (fun l => HeaderIndex (path l)) (fun l => Some (path l))).
  - rewrite (split_texts_closed DIALECT_INDEX id is_header
               (fun l => HeaderIndex (path l)) (fun l => Some (path l)))
      by done.
    by rewrite map_id.
Qed.

(** The index loop of the Classic splitter is a fold over the indices. *)
Lemma classic_loop_fold (lines : list Py.str) (fuel : nat) :
  forall i st,
    length lines - i <= fuel ->
    classic_loop lines fuel i st
    = fold_left (fun st j => classic_iter lines j st)
        (seq i (length lines - i)) st.
Proof.
  induction fuel as [|fuel IH]; intros i st Hf.
  - replace (length lines - i) with 0 by lia. done.
  - simpl. destruct (Nat.ltb_spec i (length lines)) as [Hlt|Hge].
    + rewrite IH by lia.
      replace (length lines - i) with (S (length lines - S i)) by lia. done.
    + replace (length lines - i) with 0 by lia. done.
Qed.

Lemma classic_iter_eq (lines : list Py.str) (st : SplitState) (j : nat) :
  classic_iter lines j st
  = if opens_classic lines j
    then mkSplitState (flush DIALECT_CLASSIC st) [nth j lines []]
           HeaderClassic None
    else keep_line (nth j lines []) st.
Proof.
  unfold classic_iter, opens_classic.
  by destruct (Py.startswith _ _), (found_ppp lines j).
Qed.

Lemma from_first_seq (lines : list Py.str) (p : nat -> bool) (i0 : nat) :
  forall i, i <= i0 -> i0 < length lines ->
    (forall j, i <= j -> j < i0 -> p j = false) -> p i0 = true ->
    map (fun j => nth j lines []) (from_first p (seq i (length lines - i)))
    = drop i0 lines.
Proof.
  intros i Hi Hlen. remember (i0 - i) as k eqn:Ek. revert i Hi Ek.
  induction k as [|k IH]; intros i Hi Ek Hno Hp.
  - assert (i = i0) as -> by lia.
    replace (length lines - i0) with (S (length lines - S i0)) by lia.
    cbn [seq from_first]. rewrite Hp.
    replace (i0 :: seq (S i0) (length lines - S i0))
      with (seq i0 (length lines - i0))
      by (replace (length lines - i0) with (S (length lines - S i0)) by lia;
          done).
    clear. revert i0. induction lines as [|l lines IHl]; intros i0.
    + by destruct i0.
    + destruct i0 as [|i0]; simpl.
      * f_equal. specialize (IHl 0). rewrite Nat.sub_0_r in IHl.
        rewrite <- seq_shift, map_map. simpl in IHl. by rewrite drop_0 in IHl.
      * rewrite <- IHl. rewrite <- seq_shift, map_map. done.
  - replace (length lines - i) with (S (length lines - S i)) by lia.
    cbn [seq from_first]. rewrite Hno by lia.
    apply IH; [lia | lia | | done]. intros j H1 H2. apply Hno; lia.
Qed.

(** X5: The Classic splitter loses nothing after the first file header: when
    the first line that opens a block is line [i0], the block texts, one
    after the other, are the lines from [i0] on, each followed by LF; and
    there are as many blocks as lines that open one. *)
Theorem classic_blocks_partition_the_lines (text : Py.str) (i0 : nat) :
  let lines := Py.split Py.LF text in
  i0 < length lines ->
  (forall j, j < i0 -> opens_classic lines j = false) ->
  opens_classic lines i0 = true ->
  length (_split_classic_blocks text)
  = length (filter (fun j => opens_classic lines j = true)
              (seq 0 (length lines)))
  /\ texts (_split_classic_blocks text) = unlines (drop i0 lines).
Proof.
  intros lines Hlen Hno Hopen. unfold _split_classic_blocks. fold lines.
  clearbody lines.
  rewrite (classic_loop_fold lines (length lines) 0 split_init)
    by (unfold Py.str; lia).
  unfold Py.str. rewrite Nat.sub_0_r. split.
  - by rewrite (split_count DIALECT_CLASSIC (fun j => nth j lines [])
                  (opens_classic lines) (fun _ => HeaderClassic)
                  (fun _ => None)) by (intros; apply classic_iter_eq).
  - rewrite (split_texts_closed DIALECT_CLASSIC (fun j => nth j lines [])
               (opens_classic lines) (fun _ => HeaderClassic)
               (fun _ => None)) by (try done; intros; apply classic_iter_eq).
    cbn [blocks split_init texts map concat app].
    pose proof (from_first_seq lines (opens_classic lines) i0 0) as Hf.
    unfold Py.str in Hf. rewrite Nat.sub_0_r in Hf.
    f_equal. apply Hf; try done; [lia |].
    intros j _ Hj. by apply Hno.
Qed.

(** An instance: a classic patch after one line of noise. *)
Lemma classic_blocks_partition_the_lines_witness :
  let text := Py.join Py.LF Examples.noisy_classic in
  length (_split_classic_blocks text) = 1
  /\ texts (_split_classic_blocks text)
     = unlines (drop 1 (Py.split Py.LF text)).
Proof.
  intros text.
  refine (classic_blocks_partition_the_lines text 1 _ _ _).
  - vm_compute. lia.
  - intros j Hj. assert (j = 0) as -> by lia. reflexivity.
  - reflexivity.
Defined.

End BlockFacts.

(** ** parser.py: hunks *)

Module HunkSyntaxFacts.
Import Models UnifiedDiffParser Shapes.

Lemma hunk_append_tags_ok (h : Hunk) (e : Py.str * Py.str) :
  tags_ok h -> e.1 ∈ TAGS -> tags_ok (hunk_append h e).
Proof.
  unfold tags_ok. intros Hh He. cbn [hunk_append lines].
  apply Forall_app. split; [done |]. by constructor.
Qed.

Lemma hunks_loop_tags (lns : list Py.str) :
  forall hunks current,
    Forall tags_ok hunks ->
    match current with Some c => tags_ok c | None => True end ->
    Forall tags_ok (hunks_loop hunks current lns).1
    /\ match (hunks_loop hunks current lns).2 with
       | Some c => tags_ok c
       | None => True
       end.
Proof.
  induction lns as [|ln rest IH]; intros hunks current Hh Hc; [done |].
  cbn [hunks_loop].
  destruct (RE_HUNK ln) as [[[[[g1 g2] g3] g4] g5]|].
  { apply IH; [| by constructor].
    destruct current as [c|]; [| done].
    apply Forall_app. split; [done | by constructor]. }
  destruct current as [c|]; [| by apply IH].
  destruct (Py.startswith ln _); [by apply IH |].
  destruct ln as [|tag text].
  { apply IH; [done |]. apply hunk_append_tags_ok; [done |]. by left. }
  destruct (bool_decide_reflect ([tag] ∈ [u " "; u "+"; u "-"])) as [Ht|Ht].
  - apply IH; [done |]. by apply hunk_append_tags_ok.
  - apply IH; [done |]. apply hunk_append_tags_ok; [done |]. by left.
Qed.

(** X6: The parser only produces the three tags: every line of every hunk it
    returns is tagged [" "], ["+"] or ["-"], so the applier's branch for
    other tags is never taken on parsed input. *)
Theorem parsed_hunks_carry_only_the_three_tags (lns : list Py.str) :
  Forall tags_ok (_parse_hunks_from lns).
Proof.
  unfold _parse_hunks_from.
  destruct (hunks_loop_tags lns [] None) as [H1 H2]; [done | done |].
  destruct (hunks_loop [] None lns) as [hunks [c|]]; [| done].
  apply Forall_app. split; [done | by constructor].
Qed.








End HunkSyntaxFacts.

(** ** Numbers and hunk headers *)

Module HeaderFacts.
Import Models UnifiedDiffParser Shapes.

Lemma fold_digits (fuel : nat) :
  forall n acc,
    (n < 10 ^ N.of_nat fuel)%N ->
    fold_left (fun a c => 10 * a + Py.digit_value c)%Z
      (Py.digits_fuel fuel n acc) 0%Z
    = fold_left (fun a c => 10 * a + Py.digit_value c)%Z acc (Z.of_N n).
Proof.
  induction fuel as [|fuel IH]; intros n acc Hn.
  - simpl in Hn. assert (n = 0%N) as -> by lia. done.
  - cbn [Py.digits_fuel].
    assert (Hd : (10 * 0 + Py.digit_value (48 + n mod 10))%Z
                 = Z.of_N (n mod 10)).
    { unfold Py.digit_value. lia. }
    destruct (N.ltb_spec n 10) as [Hlt|Hge].
    + cbn [fold_left]. rewrite Hd. by rewrite N.mod_small.
    + rewrite IH.
      * cbn [fold_left]. f_equal. unfold Py.digit_value.
        rewrite (N.div_mod n 10) at 3 by lia. lia.
      * rewrite Nat2N.inj_succ, N.pow_succ_r' in Hn.
        apply N.Div0.div_lt_upper_bound. lia.
Qed.

Lemma digits_are_digits (fuel : nat) :
  forall n acc,
    Forall (fun c => Py.isdigit c = true) acc ->
    Forall (fun c => Py.isdigit c = true) (Py.digits_fuel fuel n acc).
Proof.
  induction fuel as [|fuel IH]; intros n acc Ha; [done |].
  cbn [Py.digits_fuel].
  assert (Hc : Py.isdigit (48 + n mod 10) = true).
  { unfold Py.isdigit. pose proof (N.mod_upper_bound n 10 ltac:(lia)) as Hm.
    revert Hm. generalize (n mod 10)%N. intros m Hm.
    apply andb_true_intro. split; apply N.leb_le; lia. }
  destruct (n <? 10)%N; [by constructor |]. apply IH. by constructor.
Qed.

Lemma digits_nonempty (fuel : nat) (n : N) (acc : Py.str) :
  Py.digits_fuel (S fuel) n acc <> [].
Proof.
  revert n acc. induction fuel as [|fuel IH]; intros n acc.
  - simpl. by destruct (n <? 10)%N.
  - cbn [Py.digits_fuel]. destruct (n <? 10)%N; [done |].
    apply (IH (n / 10)%N).
Qed.

Lemma enough_fuel (n : N) : (n < 10 ^ N.of_nat (S (N.to_nat (N.log2 n))))%N.
Proof.
  rewrite Nat2N.inj_succ, N2Nat.id.
  destruct (N.eq_dec n 0%N) as [->|Hn]; [done |].
  pose proof (N.log2_spec n ltac:(lia)) as [_ Hlt].
  eapply N.lt_le_trans; [exact Hlt |].
  apply N.pow_le_mono_l. lia.
Qed.

(** [int(str(n)) == n] for a natural number, and [str(n)] is a non-empty
    run of digits. *)
Lemma str_of_nat (n : nat) :
  Py.int_of_digits (Py.str_of_int (Z.of_nat n)) = Z.of_nat n
  /\ Forall (fun c => Py.isdigit c = true) (Py.str_of_int (Z.of_nat n))
  /\ Py.str_of_int (Z.of_nat n) <> [].
Proof.
  unfold Py.str_of_int, Py.int_of_digits.
  destruct (Z.ltb_spec (Z.of_nat n) 0); [lia |].
  split; [| split].
  - rewrite fold_digits by apply enough_fuel. simpl. lia.
  - by apply digits_are_digits.
  - apply digits_nonempty.
Qed.

Lemma span_run (p : N -> bool) (run rest : Py.str) :
  Forall (fun c => p c = true) run ->
  match rest with [] => True | c :: _ => p c = false end ->
  span p (run ++ rest) = (run, rest).
Proof.
  intros Hr Hrest. induction Hr as [|c run Hc _ IH].
  - destruct rest as [|c rest]; [done |]. simpl. by rewrite Hrest.
  - simpl. by rewrite Hc, IH.
Qed.

Lemma eat_app (prefix s : Py.str) : eat prefix (prefix ++ s) = Some s.
Proof.
  unfold eat. rewrite TextFacts.startswith_app.
  by rewrite drop_app_length.
Qed.

Lemma eat_one_space (c : N) (s : Py.str) :
  Py.isspace c = false -> eat_spaces (32%N :: c :: s) = Some (c :: s).
Proof. intros Hc. unfold eat_spaces. simpl. by rewrite Hc. Qed.

(** The range that [_format_range_unified] writes reads back, when a
    space follows it. *)
Lemma eat_formatted_range (start stop : nat) (rest : Py.str) :
  exists g1 g2,
    eat_range (Difflib._format_range_unified start stop ++ 32%N :: rest)
    = Some (g1, g2, 32%N :: rest)
    /\ Py.int_of_digits g1 = range_first start stop
    /\ group_count g2 = Z.of_nat (stop - start).
Proof.
  unfold Difflib._format_range_unified, range_first, eat_range.
  assert (Hsp : forall ds, Forall (fun c => Py.isdigit c = true) ds ->
            span Py.isdigit (ds ++ 32%N :: rest) = (ds, 32%N :: rest)).
  { intros ds Hds. by apply span_run. }
  assert (Hco : forall ds t, Forall (fun c => Py.isdigit c = true) ds ->
            span Py.isdigit (ds ++ 44%N :: t) = (ds, 44%N :: t)).
  { intros ds t Hds. by apply span_run. }
  destruct (stop - start) as [|[|k]] eqn:El.
  - (* empty range: "start,0" *)
    destruct (str_of_nat (start + 1 - 1)) as (Hv & Hd & Hn).
    destruct (str_of_nat 0) as (Hv0 & Hd0 & Hn0).
    change (Z.of_nat 0) with 0%Z in *.
    exists (Py.str_of_int (Z.of_nat (start + 1 - 1))), (Some (Py.str_of_int 0)).
    rewrite <- !app_assoc. cbn [app Py.lit].
    change (u "," ++ ?x) with (44%N :: x).
    rewrite Hco by done.
    destruct (Py.str_of_int (Z.of_nat (start + 1 - 1))) as [|c ds] eqn:Es;
      [done |].
    rewrite Hsp by done.
    destruct (Py.str_of_int 0) as [|c0 ds0] eqn:E0; [done |].
    split; [done |]. split; [rewrite Hv; simpl; lia | exact Hv0].
  - (* one line: "start+1" *)
    destruct (str_of_nat (start + 1)) as (Hv & Hd & Hn).
    exists (Py.str_of_int (Z.of_nat (start + 1))), None.
    rewrite Hsp by done.
    destruct (Py.str_of_int (Z.of_nat (start + 1))) as [|c ds] eqn:Es; [done |].
    split; [done |]. split; [by rewrite Hv | done].
  - (* "start+1,length" *)
    destruct (str_of_nat (start + 1)) as (Hv & Hd & Hn).
    destruct (str_of_nat (S (S k))) as (Hv2 & Hd2 & Hn2).
    exists (Py.str_of_int (Z.of_nat (start + 1))),
      (Some (Py.str_of_int (Z.of_nat (S (S k))))).
    rewrite <- !app_assoc. cbn [app Py.lit].
    change (u "," ++ ?x) with (44%N :: x).
    rewrite Hco by done.
    destruct (Py.str_of_int (Z.of_nat (start + 1))) as [|c ds] eqn:Es; [done |].
    rewrite Hsp by done.
    destruct (Py.str_of_int (Z.of_nat (S (S k)))) as [|c2 ds2] eqn:E2; [done |].
    split; [done |]. split; [by rewrite Hv | exact Hv2].
Qed.

Lemma strip_no_op (s front : Py.str) (c c' : N) (t : Py.str) :
  s = c :: t -> s = front ++ [c'] ->
  Py.isspace c = false -> Py.isspace c' = false ->
  Py.strip s = s.
Proof.
  intros Hs Hf Hc Hc'. unfold Py.strip, Py.rstrip.
  assert (Hl : Py.lstrip s = s) by (rewrite Hs; simpl; by rewrite Hc).
  rewrite Hl. rewrite Hf at 1. rewrite rev_app_distr. simpl. rewrite Hc'.
  change (c' :: rev front) with (rev [c'] ++ rev front).
  by rewrite <- rev_app_distr, rev_involutive.
Qed.

(** X9: The hunk header the diff generator writes reads back with the parser:
    for the ranges [s1, e1) and [s2, e2) of a group, the header line
    [@@ -r1 +r2 @@] parses to a hunk that starts at line [s + 1] (or [s]
    for an empty range) and counts [e - s] lines on each side, a count of
    one being left out of the header and restored by the parser. *)
Theorem generated_hunk_header_reads_back (s1 e1 s2 e2 : nat) :
  let line :=
    u "@@ -" ++ Difflib._format_range_unified s1 e1
    ++ u " +" ++ Difflib._format_range_unified s2 e2 ++ u " @@" in
  _parse_hunks_from [line]
  = [mkHunk (range_first s1 e1) (Z.of_nat (e1 - s1))
       (range_first s2 e2) (Z.of_nat (e2 - s2)) line []].
Proof.
  intros line.
  destruct (eat_formatted_range s2 e2 (u "@@"))
    as (g3 & g4 & He2 & Hv3 & Hv4).
  destruct (eat_formatted_range s1 e1
              (43%N :: Difflib._format_range_unified s2 e2 ++ 32%N :: u "@@"))
    as (g1 & g2 & He1 & Hv1 & Hv2).
  assert (Hline : line
            = 64%N :: 64%N :: 32%N :: 45%N
              :: Difflib._format_range_unified s1 e1
                 ++ 32%N :: 43%N
                 :: Difflib._format_range_unified s2 e2 ++ 32%N :: u "@@").
  { subst line. reflexivity. }
  assert (Hre : RE_HUNK line = Some (g1, g2, g3, g4, [])).
  { rewrite Hline. unfold RE_HUNK.
    remember (Difflib._format_range_unified s1 e1) as F1.
    remember (Difflib._format_range_unified s2 e2) as F2.
    change (64%N :: 64%N :: ?x) with (u "@@" ++ x) at 1.
    rewrite eat_app. cbn [mbind option_bind].
    rewrite eat_one_space by done. cbn [mbind option_bind].
    change (45%N :: ?x) with (u "-" ++ x).
    rewrite eat_app. cbn [mbind option_bind].
    rewrite He1. cbn [mbind option_bind].
    rewrite eat_one_space by done. cbn [mbind option_bind].
    change (43%N :: ?x) with (u "+" ++ x).
    rewrite eat_app. cbn [mbind option_bind].
    rewrite He2. cbn [mbind option_bind].
    reflexivity. }
  unfold _parse_hunks_from. cbn [hunks_loop]. rewrite Hre.
  cbn [hunks_loop app]. rewrite Hv1, Hv2, Hv3, Hv4.
  assert (Hs : Py.strip line = line).
  { apply (strip_no_op line
             (u "@@ -" ++ Difflib._format_range_unified s1 e1
              ++ u " +" ++ Difflib._format_range_unified s2 e2 ++ u " @")
             64 64 (skipn 1 line)); try done.
    clear. subst line. by rewrite <- !app_assoc. }
  by rewrite Hs.
Qed.

End HeaderFacts.

(* ===================================================================== *)
(** * Locating a hunk and applying it agree *)
(* ===================================================================== *)

Module HunkApplyFacts.
Import Models PatchApplier Spec.
Local Open Scope Z_scope.

Lemma anchor_filter_cons (t s : Py.str) (rest : list (Py.str * Py.str)) :
  filter (fun e : Py.str * Py.str => e.1 ∈ [u " "; u "-"]) ((t, s) :: rest)
  = if Py.eqb t (u " ") || Py.eqb t (u "-")
    then (t, s) :: filter (fun e : Py.str * Py.str => e.1 ∈ [u " "; u "-"]) rest
    else filter (fun e : Py.str * Py.str => e.1 ∈ [u " "; u "-"]) rest.
Proof.
  rewrite filter_cons. cbn [fst].
  destruct (Py.eqb t (u " ")) eqn:E1.
  { apply PyFacts.eqb_spec in E1 as ->. rewrite decide_True; [done | left]. }
  destruct (Py.eqb t (u "-")) eqn:E2.
  { apply PyFacts.eqb_spec in E2 as ->.
    rewrite decide_True; [done | right; left]. }
  apply PyFacts.eqb_false in E1, E2. rewrite decide_False; [done |].
  intros Hin. apply elem_of_cons in Hin as [?|Hin]; [done |].
  by apply list_elem_of_singleton in Hin.
Qed.

(** The loop of [_apply_hunk_at] ends without a mismatch exactly when the
    anchor loop of [_hunk_anchors_match] accepts the same position. *)
Lemma loop_ok_iff_anchors (ignore_ws : bool) (hl : list (Py.str * Py.str)) :
  forall st, 0 <= st_i st ->
    anchors_loop (st_lines st) ignore_ws
      (filter (fun e : Py.str * Py.str => e.1 ∈ [u " "; u "-"]) hl) (st_i st)
    = true
    <-> exists st', hunk_lines_loop ignore_ws hl st = Ok (st', None).
Proof.
  induction hl as [|[t s] rest IH]; intros st Hi.
  { simpl. split; [by exists st | done]. }
  rewrite anchor_filter_cons. cbn [hunk_lines_loop].
  destruct (Py.eqb t (u " ")) eqn:E1; cbn [orb].
  { cbn [anchors_loop].
    destruct (st_i st >=? Py.len (st_lines st));
      [split; [done | by intros [? [=]]] |].
    destruct (Py.getitem (st_lines st) (st_i st)) as [have_|];
      [| split; [done | by intros [? [=]]]].
    destruct (negb _); [split; [done | by intros [? [=]]] |].
    apply (IH (i_incr (out_append st have_))). cbn. lia. }
  destruct (Py.eqb t (u "-")) eqn:E2; cbn [orb].
  { cbn [anchors_loop].
    destruct (st_i st >=? Py.len (st_lines st));
      [split; [done | by intros [? [=]]] |].
    destruct (Py.getitem (st_lines st) (st_i st)) as [have_|];
      [| split; [done | by intros [? [=]]]].
    destruct (negb _); [split; [done | by intros [? [=]]] |].
    apply (IH (i_incr st)). cbn. lia. }
  destruct (Py.eqb t (u "+")).
  - by apply (IH (out_append st s)).
  - by apply IH.
Qed.

(** The range guard of [_hunk_anchors_match] is implied by its loop. *)
Lemma anchors_match_is_loop (lns : list Py.str) (hunk : Hunk) (pos : Z)
  (ignore_ws : bool) :
  0 <= pos ->
  _hunk_anchors_match lns hunk pos ignore_ws
  = anchors_loop lns ignore_ws (anchor_seq hunk) pos.
Proof.
  intros Hp. unfold _hunk_anchors_match.
  destruct (anchor_seq hunk) as [|[t s] seq]; [done |].
  destruct (pos <? 0) eqn:E1; [lia |]. cbn [orb].
  destruct (pos >? Py.len lns) eqn:E2; [| done].
  cbn [anchors_loop]. destruct (pos >=? Py.len lns) eqn:E3; [done | lia].
Qed.

Lemma apply_hunk_at_verdict
  (lns : list Py.str) (hunk : Hunk) (pos : Z) (ignore_ws : bool) :
  0 <= pos ->
  exists new_lines delta mm,
    _apply_hunk_at lns hunk pos ignore_ws
    = Ok (_hunk_anchors_match lns hunk pos ignore_ws, new_lines, delta, mm)
    /\ (mm = None <-> _hunk_anchors_match lns hunk pos ignore_ws = true).
Proof.
  intros Hp. rewrite anchors_match_is_loop by done.
  pose (st0 := mkHunkStore lns (Py.slice_to lns pos) pos).
  pose proof (loop_ok_iff_anchors ignore_ws (lines hunk) st0 Hp) as Hiff.
  destruct (ApplierFacts.hunk_lines_loop_spec ignore_ws (lines hunk) st0 Hp)
    as (st' & mm & Hloop & _).
  unfold _apply_hunk_at, apply_hunk_store. fold st0. rewrite Hloop.
  cbn [rbind]. change (st_lines st0) with lns in Hiff.
  change (st_i st0) with pos in Hiff. fold (anchor_seq hunk) in Hiff.
  destruct mm as [m|]; cbn [rbind].
  - assert (Hf : anchors_loop lns ignore_ws (anchor_seq hunk) pos = false).
    { destruct (anchors_loop _ _ _ _); [| done].
      destruct (proj1 Hiff eq_refl) as [st1 Hst1]. congruence. }
    rewrite Hf. eexists _, _, _. split; [done |]. split; done.
  - assert (Ht : anchors_loop lns ignore_ws (anchor_seq hunk) pos = true).
    { apply Hiff. by exists st'. }
    rewrite Ht. eexists _, _, _. split; [done |]. split; done.
Qed.

(** X10: The verdict of [_apply_hunk_at] is the anchor test: at a position that
    is not negative the call does not raise, and its [ok] flag is the
    value of [_hunk_anchors_match] there; a mismatch record comes with
    [ok = False] only. *)
Theorem apply_verdict_is_the_anchor_test
  (lns : list Py.str) (hunk : Hunk) (pos : Z) (ignore_ws : bool) :
  0 <= pos ->
  exists new_lines delta mm,
    _apply_hunk_at lns hunk pos ignore_ws
    = Ok (_hunk_anchors_match lns hunk pos ignore_ws, new_lines, delta, mm)
    /\ (mm = None <-> _hunk_anchors_match lns hunk pos ignore_ws = true).
Proof. apply apply_hunk_at_verdict. Qed.

(** An instance: the two-line hunk of the examples at line 1, where its
    anchors match. *)
Lemma apply_verdict_is_the_anchor_test_witness :
  0 <= 1
  /\ exists new_lines delta mm,
       _apply_hunk_at Examples.tie_lines Examples.tie_hunk 1 false
       = Ok (_hunk_anchors_match Examples.tie_lines Examples.tie_hunk 1 false,
             new_lines, delta, mm)
       /\ (mm = None
           <-> _hunk_anchors_match Examples.tie_lines Examples.tie_hunk 1 false
               = true).
Proof.
  split; [lia |].
  apply (apply_verdict_is_the_anchor_test
           Examples.tie_lines Examples.tie_hunk 1 false).
  lia.
Defined.

(** What a run of hunk lines does to the length of a segment. *)
Lemma Applies_length (norm : Py.str -> Py.str) (hl : list (Py.str * Py.str))
  (old new : list Py.str) :
  Applies norm hl old new ->
  Z.of_nat (length new) - Z.of_nat (length old) = net_lines hl.
Proof.
  unfold net_lines.
  induction 1 as [|s have_ hl old new _ _ IH|s have_ hl old new _ _ IH
                  |s hl old new _ IH|t s hl old new H1 H2 H3 _ IH];
    rewrite ?filter_cons; cbn [fst length].
  - done.
  - rewrite decide_False by done. rewrite decide_False by done. lia.
  - rewrite decide_False by done. rewrite decide_True by done.
    cbn [length]. lia.
  - rewrite decide_True by done. rewrite decide_False by done.
    cbn [length]. lia.
  - rewrite decide_False by done. rewrite decide_False by done. lia.
Qed.

Lemma apply_hunk_at_length
  (lns new_lines : list Py.str) (hunk : Hunk) (pos delta : Z)
  (ignore_ws : bool) (mm : option Mismatch) :
  0 <= pos <= Py.len lns ->
  _apply_hunk_at lns hunk pos ignore_ws = Ok (true, new_lines, delta, mm) ->
  Py.len new_lines = Py.len lns + delta
  /\ delta = _count_tag (lines hunk) (u "+") - _count_tag (lines hunk) (u "-").
Proof.
  intros [Hp Hle]. unfold _apply_hunk_at, apply_hunk_store.
  destruct (ApplierFacts.hunk_lines_loop_spec ignore_ws (lines hunk)
              (mkHunkStore lns (Py.slice_to lns pos) pos) Hp)
    as (st' & mm' & -> & Hl & Hspec).
  cbn [rbind]. destruct mm' as [m|]; cbn [rbind deref]; [done |].
  intros [= <- <- <-]. split; [| done].
  destruct Hspec as (old & new & Happ & Hdrop & Hi & Hout).
  cbn [st_lines st_i st_out] in *.
  apply Applies_length in Happ.
  change (_count_tag (lines hunk) (u "+") - _count_tag (lines hunk) (u "-"))
    with (net_lines (lines hunk)).
  rewrite <- Happ, Hl, Hi, Hout.
  rewrite ApplierFacts.slice_to_nonneg by done.
  rewrite ApplierFacts.slice_from_nonneg by lia.
  apply (f_equal length) in Hdrop. rewrite length_app, !length_drop in Hdrop.
  unfold Py.len in *. rewrite !length_app, length_take, length_drop. lia.
Qed.

(** X11: A hunk that applies within the buffer changes the number of lines by
    the [delta_offset] it reports, additions minus deletions. *)
Theorem applied_hunk_changes_length_by_delta
  (lns new_lines : list Py.str) (hunk : Hunk) (pos delta : Z)
  (ignore_ws : bool) (mm : option Mismatch) :
  0 <= pos <= Py.len lns ->
  _apply_hunk_at lns hunk pos ignore_ws = Ok (true, new_lines, delta, mm) ->
  Py.len new_lines = Py.len lns + delta
  /\ delta = _count_tag (lines hunk) (u "+") - _count_tag (lines hunk) (u "-").
Proof. apply apply_hunk_at_length. Qed.

(** An instance: the two-line hunk of the examples at line 1. *)
Lemma applied_hunk_changes_length_by_delta_witness :
  exists new_lines delta,
    _apply_hunk_at Examples.tie_lines Examples.tie_hunk 1 false
    = Ok (true, new_lines, delta, None)
    /\ Py.len new_lines = Py.len Examples.tie_lines + delta.
Proof.
  eexists _, _. split; [reflexivity |].
  refine (proj1 (applied_hunk_changes_length_by_delta
                   Examples.tie_lines _ Examples.tie_hunk 1 _ false None _ _)).
  - vm_compute. split; discriminate.
  - reflexivity.
Defined.

(** The anchors match at a position the locator returns. *)
Lemma located_anchors (lns : list Py.str) (hunk : Hunk) (expected : Z)
  (ignore_ws fuzzy : bool) (fuzzy_window p : Z) :
  (_locate_hunk_position lns hunk expected ignore_ws fuzzy fuzzy_window).1
  = Some p ->
  _hunk_anchors_match lns hunk p ignore_ws = true.
Proof.
  unfold _locate_hunk_position.
  destruct (_hunk_anchors_match lns hunk _ ignore_ws) eqn:Es.
  { by intros [= <-]. }
  destruct fuzzy; [| done]. cbn [negb].
  destruct (Py.sort_by _ _ _) as [|chosen others] eqn:Eso; [done |].
  intros [= <-].
  assert (Hin : chosen ∈ fuzzy_candidates lns hunk
                  (Z.min (Z.max expected 0) (Py.len lns)) ignore_ws fuzzy_window).
  { apply (PyFacts.sort_by_elem Py.pair_ltb
             (candidate_key (Z.min (Z.max expected 0) (Py.len lns)))).
    rewrite Eso. left. }
  by apply LocatorFacts.fuzzy_candidates_spec in Hin as [_ ?].
Qed.

(** X12: The locator and the application compose: at a position the locator
    returns, strict or fuzzy, the hunk applies, without a mismatch, and
    the buffer grows by the reported delta. *)
Theorem located_hunk_applies (lns : list Py.str) (hunk : Hunk) (expected : Z)
  (ignore_ws fuzzy : bool) (fuzzy_window p : Z) :
  (_locate_hunk_position lns hunk expected ignore_ws fuzzy fuzzy_window).1
  = Some p ->
  exists new_lines delta,
    _apply_hunk_at lns hunk p ignore_ws = Ok (true, new_lines, delta, None)
    /\ Py.len new_lines = Py.len lns + delta.
Proof.
  intros Hloc.
  pose proof (located_anchors _ _ _ _ _ _ _ Hloc) as Ha.
  pose proof (LocatorFacts.located_position_in_range _ _ _ _ _ _ _ Hloc) as Hr.
  destruct (apply_hunk_at_verdict lns hunk p ignore_ws (proj1 Hr))
    as (new_lines & delta & mm & Happ & Hmm).
  rewrite Ha in Happ. assert (mm = None) as -> by by apply Hmm.
  exists new_lines, delta. split; [done |].
  by destruct (apply_hunk_at_length _ _ _ _ _ _ _ Hr Happ).
Qed.

(** An instance: the fuzzy search around line 2 settles on line 1. *)
Lemma located_hunk_applies_witness :
  exists new_lines delta,
    _apply_hunk_at Examples.tie_lines Examples.tie_hunk 1 false
    = Ok (true, new_lines, delta, None)
    /\ Py.len new_lines = Py.len Examples.tie_lines + delta.
Proof.
  apply (located_hunk_applies Examples.tie_lines Examples.tie_hunk 2 false true
           5 1).
  reflexivity.
Defined.

(** One iteration of the hunk loop, by the answer of the locator. *)
Lemma hunk_iter_spec (o : Options) (st : MemState) (h_idx : Z) (h : Hunk) :
  let expected := Z.max 0 ((old_start h - 1) + line_offset st) in
  let loc :=
    _locate_hunk_position (out_lines st) h expected
      (ignore_whitespace_differences o) (best_effort_fuzzy_apply o)
      (fuzzy_window_size o) in
  match loc.1 with
  | Some p =>
      exists new_out,
        Py.len new_out = Py.len (out_lines st) + net_lines (lines h)
        /\ hunk_iter o st h_idx h
           = Ok (mkMemState new_out (line_offset st + net_lines (lines h))
                   (mkStats (hunks_applied (stats st) + 1)
                      (lines_added (stats st) + _count_tag (lines h) (u "+"))
                      (lines_removed (stats st) + _count_tag (lines h) (u "-")))
                   (diagnostics st),
                 HunkApplied)
  | None =>
      hunk_iter o st h_idx h
      = Ok (hunk_fallback o st h expected
              (_build_mismatch_diag (out_lines st) h expected loc.2 h_idx None))
  end.
Proof.
  intros expected loc. unfold hunk_iter. fold expected.
  pose proof (located_anchors (out_lines st) h expected
                (ignore_whitespace_differences o) (best_effort_fuzzy_apply o)
                (fuzzy_window_size o)) as Ha.
  pose proof (LocatorFacts.located_position_in_range (out_lines st) h expected
                (ignore_whitespace_differences o) (best_effort_fuzzy_apply o)
                (fuzzy_window_size o)) as Hr.
  fold loc in Ha, Hr |- *.
  destruct loc as [[p|] dec]; cbn [fst snd] in *; [| done].
  specialize (Ha p eq_refl). specialize (Hr p eq_refl).
  destruct (apply_hunk_at_verdict (out_lines st) h p
              (ignore_whitespace_differences o) (proj1 Hr))
    as (new_out & delta & mm & Happ & _).
  rewrite Ha in Happ.
  destruct (apply_hunk_at_length _ _ _ _ _ _ _ Hr Happ) as [Hlen Hd].
  rewrite Happ. cbn [rbind negb].
  exists new_out. subst delta. split; [exact Hlen | done].
Qed.

(** Every iteration of the hunk loop is one of the three steps. *)
Lemma hunk_iter_step (o : Options) (st : MemState) (h_idx : Z) (h : Hunk) :
  exists st' oc,
    hunk_iter o st h_idx h = Ok (st', oc) /\ Shapes.iter_step o st h oc st'.
Proof.
  pose proof (hunk_iter_spec o st h_idx h) as Hs. cbv zeta in Hs.
  destruct (_locate_hunk_position _ _ _ _ _ _).1 as [p|].
  - destruct Hs as (new_out & Hlen & ->). eexists _, _. split; [done |].
    by constructor.
  - rewrite Hs. unfold hunk_fallback.
    destruct (conflict_marker_mode o) eqn:Ec; eexists _, _; (split; [done |]).
    + by apply Shapes.step_marked.
    + by apply Shapes.step_failed.
Qed.

(** The hunk loop always returns, and what it returns is a run. *)
Lemma hunks_loop_run (o : Options) (hs : list Hunk) :
  forall st h_idx,
    exists st' outs,
      hunks_loop o st h_idx hs = Ok (st', outs)
      /\ Shapes.loop_run o st hs outs st'.
Proof.
  induction hs as [|h rest IH]; intros st h_idx.
  { exists st, []. split; [done | constructor]. }
  cbn [hunks_loop].
  destruct (hunk_iter_step o st h_idx h) as (st1 & oc & -> & Hstep).
  cbn [rbind].
  destruct (IH st1 (h_idx + 1)) as (st2 & outs & -> & Hrun). cbn [rbind].
  destruct oc.
  - exists st2, (HunkApplied :: outs). split; [done |].
    by apply (Shapes.run_next o st h rest HunkApplied st1).
  - exists st2, (HunkConflictMarked :: outs). split; [done |].
    by apply (Shapes.run_next o st h rest HunkConflictMarked st1).
  - exists st1, [HunkFailed]. split; [done |]. by apply Shapes.run_stop.
Qed.

Lemma run_flags (o : Options) (st st' : MemState) (hs : list Hunk)
  (outs : list HunkOutcome) :
  Shapes.loop_run o st hs outs st' ->
  (failed (diagnostics st') = true ->
   failed (diagnostics st) = true \/ conflict_marker_mode o = false)
  /\ (conflicted (diagnostics st') = true ->
      conflicted (diagnostics st) = true \/ conflict_marker_mode o = true)
  /\ (conflict_marker_mode o = true ->
      failed (diagnostics st') = failed (diagnostics st))
  /\ (conflict_marker_mode o = false ->
      conflicted (diagnostics st') = conflicted (diagnostics st))
  /\ exists ds,
       details (diagnostics st') = details (diagnostics st) ++ ds
       /\ Forall (fun d => mismatch d = None) ds.
Proof.
  induction 1 as [st|st h rest st' Hstep
                  |st h rest oc st1 outs st' Hne Hstep _ IH].
  - repeat split; try tauto. exists []. by rewrite app_nil_r.
  - inversion Hstep as [| |entry Hc Hm]; subst. cbn.
    repeat split; try tauto; try congruence.
    exists [entry]. split; [done |]. by constructor.
  - destruct IH as (If & Ic & Ift & Icf & ds & Hd & Hall).
    inversion Hstep as [new_out Hlen|at_ entry Hc Hm|]; subst; cbn in *.
    + repeat split; try tauto. by exists ds.
    + split; [tauto |]. split; [intros _; by right |]. split; [tauto |].
      split; [congruence |].
      exists (entry :: ds). rewrite Hd, <- app_assoc. split; [done |].
      by constructor.
    + done.
Qed.

Lemma run_counters (o : Options) (st st' : MemState) (hs : list Hunk)
  (outs : list HunkOutcome) :
  Shapes.loop_run o st hs outs st' ->
  line_offset st' - line_offset st
  = (lines_added (stats st') - lines_added (stats st))
    - (lines_removed (stats st') - lines_removed (stats st))
  /\ (conflict_marker_mode o = false ->
      Py.len (out_lines st') - Py.len (out_lines st)
      = line_offset st' - line_offset st).
Proof.
  induction 1 as [st|st h rest st' Hstep
                  |st h rest oc st1 outs st' Hne Hstep _ IH].
  - split; [lia | intros _; lia].
  - inversion Hstep; subst. cbn. split; [lia | intros _; lia].
  - destruct IH as [IH1 IH2].
    inversion Hstep as [new_out Hlen|at_ entry Hc Hm|]; subst;
      cbn [line_offset stats lines_added lines_removed out_lines] in *.
    + assert (Hn : net_lines (lines h)
                   = _count_tag (lines h) (u "+") - _count_tag (lines h) (u "-"))
        by reflexivity.
      split; [lia | intros Hc; specialize (IH2 Hc); lia].
    + split; [lia | congruence].
    + done.
Qed.

Lemma run_applied (o : Options) (st st' : MemState) (hs : list Hunk)
  (outs : list HunkOutcome) :
  Shapes.loop_run o st hs outs st' ->
  failed (diagnostics st) = false ->
  (failed (diagnostics st') = false ->
   hunks_applied (stats st') = hunks_applied (stats st) + Py.len hs)
  /\ (failed (diagnostics st') = true ->
      hunks_applied (stats st) <= hunks_applied (stats st')
      < hunks_applied (stats st) + Py.len hs).
Proof.
  unfold Py.len.
  induction 1 as [st|st h rest st' Hstep
                  |st h rest oc st1 outs st' Hne Hstep _ IH]; intros Hf.
  - split; [intros _; cbn; lia | congruence].
  - inversion Hstep; subst. cbn. split; [done | intros _; lia].
  - inversion Hstep as [new_out Hlen|at_ entry Hc Hm|]; subst;
      cbn [stats hunks_applied diagnostics failed length] in *;
      [| |done]; destruct (IH Hf) as [IH1 IH2];
      (split; [intros H; specialize (IH1 H); lia
              |intros H; specialize (IH2 H); lia]).
Qed.

(** The in-memory application as a run of the hunk loop. *)
Lemma apply_hunks_to_text_run (fp : FilePatch) (o : Options)
  (original_text : Py.str) (original_lines : list Py.str) :
  exists st outs,
    Shapes.loop_run o
      (mem_init (fix_trailing original_text original_lines)) (hunks fp) outs st
    /\ apply_hunks_to_text fp o original_text original_lines
       = Ok (Py.join Py.LF (out_lines st), stats st, diagnostics st).
Proof.
  unfold apply_hunks_to_text.
  destruct (hunks_loop_run o (hunks fp)
              (mem_init (fix_trailing original_text original_lines)) 0)
    as (st & outs & -> & Hrun).
  by exists st, outs.
Qed.

(** [_apply_filepatch_in_memory] raises only what reading the file raises;
    otherwise its result is one of [apply_hunks_to_text]. *)
Lemma in_memory_cases `{FileSystem} (fp : FilePatch)
  (resolved_path root_folder : Py.str) (o : Options) (w : World)
  (Q : Py.str * Stats * Diagnostics -> Prop) :
  (forall t ls, exists x, apply_hunks_to_text fp o t ls = Ok x /\ Q x) ->
  match (_apply_filepatch_in_memory fp resolved_path root_folder o w).1 with
  | Ok x => Q x
  | Raise e =>
      operation fp <> Create
      /\ (fs_read_text (fs_path resolved_path) w).1 = Raise e
  end.
Proof.
  intros HQ. unfold _apply_filepatch_in_memory, lift_result, mbind.
  destruct (operation fp) eqn:Eop;
    try (destruct (fs_read_text _ w) as [[text|e] w']; cbn [fst];
         [destruct (lines_of_text text) as [t ls];
          by destruct (HQ t ls) as (x & -> & Hx)
         |done]).
  cbn [fst]. by destruct (HQ [] []) as (x & -> & Hx).
Qed.

(** X13: The two flags of the diagnostics exclude each other, and follow the
    conflict-marker option: [failed] is set only with the option off,
    [conflicted] only with it on.  No entry of [details] carries a
    mismatch record: a hunk the locator has placed always applies. *)
Theorem in_memory_apply_sets_one_flag_at_most `{FileSystem} (fp : FilePatch)
  (resolved_path root_folder : Py.str) (o : Options) (w : World) :
  match (_apply_filepatch_in_memory fp resolved_path root_folder o w).1 with
  | Ok (new_text, stats, diag) =>
      (failed diag = true ->
       conflict_marker_mode o = false /\ conflicted diag = false)
      /\ (conflicted diag = true ->
          conflict_marker_mode o = true /\ failed diag = false)
      /\ Forall (fun d => mismatch d = None) (details diag)
  | Raise e =>
      operation fp <> Create
      /\ (fs_read_text (fs_path resolved_path) w).1 = Raise e
  end.
Proof.
  apply (in_memory_cases fp resolved_path root_folder o w
           (fun '(new_text, stats, diag) =>
              (failed diag = true ->
               conflict_marker_mode o = false /\ conflicted diag = false)
              /\ (conflicted diag = true ->
                  conflict_marker_mode o = true /\ failed diag = false)
              /\ Forall (fun d => mismatch d = None) (details diag))).
  intros t ls.
  destruct (apply_hunks_to_text_run fp o t ls) as (st & outs & Hrun & ->).
  eexists. split; [done |].
  destruct (run_flags _ _ _ _ _ Hrun) as (Hf & Hc & Hft & Hcf & ds & Hd & Hall).
  cbn [mem_init diagnostics failed conflicted details] in *.
  rewrite Hd. cbn [app]. split; [| split; [| done]].
  - intros Hfail. destruct (Hf Hfail) as [|Hm]; [done |]. auto.
  - intros Hcon. destruct (Hc Hcon) as [|Hm]; [done |]. auto.
Qed.

(** X14: [hunks_applied] counts every hunk of the patch unless the file failed:
    a hunk replaced by conflict markers is counted as applied, and on
    failure the count is that of the hunks before the failing one. *)
Theorem hunks_applied_counts_all_but_a_failure `{FileSystem} (fp : FilePatch)
  (resolved_path root_folder : Py.str) (o : Options) (w : World) :
  match (_apply_filepatch_in_memory fp resolved_path root_folder o w).1 with
  | Ok (new_text, stats, diag) =>
      (failed diag = false -> hunks_applied stats = Py.len (hunks fp))
      /\ (failed diag = true -> 0 <= hunks_applied stats < Py.len (hunks fp))
  | Raise e =>
      operation fp <> Create
      /\ (fs_read_text (fs_path resolved_path) w).1 = Raise e
  end.
Proof.
  apply (in_memory_cases fp resolved_path root_folder o w
           (fun '(new_text, stats, diag) =>
              (failed diag = false -> hunks_applied stats = Py.len (hunks fp))
              /\ (failed diag = true ->
                  0 <= hunks_applied stats < Py.len (hunks fp)))).
  intros t ls.
  destruct (apply_hunks_to_text_run fp o t ls) as (st & outs & Hrun & ->).
  eexists. split; [done |].
  destruct (run_applied _ _ _ _ _ Hrun eq_refl) as [H1 H2].
  cbn [mem_init stats hunks_applied] in *.
  split; [intros Hf; rewrite (H1 Hf); lia | intros Hf; specialize (H2 Hf); lia].
Qed.

(** X15: The counters of the hunk loop balance: [line_offset] is always
    [lines_added - lines_removed], and without conflict markers the buffer
    has the lines it started with plus [line_offset], also when the loop
    stops at a hunk that fails. *)
Theorem line_count_follows_the_counters
  (o : Options) (original_lines : list Py.str) (hs : list Hunk) :
  exists st outs,
    hunks_loop o (mem_init original_lines) 0 hs = Ok (st, outs)
    /\ line_offset st = lines_added (stats st) - lines_removed (stats st)
    /\ (conflict_marker_mode o = false ->
        Py.len (out_lines st) = Py.len original_lines + line_offset st).
Proof.
  destruct (hunks_loop_run o hs (mem_init original_lines) 0)
    as (st & outs & Hloop & Hrun).
  exists st, outs. split; [done |].
  destruct (run_counters _ _ _ _ _ Hrun) as [H1 H2].
  cbn [mem_init line_offset stats lines_added lines_removed out_lines] in *.
  split; [lia | intros Hc; specialize (H2 Hc); lia].
Qed.

(** X16: The fix-up of the trailing empty line never changes the lines that
    were read: the text that ends with a newline already splits into
    lines of which the last is empty. *)
Theorem trailing_fix_keeps_the_lines (text : Py.str) :
  fix_trailing (lines_of_text text).1 (lines_of_text text).2
  = (lines_of_text text).2.
Proof.
  unfold lines_of_text, fix_trailing. cbn [fst snd].
  destruct (Py.endswith _ Py.LF) eqn:He; [| done].
  pose proof (TextFacts.split_last_empty 10%N _ He) as Hl.
  change [10%N] with Py.LF in Hl. unfold Py.str in *. by rewrite Hl.
Qed.

(** X17: A file patch without hunks leaves the text of the file as it was
    read, up to its line endings, which are folded to LF; nothing is
    counted and nothing is diagnosed. *)
Theorem patch_without_hunks_keeps_the_text `{FileSystem} (fp : FilePatch)
  (resolved_path root_folder : Py.str) (o : Options) (w w' : World)
  (text : Py.str) :
  hunks fp = [] ->
  operation fp <> Create ->
  fs_read_text (fs_path resolved_path) w = (Ok text, w') ->
  _apply_filepatch_in_memory fp resolved_path root_folder o w
  = (Ok (Py.replace Py.CR Py.LF (Py.replace Py.CRLF Py.LF text),
         mkStats 0 0 0, mkDiagnostics false false []), w').
Proof.
  intros Hh Hop Hread.
  assert (Hrun : apply_hunks_to_text fp o (lines_of_text text).1
                   (lines_of_text text).2
                 = Ok (Py.replace Py.CR Py.LF (Py.replace Py.CRLF Py.LF text),
                       mkStats 0 0 0, mkDiagnostics false false [])).
  { unfold apply_hunks_to_text. rewrite Hh. cbn [hunks_loop rbind mem_init].
    cbn [out_lines stats diagnostics].
    assert (Hfix : fix_trailing (lines_of_text text).1 (lines_of_text text).2
                   = (lines_of_text text).2).
    { unfold lines_of_text, fix_trailing. cbn [fst snd].
      destruct (Py.endswith _ Py.LF) eqn:He; [| done].
      pose proof (TextFacts.split_last_empty 10%N _ He) as Hl.
      change [10%N] with Py.LF in Hl. unfold Py.str in *. by rewrite Hl. }
    rewrite Hfix. unfold lines_of_text. cbn [snd].
    do 3 f_equal. apply (TextFacts.join_split 10%N). }
  unfold _apply_filepatch_in_memory, mbind, lift_result.
  destruct (operation fp); try (by destruct Hop); rewrite Hread;
    destruct (lines_of_text text) as [t ls]; cbn [fst snd] in Hrun;
    by rewrite Hrun.
Qed.

(** An instance: a patch without hunks for [/r/data.json]. *)
Lemma patch_without_hunks_keeps_the_text_witness :
  (_apply_filepatch_in_memory Examples.mode_only_patch (u "/r/data.json")
     Examples.ROOT Examples.opts Examples.world_json).1
  = Ok (Examples.json_old ++ Py.LF, mkStats 0 0 0,
        mkDiagnostics false false []).
Proof.
  rewrite (@patch_without_hunks_keeps_the_text MemFS.mem_fs
             Examples.mode_only_patch
             (u "/r/data.json") Examples.ROOT Examples.opts
             Examples.world_json Examples.world_json
             (Examples.json_old ++ Py.LF));
    [reflexivity | reflexivity | discriminate | reflexivity].
Defined.

End HunkApplyFacts.

(* ===================================================================== *)
(** * What preview and disk apply do to the file system *)
(* ===================================================================== *)

Module WorldFacts.
Import Models PatchApplier.
Local Open Scope Z_scope.








End WorldFacts.

(* ===================================================================== *)
(** * What a preflight record tells *)
(* ===================================================================== *)

Module PreflightFacts.
Import Models PatchApplier.

(** The status and the resolved path of the record of one file. *)
Lemma preflight_file_found `{FileSystem} (w : World) (root : Path)
  (o : Options) (fp : FilePatch) :
  let r := preflight_file w (Some root) o fp in
  let target := fs_resolve w (fs_join root (fs_path (candidate_rel fp))) in
  r_status r = Found -> r_resolved r <> [] ->
  r_resolved r = fs_str target
  /\ is_Some (fs_relative_to target root)
  /\ is_binary fp = false
  /\ (strict_filename_match o = true -> weird_name (candidate_rel fp) = false)
  /\ match operation fp with
     | Modify | Delete => fs_exists w target = true
     | Create => fs_exists w (fs_parent target) = true
     | Rename =>
         allow_rename_delete_mode_changes o = true
         /\ (old_path fp <> [] -> old_path fp <> UnifiedDiffParser.DEV_NULL ->
             let old_abs :=
               fs_resolve w (fs_join root (fs_path (old_path fp))) in
             is_Some (fs_relative_to old_abs root)
             /\ fs_exists w old_abs = true)
     end.
Proof.
  intros r target. subst r. unfold preflight_file. fold target.
  destruct (Py.eqb _ [] || _); [done |].
  destruct (strict_filename_match o && weird_name _) eqn:Ew; [done |].
  destruct (fs_str target) eqn:Es; [done |]. rewrite <- Es.
  destruct (fs_relative_to target root) eqn:Er; [| done].
  unfold status_under_root.
  destruct (is_binary fp); [done |].
  assert (Hw : strict_filename_match o = true ->
               weird_name (candidate_rel fp) = false).
  { intros Hs. by rewrite Hs in Ew. }
  destruct (operation fp).
  - destruct (fs_exists w (fs_parent target)); [| done]. by intros _ _.
  - destruct (fs_exists w target); [| done]. by intros _ _.
  - destruct (fs_exists w target); [| done]. by intros _ _.
  - destruct (allow_rename_delete_mode_changes o); [| done]. cbn [negb].
    destruct (Py.eqb (old_path fp) []) eqn:E1; cbn [negb andb].
    { apply PyFacts.eqb_spec in E1. intros _ _. by repeat split. }
    destruct (Py.eqb (old_path fp) UnifiedDiffParser.DEV_NULL) eqn:E2;
      cbn [negb andb].
    { apply PyFacts.eqb_spec in E2. intros _ _. by repeat split. }
    destruct (fs_relative_to
                (fs_resolve w (fs_join root (fs_path (old_path fp)))) root)
      eqn:Er2; [| done].
    destruct (fs_exists w
                (fs_resolve w (fs_join root (fs_path (old_path fp)))))
      eqn:Ee; [| done]. intros _ _.
    repeat split; try done.
Qed.

(** X20: A record that preflight marks as found, with a resolved path, is ready
    to be applied: a root folder was given, the path resolves below it, the
    patch is not binary, and the file system has what the operation needs
    (the file for a modify or a delete, the parent folder for a create, and
    for a rename the permission and the source file below the root). *)
Theorem found_record_is_ready `{FileSystem} (w : World) (patchset : PatchSet)
  (root_folder : Py.str) (o : Options) (r : ReportEntry) :
  r ∈ preflight w patchset root_folder o ->
  r_status r = Found -> r_resolved r <> [] ->
  let fp := r_filepatch r in
  let root := fs_resolve w (fs_path root_folder) in
  let target := fs_resolve w (fs_join root (fs_path (candidate_rel fp))) in
  fp ∈ files patchset
  /\ root_folder <> []
  /\ r_resolved r = fs_str target
  /\ is_Some (fs_relative_to target root)
  /\ is_binary fp = false
  /\ (strict_filename_match o = true -> weird_name (candidate_rel fp) = false)
  /\ match operation fp with
     | Modify | Delete => fs_exists w target = true
     | Create => fs_exists w (fs_parent target) = true
     | Rename =>
         allow_rename_delete_mode_changes o = true
         /\ (old_path fp <> [] -> old_path fp <> UnifiedDiffParser.DEV_NULL ->
             let old_abs :=
               fs_resolve w (fs_join root (fs_path (old_path fp))) in
             is_Some (fs_relative_to old_abs root)
             /\ fs_exists w old_abs = true)
     end.
Proof.
  intros Hin Hst Hres. unfold preflight in Hin.
  apply list_elem_of_In, in_map_iff in Hin as (fp & <- & Hfp).
  apply list_elem_of_In in Hfp.
  destruct root_folder as [|c root_folder]; [done |].
  assert (Hfp' : r_filepatch
                   (preflight_file w
                      (Some (fs_resolve w (fs_path (c :: root_folder)))) o fp)
                 = fp).
  { unfold preflight_file. by repeat case_match. }
  rewrite Hfp'. cbv zeta. split; [done |]. split; [done |].
  by apply preflight_file_found.
Qed.

(** An instance: the record of [data.json] under the root [/r]. *)
Lemma found_record_is_ready_witness :
  let r :=
    mkReportEntry (u "data.json") Modify (u "/r/data.json") Found []
      (hd Examples.mode_only_patch (files Examples.patch_json)) in
  r ∈ preflight Examples.world_json Examples.patch_json Examples.ROOT
        Examples.opts
  /\ fs_exists Examples.world_json (u "/r/data.json") = true.
Proof.
  intros r.
  assert (Hin : r ∈ preflight Examples.world_json Examples.patch_json
                      Examples.ROOT Examples.opts).
  { vm_compute. left. }
  split; [exact Hin |].
  refine (proj2 (proj2 (proj2 (proj2 (proj2 (proj2
    (@found_record_is_ready MemFS.mem_fs Examples.world_json
       Examples.patch_json Examples.ROOT Examples.opts r Hin _ _))))))).
  - reflexivity.
  - discriminate.
Defined.

End PreflightFacts.

(* ===================================================================== *)
(** * The text the diff generator writes *)
(* ===================================================================== *)

Module DiffFacts.
Import Models DiffGenerator.

(** Folding CR LF keeps a final LF. *)
Lemma fold_crlf_final_lf (front : Py.str) :
  (exists front', Spec.fold_crlf (front ++ [10%N]) = front' ++ [10%N])
  /\ (forall c, exists front',
        Spec.fold_crlf (c :: front ++ [10%N]) = front' ++ [10%N]).
Proof.
  induction front as [|d front [IHa IHb]].
  - split; [by exists [] |]. intros c. cbn.
    destruct (c =? 13)%N; cbn; [by exists [] | by exists [c]].
  - split; [apply IHb |]. intros c.
    change (Spec.fold_crlf (c :: (d :: front) ++ [10%N]))
      with (if ((c =? 13) && (d =? 10))%N
            then 10%N :: Spec.fold_crlf (front ++ [10%N])
            else c :: Spec.fold_crlf (d :: front ++ [10%N])).
    destruct ((c =? 13) && (d =? 10))%N.
    + destruct IHa as [f ->]. by exists (10%N :: f).
    + destruct (IHb d) as [f ->]. by exists (c :: f).
Qed.

(** Folding the line endings of a text keeps its final LF. *)
Lemma folded_endswith_lf (text : Py.str) :
  Py.endswith text Py.LF = true ->
  Py.endswith (Py.replace Py.CR Py.LF (Py.replace Py.CRLF Py.LF text)) Py.LF
  = true.
Proof.
  intros [front ->]%TextFacts.endswith_spec.
  rewrite PyFacts.replace_crlf, PyFacts.replace_cr.
  destruct (proj1 (fold_crlf_final_lf front)) as [f Hf].
  change Py.LF with [10%N]. unfold Py.str in *. rewrite Hf.
  apply TextFacts.endswith_spec. exists (Spec.fold_cr f).
  unfold Spec.fold_cr. by rewrite map_app.
Qed.

(** X21: The lines the generator compares are the LF-split of the folded text:
    the fix-up for a trailing newline never adds a line. *)
Theorem diff_lines_is_the_split (text : Py.str) :
  diff_lines text
  = Py.split Py.LF (Py.replace Py.CR Py.LF (Py.replace Py.CRLF Py.LF text)).
Proof.
  unfold diff_lines.
  destruct (Py.endswith text Py.LF) eqn:He; [| done].
  pose proof (TextFacts.split_last_empty 10%N _ (folded_endswith_lf text He))
    as Hl.
  change [10%N] with Py.LF in Hl. unfold Py.str in *. by rewrite Hl.
Qed.

(** The lines the generator compares hold no LF. *)
Lemma diff_lines_no_lf (text : Py.str) :
  Forall (fun l => 10%N ∉ l) (diff_lines text).
Proof.
  unfold diff_lines.
  pose proof (TextFacts.split_pieces 10%N
                (Py.replace Py.CR Py.LF (Py.replace Py.CRLF Py.LF text))) as Hs.
  change [10%N] with Py.LF in Hs.
  destruct (_ && _); [| done].
  apply Forall_app. split; [done |]. constructor; [| done]. apply not_elem_of_nil.
Qed.

Lemma sub_Forall (P : Py.str -> Prop) (l : list Py.str) (lo hi : nat) :
  Forall P l -> Forall P (Difflib.sub l lo hi).
Proof. intros Hl. unfold Difflib.sub. by apply Forall_take, Forall_drop. Qed.

Lemma tagged_no_lf (t : N) (l : list Py.str) :
  t <> 10%N -> Forall (fun x => 10%N ∉ x) l ->
  Forall (fun x => 10%N ∉ x) (map (fun line => t :: line) l).
Proof.
  intros Ht Hl. apply List.Forall_map.
  eapply Forall_impl; [exact Hl |]. intros x Hx Hin.
  apply elem_of_cons in Hin as [?|?]; [by apply Ht | done].
Qed.

(** No string yielded for an opcode holds an LF. *)
Lemma opcode_lines_no_lf (a b : list Py.str) (c : Difflib.Opcode) :
  Forall (fun l => 10%N ∉ l) a -> Forall (fun l => 10%N ∉ l) b ->
  Forall (fun l => 10%N ∉ l) (Difflib.opcode_lines a b c).
Proof.
  intros Ha Hb. unfold Difflib.opcode_lines.
  destruct (Difflib.tag c); rewrite ?Forall_app;
    repeat split;
    (apply (tagged_no_lf 32) || apply (tagged_no_lf 45)
     || apply (tagged_no_lf 43));
    try done; by apply sub_Forall.
Qed.

Lemma concat_no_lf (ls : list Py.str) :
  Forall (fun l => 10%N ∉ l) ls -> 10%N ∉ concat ls.
Proof.
  intros Hl Hin. apply list_elem_of_In, in_concat in Hin as (l & Hl1 & Hl2).
  rewrite Forall_forall in Hl.
  apply (Hl l); by apply list_elem_of_In.
Qed.

(** The text of the groups: one header line each, then a body without
    any LF. *)
Lemma groups_text (a b : list Py.str) (groups : list (list Difflib.Opcode)) :
  Forall (fun l => 10%N ∉ l) a -> Forall (fun l => 10%N ∉ l) b ->
  exists hunks : list (Py.str * Py.str),
    concat (flat_map (Difflib.group_lines a b Py.LF) groups)
    = concat (map (fun hb => hb.1 ++ Py.LF ++ hb.2) hunks)
    /\ Forall (fun hb => Py.startswith hb.1 (u "@@ -") = true
                         /\ Py.endswith hb.1 (u " @@") = true
                         /\ 10%N ∉ hb.2) hunks.
Proof.
  intros Ha Hb. induction groups as [|g gs (hunks & Heq & Hall)].
  { by exists []. }
  cbn [flat_map]. rewrite concat_app, Heq.
  unfold Difflib.group_lines.
  destruct g as [|first rest]; [by exists hunks |].
  destruct (last (first :: rest)) as [last_|]; [| by exists hunks].
  exists ((u "@@ -"
           ++ Difflib._format_range_unified (Difflib.i1 first)
                (Difflib.i2 last_)
           ++ u " +"
           ++ Difflib._format_range_unified (Difflib.j1 first)
                (Difflib.j2 last_)
           ++ u " @@",
           concat (flat_map (Difflib.opcode_lines a b) (first :: rest)))
          :: hunks).
  split.
  - cbn [map concat fst snd]. by rewrite <- !app_assoc.
  - constructor; [| done]. cbn [fst snd].
    split; [apply TextFacts.startswith_app |]. split.
    + apply TextFacts.endswith_spec. eexists. by rewrite !app_assoc.
    + apply concat_no_lf, List.Forall_flat_map, Forall_forall.
      intros c _. by apply opcode_lines_no_lf.
Qed.

(** X22: Every hunk the generator writes has its whole body on one line: the
    text is the two file header lines (or nothing), then for each hunk its
    header line, ended by LF, and a body that holds no LF at all, neither
    between the lines of the hunk nor after the last one. *)
Theorem generated_hunk_bodies_hold_no_line_break
  (old_text new_text old_path new_path : Py.str) :
  exists (head : Py.str) (hunks : list (Py.str * Py.str)),
    generate_unified_for_file old_text new_text old_path new_path
    = head ++ concat (map (fun hb => hb.1 ++ Py.LF ++ hb.2) hunks)
    /\ (head = []
        \/ head = u "--- " ++ old_path ++ Py.LF
                  ++ u "+++ " ++ new_path ++ Py.LF)
    /\ Forall (fun hb => Py.startswith hb.1 (u "@@ -") = true
                         /\ Py.endswith hb.1 (u " @@") = true
                         /\ 10%N ∉ hb.2) hunks.
Proof.
  unfold generate_unified_for_file, Difflib.unified_diff.
  destruct (Difflib.get_grouped_opcodes _ _ 3) as [|g gs].
  { exists [], []. split; [done | split; [by left | done]]. }
  destruct (groups_text (diff_lines old_text) (diff_lines new_text) (g :: gs)
              (diff_lines_no_lf old_text) (diff_lines_no_lf new_text))
    as (hunks & Heq & Hall).
  exists (u "--- " ++ old_path ++ Py.LF ++ u "+++ " ++ new_path ++ Py.LF), hunks.
  split; [| split; [by right | done]].
  rewrite concat_app, Heq. cbn [concat]. by rewrite app_nil_r, <- !app_assoc.
Qed.

(** The piece of a file that is not binary ends with LF. *)
Lemma file_piece_lf (baseline outputs : gmap Py.str Py.str) (fp : FilePatch) :
  match file_piece baseline outputs fp with
  | Some piece => is_binary fp = false /\ Py.endswith piece Py.LF = true
  | None => is_binary fp = true
  end.
Proof.
  unfold file_piece. destruct (is_binary fp); [done |]. split; [done |].
  match goal with
  | |- context [if Py.endswith ?p Py.LF then _ else _] =>
      destruct (Py.endswith p Py.LF) eqn:He
  end; [done |].
  apply TextFacts.endswith_spec. by eexists.
Qed.

(** X23: The text for a patch set is empty exactly when every file of the set
    is binary; otherwise it ends with LF, each file that is not binary
    having added a piece that ends with LF. *)
Theorem patchset_text_ends_with_lf
  (baseline outputs : gmap Py.str Py.str) (patchset : PatchSet) :
  let text := generate_unified_patchset baseline outputs patchset in
  (text = [] <-> Forall (fun fp => is_binary fp = true) (files patchset))
  /\ (text <> [] -> Py.endswith text Py.LF = true).
Proof.
  unfold generate_unified_patchset. cbv zeta.
  induction (files patchset) as [|fp fps [IH1 IH2]].
  { split; [done |]. by intros []. }
  cbn [omap list_omap]. pose proof (file_piece_lf baseline outputs fp) as Hp.
  destruct (file_piece baseline outputs fp) as [piece|].
  - destruct Hp as [Hb He]. cbn [concat].
    apply TextFacts.endswith_spec in He as [front ->]. split.
    + split.
      * intros Hnil. apply (f_equal length) in Hnil.
        rewrite !length_app in Hnil. cbn in Hnil. lia.
      * intros Hall. apply Forall_cons in Hall as [Hfp _]. congruence.
    + intros _.
      destruct (concat (omap (file_piece baseline outputs) fps)) eqn:Ec.
      * rewrite app_nil_r. apply TextFacts.endswith_spec. by eexists.
      * apply TextFacts.endswith_spec in IH2 as [f2 Hf2]; [| done].
        apply TextFacts.endswith_spec. exists ((front ++ Py.LF) ++ f2).
        by rewrite Hf2, app_assoc.
  - split; [| done]. rewrite IH1. split.
    + intros Hall. by constructor.
    + by intros [_ ?]%Forall_cons.
Qed.

End DiffFacts.

(* ===================================================================== *)
(** * File header lines *)
(* ===================================================================== *)

Module PathFacts.
Import Models UnifiedDiffParser.

Lemma contains_one (c : N) (s : Py.str) :
  Py.contains s [c] = true <-> c ∈ s.
Proof.
  induction s as [|d s IH].
  - split; [done | by intros ?%elem_of_nil].
  - cbn [Py.contains]. rewrite TextFacts.startswith_one.
    by rewrite elem_of_cons, <- IH, orb_true_iff, bool_decide_eq_true.
Qed.

Lemma split_scan_first (c : N) (p rest cur : Py.str) :
  c ∉ p ->
  Py.split_scan [c] 0 cur (p ++ c :: rest)
  = (rev cur ++ p) :: Py.split_scan [c] 0 [] rest.
Proof.
  revert cur. induction p as [|d p IH]; intros cur Hc.
  - cbn [app Py.split_scan]. rewrite TextFacts.startswith_one.
    rewrite bool_decide_eq_true_2 by done. by rewrite app_nil_r.
  - apply not_elem_of_cons in Hc as [Hd Hp].
    cbn [app Py.split_scan]. rewrite TextFacts.startswith_one.
    rewrite bool_decide_eq_false_2 by done.
    rewrite IH by done. cbn [rev]. by rewrite <- app_assoc.
Qed.

(** X24: The path of a file header line reads back: written after the prefix,
    with or without a TAB and a time stamp behind it, a path that holds no
    TAB and no surrounding white space is what the parser returns. *)
Theorem header_path_reads_back (prefix p stamp : Py.str) :
  9%N ∉ p -> Py.strip p = p ->
  _parse_path_from_header_line (prefix ++ p) prefix = p
  /\ _parse_path_from_header_line (prefix ++ p ++ Py.TAB ++ stamp) prefix = p.
Proof.
  intros Ht Hs. unfold _parse_path_from_header_line.
  rewrite !drop_app_length. split.
  - destruct (Py.contains p Py.TAB) eqn:Ec; [| done].
    by apply contains_one in Ec.
  - assert (Hc : Py.contains (p ++ Py.TAB ++ stamp) Py.TAB = true).
    { apply contains_one. apply elem_of_app. right. left. }
    rewrite Hc. unfold Py.split_first, Py.split.
    change (p ++ Py.TAB ++ stamp) with (p ++ 9%N :: stamp).
    change Py.TAB with [9%N].
    by rewrite split_scan_first.
Qed.

(** An instance: a header line with a time stamp. *)
Lemma header_path_reads_back_witness :
  _parse_path_from_header_line (u "--- data.json") (u "--- ") = u "data.json"
  /\ _parse_path_from_header_line
       (u "--- data.json" ++ Py.TAB ++ u "2024-01-01 00:00:00") (u "--- ")
     = u "data.json".
Proof.
  refine (header_path_reads_back (u "--- ") (u "data.json")
            (u "2024-01-01 00:00:00") _ _).
  - apply (bool_decide_unpack _). by vm_compute.
  - reflexivity.
Defined.

End PathFacts.

(* ===================================================================== *)
(** * The file patches of a parsed patch set *)
(* ===================================================================== *)

Module PatchSetFacts.
Import Models PatchInputNormalizer UnifiedDiffParser Shapes.

Lemma binary_reason_nonempty (lns : list Py.str) (r : Py.str) :
  binary_reason_of lns = Some r -> r <> [].
Proof.
  induction lns as [|ln rest IH]; [done |]. cbn [binary_reason_of].
  destruct (Py.startswith ln (u "GIT binary patch")); [by intros [= <-] |].
  destruct (Py.startswith ln (u "Binary files ")); [by intros [= <-] | done].
Qed.

Lemma parse_hunks_tags (lns : list Py.str) :
  Forall tags_ok (_parse_hunks_from lns).
Proof.
  unfold _parse_hunks_from.
  destruct (HunkSyntaxFacts.hunks_loop_tags lns [] None) as [H1 H2];
    [done | done |].
  destruct (hunks_loop [] None lns) as [hs [c|]]; [| done].
  apply Forall_app. split; [done | by constructor].
Qed.

(** The two shapes of a file patch. *)
Lemma parse_block_shape (d : Dialect) (b : FileBlock) (fp : FilePatch) :
  parse_block d b = Some fp ->
  if is_binary fp
  then hunks fp = [] /\ operation fp = Modify /\ binary_reason fp <> []
  else binary_reason fp = [] /\ Forall tags_ok (hunks fp).
Proof.
  unfold parse_block. set (lns := Py.split Py.LF (block_text b)).
  clearbody lns. destruct d.
  - unfold _parse_classic_block.
    destruct (binary_reason_of lns) as [r|] eqn:Er.
    { intros [= <-]. cbn. by apply binary_reason_nonempty in Er. }
    destruct (from_first_header lns) as [[|first rest]|]; try done.
    destruct (find_new_header rest) as [[h|] rest']; [| done].
    intros [= <-]. cbn. split; [done | apply parse_hunks_tags].
  - unfold _parse_git_block.
    destruct (RE_DIFF_GIT _) as [[g1 g2]|]; [| done].
    destruct (binary_reason_of lns) as [r|] eqn:Er.
    { intros [= <-]. cbn. by apply binary_reason_nonempty in Er. }
    destruct (git_metadata_loop _ _) as [[md old_hdr] rest].
    destruct (match old_hdr with Some _ => _ | None => _ end) as [new_hdr rest'].
    intros [= <-]. cbn. split; [done | apply parse_hunks_tags].
  - unfold _parse_index_block.
    destruct (binary_reason_of lns) as [r|] eqn:Er.
    { intros [= <-]. cbn. by apply binary_reason_nonempty in Er. }
    destruct (find_old_header lns) as [[h|] rest]; [| done].
    destruct (find_new_header rest) as [[h'|] rest']; [| done].
    intros [= <-]. cbn. split; [done | apply parse_hunks_tags].
Qed.

(** X25: A file patch of a parsed patch set is of one of two shapes: a binary
    one has a reason, no hunks and the operation modify; any other has no
    reason, and each line of its hunks carries one of the three tags. *)
Theorem parsed_file_is_binary_or_has_tagged_hunks
  (d : Dialect) (file_blocks : list FileBlock) (fp : FilePatch) :
  fp ∈ files (parse d file_blocks) ->
  if is_binary fp
  then hunks fp = [] /\ operation fp = Modify /\ binary_reason fp <> []
  else binary_reason fp = [] /\ Forall tags_ok (hunks fp).
Proof.
  unfold parse. cbn [files].
  intros (b & _ & Hb)%list_elem_of_omap. by apply (parse_block_shape d b).
Qed.

(** An instance: the first file of a Git patch for two files. *)
Lemma parsed_file_is_binary_or_has_tagged_hunks_witness :
  let d := (normalize Examples.git_two_files).1.2 in
  let file_blocks := (normalize Examples.git_two_files).2 in
  exists fp,
    fp ∈ files (parse d file_blocks)
    /\ if is_binary fp
       then hunks fp = [] /\ operation fp = Modify /\ binary_reason fp <> []
       else binary_reason fp = [] /\ Forall tags_ok (hunks fp).
Proof.
  intros d file_blocks. eexists.
  refine (let Hin := _ in
          conj Hin (parsed_file_is_binary_or_has_tagged_hunks
                      d file_blocks _ Hin)).
  vm_compute. left.
Defined.

End PatchSetFacts.

(* ===================================================================== *)
(** * What the comparison of two lines ignores *)
(* ===================================================================== *)

Module MatchFacts.
Import PatchApplier.

Lemma lstrip_spaces (ws r : Py.str) :
  Forall (fun c => Py.isspace c = true) ws -> Py.lstrip (ws ++ r) = Py.lstrip r.
Proof.
  induction 1 as [|c ws Hc _ IH]; [done |]. cbn [app Py.lstrip]. by rewrite Hc.
Qed.

Lemma lstrip_lstrip_chars (chars r : Py.str) :
  Forall (fun c => Py.isspace c = true) chars ->
  Py.lstrip (Py.lstrip_chars chars r) = Py.lstrip r.
Proof.
  intros Hch. induction r as [|c r IH]; [done |].
  cbn [Py.lstrip_chars].
  match goal with
  | |- context [if ?b then _ else _] => destruct b eqn:Hin
  end; [| done].
  apply bool_decide_eq_true in Hin.
  rewrite IH. cbn [Py.lstrip]. rewrite Forall_forall in Hch.
  by rewrite (Hch c Hin).
Qed.

(** Without the whitespace option the comparison is on the lines with
    their trailing white space removed. *)
Lemma normalize_match_line_strict (s : Py.str) :
  _normalize_match_line s false = Py.rstrip s.
Proof.
  unfold _normalize_match_line, Py.rstrip, Py.rstrip_chars.
  rewrite rev_involutive, lstrip_lstrip_chars; [done |].
  by repeat constructor.
Qed.

(** X26: White space at the end of a line is never compared: with or without
    the option to ignore white space differences, a line and the same
    line followed by white space (blanks, tabs, a CR or LF) are compared
    as equal by the locator and by the application of a hunk. *)
Theorem trailing_white_space_is_never_compared
  (s ws : Py.str) (ignore_ws : bool) :
  Forall (fun c => Py.isspace c = true) ws ->
  _normalize_match_line (s ++ ws) ignore_ws = _normalize_match_line s ignore_ws.
Proof.
  intros Hws.
  assert (Hr : Py.rstrip (Py.rstrip_chars (Py.CR ++ Py.LF) (s ++ ws))
               = Py.rstrip (Py.rstrip_chars (Py.CR ++ Py.LF) s)).
  { unfold Py.rstrip, Py.rstrip_chars.
    rewrite !rev_involutive, !lstrip_lstrip_chars by (by repeat constructor).
    rewrite rev_app_distr, lstrip_spaces; [done |].
    apply Forall_forall. intros c Hc. rewrite Forall_forall in Hws.
    apply Hws. by apply (TextFacts.elem_of_rev c ws). }
  unfold _normalize_match_line. by rewrite Hr.
Qed.

(** An instance: a line with a blank and a CR behind it. *)
Lemma trailing_white_space_is_never_compared_witness :
  _normalize_match_line (u "x = 1" ++ [32%N; 13%N]) false
  = _normalize_match_line (u "x = 1") false.
Proof.
  apply (trailing_white_space_is_never_compared (u "x = 1") [32%N; 13%N] false).
  by repeat constructor.
Defined.

End MatchFacts.
